(** * Resume builder: conversation state machine

    A shallow embedding of the routing utilities and the four handlers of
    [agents/general_chat_section_routing.py] and [agents/section_nodes.py],
    and of the four routers of [graph_builder.py], with the properties of
    the specification stated over them and further properties of the code.

    Conventions of the embedding.
    - A Python [str] is a [string]; a character is a code point below 256.
    - A value of type [Any] (whatever [json.loads] can produce, or what the
      state stores untyped) is a [pyval].
    - A Python [dict] whose key order is observable ([section_objects],
      decision objects) is an association list with unique keys; the two
      dictionaries that are only read by key ([recommended_answers],
      [resume_sections]) are finite maps.
    - The program is read as Python 3.12 or later runs it: no earlier
      version parses [section_nodes.py].
    - A similarity score is a rational number where Python has a float: the
      two agree on every comparison the resolver makes as long as the texts
      are far shorter than the precision of a float.
    - The library calls the handlers make ([json.loads], [json.dumps],
      [str()] on a value, the completion call) and the text of the prompts
      are parameters of the development; the resolver is written over any
      similarity score and the handlers use it with the one of [difflib]. *)

From Stdlib Require Import String Ascii ZArith QArith Lia Lqa Bool Sorted.
From stdpp Require Import base option list strings gmap pretty.

Open Scope string_scope.
Open Scope list_scope.

(** ** Characters and strings *)

Module PyStr.

(** [str.isspace] on the code points below 256. *)
Definition is_space (c : ascii) : bool :=
  let n := nat_of_ascii c in
  (Nat.leb 9 n && Nat.leb n 13) || (Nat.leb 28 n && Nat.leb n 32)
  || Nat.eqb n 133 || Nat.eqb n 160.

(** [str.lower] on one code point below 256. *)
Definition lower_char (c : ascii) : ascii :=
  let n := nat_of_ascii c in
  if (Nat.leb 65 n && Nat.leb n 90)
     || (Nat.leb 192 n && Nat.leb n 222 && negb (Nat.eqb n 215))
  then ascii_of_nat (n + 32) else c.

Fixpoint lower (s : string) : string :=
  match s with
  | EmptyString => EmptyString
  | String c s' => String (lower_char c) (lower s')
  end.

Fixpoint lstrip (s : string) : string :=
  match s with
  | EmptyString => EmptyString
  | String c s' => if is_space c then lstrip s' else s
  end.

Fixpoint rstrip (s : string) : string :=
  match s with
  | EmptyString => EmptyString
  | String c s' =>
      match rstrip s' with
      | EmptyString => if is_space c then EmptyString else String c EmptyString
      | r => String c r
      end
  end.

(** [s.strip()] *)
Definition strip (s : string) : string := rstrip (lstrip s).

(** Truth value of a string: [bool(s)]. *)
Definition nonempty (s : string) : bool :=
  match s with EmptyString => false | _ => true end.

(** [sep.join(l)] *)
Fixpoint join (sep : string) (l : list string) : string :=
  match l with
  | [] => EmptyString
  | [x] => x
  | x :: rest => x +:+ sep +:+ join sep rest
  end.

Fixpoint insert_sorted (x : string) (l : list string) : list string :=
  match l with
  | [] => [x]
  | y :: rest => if String.leb x y then x :: l else y :: insert_sorted x rest
  end.

(** [sorted(l)] on strings (order of the code points). *)
Definition sorted (l : list string) : list string :=
  foldr insert_sorted [] l.

(** [s[:n]] *)
Definition prefix (n : nat) (s : string) : string := String.substring 0 n s.

End PyStr.

(** ** Untyped values *)

Set Warnings "-register-all".

Inductive pyval : Type :=
| PNone
| PBool (b : bool)
| PInt (z : Z)
| PFloat (q : Q)
| PStr (s : string)
| PList (l : list pyval)
| PDict (d : list (string * pyval)).

(** A [dict] with string keys, in insertion order. *)
Definition pydict (V : Type) : Type := list (string * V).

Module Dict.
Section Ops.
Context {V : Type}.

(** [d.get(k)] *)
Fixpoint get (k : string) (d : pydict V) : option V :=
  match d with
  | [] => None
  | (k', v) :: rest => if String.eqb k k' then Some v else get k rest
  end.

(** [k in d] *)
Definition mem (k : string) (d : pydict V) : bool :=
  match get k d with Some _ => true | None => false end.

(** [d.get(k, dflt)] *)
Definition get_default (k : string) (dflt : V) (d : pydict V) : V :=
  match get k d with Some v => v | None => dflt end.

(** [d[k] = v]: the value is replaced in place, a new key goes last. *)
Fixpoint set (k : string) (v : V) (d : pydict V) : pydict V :=
  match d with
  | [] => [(k, v)]
  | (k', v') :: rest =>
      if String.eqb k k' then (k', v) :: rest else (k', v') :: set k v rest
  end.

(** [list(d.keys())] *)
Definition keys (d : pydict V) : list string := map fst d.

(** [d.setdefault(k, v)] *)
Definition setdefault (k : string) (v : V) (d : pydict V) : pydict V :=
  if mem k d then d else set k v d.
End Ops.
End Dict.

Module Py.

(** [bool(v)] *)
Definition truthy (v : pyval) : bool :=
  match v with
  | PNone => false
  | PBool b => b
  | PInt z => negb (Z.eqb z 0)
  | PFloat q => negb (Qeq_bool q 0)
  | PStr s => PyStr.nonempty s
  | PList l => match l with [] => false | _ => true end
  | PDict d => match d with [] => false | _ => true end
  end.

(** [a or b] *)
Definition or_else (a b : pyval) : pyval := if truthy a then a else b.

(** Lists and dicts cannot be members of a set. *)
Definition hashable (v : pyval) : bool :=
  match v with
  | PList _ | PDict _ => false
  | _ => true
  end.

(** [v == s] for a string literal [s]. *)
Definition eq_str (v : pyval) (s : string) : bool :=
  match v with
  | PStr s' => String.eqb s' s
  | _ => false
  end.

(** [len(v)], [None] where Python raises [TypeError]. *)
Definition len (v : pyval) : option nat :=
  match v with
  | PStr s => Some (String.length s)
  | PList l => Some (length l)
  | PDict d => Some (length d)
  | _ => None
  end.

(** [v[:2]], [None] where Python raises: see [slice_fault] for what. *)
Definition slice2 (v : pyval) : option pyval :=
  match v with
  | PStr s => Some (PStr (PyStr.prefix 2 s))
  | PList l => Some (PList (take 2 l))
  | _ => None
  end.

(** Whether [iter(v)] succeeds. *)
Definition iterable (v : pyval) : bool :=
  match v with
  | PStr _ | PList _ | PDict _ => true
  | _ => false
  end.

End Py.

(** ** Exceptions *)

Inductive exn : Type :=
| ValueError (msg : string)
| TypeError
| AttributeError
| KeyError
| IndexError
| CompletionError.

Inductive result (A : Type) : Type :=
| Ok (a : A)
| Err (e : exn).
Arguments Ok {A} a.
Arguments Err {A} e.

(** ** The brace-span pattern

    The pattern that both [extract_and_validate_json] and
    [apply_section_changes_internal] hand to [re.search]: an opening brace,
    brace-free text, any number of groups made of a brace-delimited
    brace-free text followed by brace-free text, and a closing brace. The
    search returns the leftmost match. *)

Module Re.

Definition lbrace : ascii := "{"%char.
Definition rbrace : ascii := "}"%char.

Definition is_brace (c : ascii) : bool :=
  Ascii.eqb c lbrace || Ascii.eqb c rbrace.

(** The rest of a match after its opening brace. [inner] tells whether
    an inner group is open. Every character class of the pattern excludes
    both braces, so a position leaves a single way to go on. *)
Fixpoint match_tail (inner : bool) (s : string) : option string :=
  match s with
  | EmptyString => None
  | String c rest =>
      if Ascii.eqb c lbrace then
        if inner then None
        else option_map (String c) (match_tail true rest)
      else if Ascii.eqb c rbrace then
        if inner then option_map (String c) (match_tail false rest)
        else Some (String c EmptyString)
      else option_map (String c) (match_tail inner rest)
  end.

(** [re.search(...)] and [.group(0)] of the result. *)
Fixpoint search (s : string) : option string :=
  match s with
  | EmptyString => None
  | String c rest =>
      if Ascii.eqb c lbrace then
        match match_tail false rest with
        | Some tail => Some (String c tail)
        | None => search rest
        end
      else search rest
  end.

End Re.

(** ** [difflib.SequenceMatcher(None, a, b).ratio()]

    The matcher of Ratcliff and Obershelp as [difflib] runs it, with no junk
    test and with its [autojunk] heuristic left on, as the resolver calls
    it. When the second text has 200 characters or more, a character that
    occurs in it more than [len(b) // 100 + 1] times is popular: no block
    is looked for through it. The longest common block free of popular
    characters is taken, leftmost in [a] and then in [b]; it is then
    extended to the left and to the right as far as the two texts agree,
    popular characters included; and the same is done again on both sides of
    it. The score is twice the size of the blocks over the two lengths, and
    1 for two empty texts. *)

Module Difflib.

Fixpoint count (c : ascii) (l : list ascii) : nat :=
  match l with
  | [] => 0
  | x :: l' => (if Ascii.eqb x c then 1 else 0) + count c l'
  end.

(** The popular characters of the second text. *)
Definition popular (b : list ascii) (c : ascii) : bool :=
  Nat.leb 200 (length b) && Nat.ltb (length b / 100 + 1) (count c b).

Fixpoint common_prefix (a b : list ascii) : nat :=
  match a, b with
  | x :: a', y :: b' => if Ascii.eqb x y then S (common_prefix a' b') else 0
  | _, _ => 0
  end.

(** The common prefix that stops before a popular character. *)
Fixpoint common_unpopular (pop : ascii -> bool) (a b : list ascii) : nat :=
  match a, b with
  | x :: a', y :: b' =>
      if Ascii.eqb x y && negb (pop y) then S (common_unpopular pop a' b') else 0
  | _, _ => 0
  end.

(** Blocks are triples [(i, j, k)]: [a[i:i+k] == b[j:j+k]]. *)
Definition block : Type := nat * nat * nat.

Definition block_size (m : block) : nat := snd m.

Fixpoint scan_b (pop : ascii -> bool) (i : nat) (a b : list ascii) (j : nat)
    (best : block) : block :=
  match b with
  | [] => best
  | _ :: b' =>
      let k := common_unpopular pop a b in
      scan_b pop i a b' (S j) (if Nat.ltb (block_size best) k then (i, j, k) else best)
  end.

Fixpoint scan_a (pop : ascii -> bool) (a b : list ascii) (i : nat) (best : block)
  : block :=
  match a with
  | [] => best
  | _ :: a' => scan_a pop a' b (S i) (scan_b pop i a b 0 best)
  end.

(** [find_longest_match]: the best block free of popular characters, then
    the two loops that extend it over whatever matches next to it. *)
Definition find_longest_match (pop : ascii -> bool) (a b : list ascii) : block :=
  let '(i, j, k) := scan_a pop a b 0 (0, 0, 0) in
  let before := common_prefix (rev (take i a)) (rev (take j b)) in
  let after := common_prefix (drop (i + k) a) (drop (j + k) b) in
  (i - before, j - before, before + k + after).

(** Total size of the matching blocks. *)
Fixpoint matches (pop : ascii -> bool) (fuel : nat) (a b : list ascii) : nat :=
  match fuel with
  | O => 0
  | S fuel' =>
      let '(i, j, k) := find_longest_match pop a b in
      if Nat.eqb k 0 then 0
      else matches pop fuel' (take i a) (take j b) + k
           + matches pop fuel' (drop (i + k) a) (drop (j + k) b)
  end.

Definition ratio (a b : string) : Q :=
  let la := list_ascii_of_string a in
  let lb := list_ascii_of_string b in
  let total := length la + length lb in
  match total with
  | O => 1
  | S _ => Z.of_nat (2 * matches (popular lb) (S (length la)) la lb) # Pos.of_nat total
  end.

End Difflib.

(** ** Fuzzy section resolver: [normalize_section_name] *)

Definition section_aliases : pydict string :=
  [ ("skill", "skills");
    ("experience", "experiences");
    ("exp", "experiences");
    ("work", "experiences");
    ("edu", "education");
    ("school", "education");
    ("project", "projects");
    ("cert", "certificates");
    ("certification", "certificates");
    ("certs", "certificates");
    ("pub", "publications");
    ("publication", "publications");
    ("papers", "publications");
    ("lang", "languages");
    ("language", "languages");
    ("rec", "recommendations");
    ("recommendation", "recommendations");
    ("refs", "recommendations");
    ("references", "recommendations");
    ("contact", "contact");
    ("contacts", "contact");
    ("summary", "summary");
    ("about", "summary");
    ("custom", "custom");
    ("other", "custom");
    ("additional", "custom") ].

(** [x in l] for a list of strings. *)
Definition str_in (x : string) (l : list string) : bool :=
  existsb (String.eqb x) l.

(** [a > b] on similarity scores. *)
Definition Qgtb (a b : Q) : bool := negb (Qle_bool a b).

Definition threshold : Q := 6 # 10.

Section Resolver.

(** The similarity score, [SequenceMatcher(None, a, b).ratio()]. *)
Variable ratio : string -> string -> Q.

(** One round of the loop over [available_sections]. *)
Definition fuzzy_step (clean_input : string) (acc : option string * Q)
    (section : string) : option string * Q :=
  let similarity := ratio clean_input section in
  if Qgtb similarity (snd acc) && Qgtb similarity threshold
  then (Some section, similarity)
  else acc.

Definition fuzzy_match (clean_input : string) (available_sections : list string)
  : option string :=
  fst (fold_left (fuzzy_step clean_input) available_sections (None, 0%Q)).

Definition normalize_section_name (section_name : string)
    (available_sections : list string) : option string :=
  if negb (PyStr.nonempty section_name)
     || match available_sections with [] => true | _ => false end
  then None
  else
    let clean_input := PyStr.strip (PyStr.lower section_name) in
    if str_in clean_input available_sections then Some clean_input
    else
      let through_alias :=
        match Dict.get clean_input section_aliases with
        | Some canonical =>
            if str_in canonical available_sections then Some canonical else None
        | None => None
        end in
      match through_alias with
      | Some canonical => Some canonical
      | None => fuzzy_match clean_input available_sections
      end.

(** The call as the handlers make it, on a value taken from a decision
    object: a value that is not a string has no [lower]. *)
Definition normalize_section_value (section_name : pyval)
    (available_sections : list string) : result (option string) :=
  if negb (Py.truthy section_name)
     || match available_sections with [] => true | _ => false end
  then Ok None
  else
    match section_name with
    | PStr s => Ok (normalize_section_name s available_sections)
    | _ => Err AttributeError
    end.

End Resolver.

Definition canonical_sections : list string :=
  [ "skills"; "experiences"; "education"; "projects"; "summary"; "contact";
    "certificates"; "publications"; "languages"; "recommendations"; "custom" ].

(** ** Conversation state: [ResumeBuilderState]

    The fields the handlers read or write. A message keeps its role and its
    content; its identifier and its time stamp are fresh at every call of
    [make_message] and no handler reads them. [proposed_section_content]
    holds [PNone] when the attribute is [None] or deleted: every read goes
    through a truth test with [None] as the default. *)

Record Message : Type := make_message {
  role : string;
  content : pyval
}.

Record ResumeBuilderState : Type := mkState {
  jd_summary : option string;
  resume_sections : option (gmap string pyval);
  section_objects : pydict (pydict pyval);
  current_section : option string;
  context : list Message;
  recommended_answers : gmap string (list string);
  routing_attempts : Z;
  next_action : option string;
  proposed_section_content : pyval
}.

Definition set_resume_sections (v : option (gmap string pyval))
    (s : ResumeBuilderState) : ResumeBuilderState :=
  mkState (jd_summary s) v (section_objects s) (current_section s) (context s)
    (recommended_answers s) (routing_attempts s) (next_action s)
    (proposed_section_content s).

Definition set_section_objects (v : pydict (pydict pyval))
    (s : ResumeBuilderState) : ResumeBuilderState :=
  mkState (jd_summary s) (resume_sections s) v (current_section s) (context s)
    (recommended_answers s) (routing_attempts s) (next_action s)
    (proposed_section_content s).

Definition set_current_section (v : option string)
    (s : ResumeBuilderState) : ResumeBuilderState :=
  mkState (jd_summary s) (resume_sections s) (section_objects s) v (context s)
    (recommended_answers s) (routing_attempts s) (next_action s)
    (proposed_section_content s).

Definition set_context (v : list Message)
    (s : ResumeBuilderState) : ResumeBuilderState :=
  mkState (jd_summary s) (resume_sections s) (section_objects s)
    (current_section s) v (recommended_answers s) (routing_attempts s)
    (next_action s) (proposed_section_content s).

Definition set_recommended_answers (v : gmap string (list string))
    (s : ResumeBuilderState) : ResumeBuilderState :=
  mkState (jd_summary s) (resume_sections s) (section_objects s)
    (current_section s) (context s) v (routing_attempts s) (next_action s)
    (proposed_section_content s).

Definition set_routing_attempts (v : Z)
    (s : ResumeBuilderState) : ResumeBuilderState :=
  mkState (jd_summary s) (resume_sections s) (section_objects s)
    (current_section s) (context s) (recommended_answers s) v (next_action s)
    (proposed_section_content s).

Definition set_next_action (v : option string)
    (s : ResumeBuilderState) : ResumeBuilderState :=
  mkState (jd_summary s) (resume_sections s) (section_objects s)
    (current_section s) (context s) (recommended_answers s)
    (routing_attempts s) v (proposed_section_content s).

Definition set_proposed_section_content (v : pyval)
    (s : ResumeBuilderState) : ResumeBuilderState :=
  mkState (jd_summary s) (resume_sections s) (section_objects s)
    (current_section s) (context s) (recommended_answers s)
    (routing_attempts s) (next_action s) v.

(** ** Handlers as state transformers that may raise

    A handler mutates the one state object it is given; an exception leaves
    the mutations made so far in place. *)

Inductive outcome (A : Type) : Type :=
| Returns (a : A) (s : ResumeBuilderState)
| Raises (e : exn) (s : ResumeBuilderState).
Arguments Returns {A} a s.
Arguments Raises {A} e s.

Definition M (A : Type) : Type := ResumeBuilderState -> outcome A.

Definition ret {A : Type} (a : A) : M A := fun s => Returns a s.

Definition bind {A B : Type} (m : M A) (k : A -> M B) : M B :=
  fun s =>
    match m s with
    | Returns a s' => k a s'
    | Raises e s' => Raises e s'
    end.

Definition raise {A : Type} (e : exn) : M A := fun s => Raises e s.

Definition gets {A : Type} (f : ResumeBuilderState -> A) : M A :=
  fun s => Returns (f s) s.

Definition modify (f : ResumeBuilderState -> ResumeBuilderState) : M unit :=
  fun s => Returns tt (f s).

(** [try: body except Exception as e: handler e] *)
Definition try_catch {A : Type} (body : M A) (handler : exn -> M A) : M A :=
  fun s =>
    match body s with
    | Returns a s' => Returns a s'
    | Raises e s' => handler e s'
    end.

Definition lift_result {A : Type} (r : result A) : M A :=
  match r with
  | Ok a => ret a
  | Err e => raise e
  end.

Definition final_state {A : Type} (o : outcome A) : ResumeBuilderState :=
  match o with
  | Returns _ s => s
  | Raises _ s => s
  end.

Notation "x <- m ;; k" := (bind m (fun x => k))
  (at level 100, m at next level, k at level 200, right associativity).
Notation "m ;; k" := (bind m (fun _ => k))
  (at level 100, k at level 200, right associativity).

(** [state.context.append(state.make_message(role, content))] *)
Definition append_message (r : string) (c : pyval) : M unit :=
  modify (fun s => set_context (context s ++ [make_message r c]) s).

(** [len(v)] inside a handler. *)
Definition len_of (v : pyval) : M nat :=
  match Py.len v with
  | Some n => ret n
  | None => raise TypeError
  end.

Definition MAX_ROUTING_ATTEMPTS : Z := 3.

Definition nl : string := String "010"%char EmptyString.

(** What the completion call hands back once [safe_extract_text] has read
    it: the call raised, or it returned with a text or with none. *)
Inductive completion : Type :=
| Failed
| Replied (text : option string).

(** The values the four prompts interpolate. *)
Inductive prompt : Type :=
| GeneralChatPrompt (compact_sections : pydict pyval) (jd : option string)
| SectionChatPrompt (section : string) (questions : pyval)
    (answers : list string) (all_answered : bool) (available : list string)
    (section_data : pydict pyval)
| UpdaterPrompt (section : string) (original : pyval) (questions : pyval)
    (answers : list string)
| AnalysisPrompt (jd : option string) (section : string) (content : pyval).

Definition offline_decision : pydict pyval :=
  [ ("action", PStr "answer"); ("route", PNone);
    ("answer", PStr "(Offline) I received your query and will help once an API key is configured.") ].

Definition error_decision : pydict pyval :=
  [ ("action", PStr "answer"); ("route", PNone);
    ("answer", PStr "I encountered an error processing your request. Please try again.") ].

Definition valid_actions : list string := ["answer"; "route"].

(** [state.recommended_answers[section][i] = v] *)
Definition set_answer (section : string) (i : nat) (v : string) : M unit :=
  answers <- gets recommended_answers ;;
  match answers !! section with
  | None => raise KeyError
  | Some l =>
      if Nat.ltb i (length l)
      then modify (set_recommended_answers (<[section := <[i := v]> l]> answers))
      else raise IndexError
  end.

(** The loop over [enumerate(updated_answers)] of [section_chat_node]. *)
Fixpoint apply_updates (section : string) (n_current : nat) (i : nat)
    (updated_answers : list pyval) : M unit :=
  match updated_answers with
  | [] => ret tt
  | answer :: rest =>
      (if Nat.ltb i n_current && Py.truthy answer then
         match answer with
         | PStr a =>
             if PyStr.nonempty (PyStr.strip a)
             then set_answer section i (PyStr.strip a)
             else ret tt
         | _ => raise AttributeError
         end
       else ret tt) ;;
      apply_updates section n_current (S i) rest
  end.

(** The loop [for i in range(...): new_answers[i] = current_answers[i]],
    whose indices are within both lists. *)
Definition copy_answers (count : nat) (current_answers new_answers : list string)
  : list string :=
  fold_left
    (fun acc i =>
       match current_answers !! i with
       | Some a => <[i := a]> acc
       | None => acc
       end)
    (seq 0 count) new_answers.

Definition safe_initialize_answers (section_name : string) (questions : pyval)
  : M unit :=
  answers <- gets recommended_answers ;;
  match answers !! section_name with
  | None =>
      n <- len_of questions ;;
      modify (set_recommended_answers (<[section_name := replicate n EmptyString]> answers))
  | Some current_answers =>
      n <- len_of questions ;;
      if negb (Nat.eqb (length current_answers) n) then
        let new_answers :=
          copy_answers (Nat.min (length current_answers) n) current_answers
            (replicate n EmptyString) in
        modify (set_recommended_answers (<[section_name := new_answers]> answers))
      else ret tt
  end.

(** What [v[:2]] raises on a value that cannot be sliced. A dict looks the
    slice up as a key and has no such key: slices are hashable from Python
    3.12 on, and no earlier version parses [section_nodes.py], whose
    updater prompt has a backslash inside a replacement field. Any other
    such value has no subscript at all. *)
Definition slice_fault (v : pyval) : exn :=
  match v with
  | PDict _ => KeyError
  | _ => TypeError
  end.

(** The section summaries of the general-chat prompt. *)
Fixpoint compact_sections_of (sections : pydict (pydict pyval))
    (acc : pydict pyval) : result (pydict pyval) :=
  match sections with
  | [] => Ok acc
  | (s, data) :: rest =>
      match Py.slice2 (Dict.get_default "missing_requirements" (PList []) data) with
      | None =>
          Err (slice_fault (Dict.get_default "missing_requirements" (PList []) data))
      | Some first_two =>
          compact_sections_of rest
            (Dict.set s
               (PDict [ ("alignment_score", Dict.get_default "alignment_score" PNone data);
                        ("missing_requirements", first_two) ])
               acc)
      end
  end.

(** Whether the last message, if any, comes from the user. *)
Definition last_is_user (ctx : list Message) : bool :=
  match last ctx with
  | Some m => String.eqb (role m) "user"
  | None => false
  end.

Definition last_content (ctx : list Message) : pyval :=
  match last ctx with
  | Some m => Py.or_else (content m) (PStr EmptyString)
  | None => PStr EmptyString
  end.

(** [all(answer and len(str(answer).strip()) > 0 for answer in answers)] *)
Definition all_nonblank (answers : list string) : bool :=
  forallb (fun a => PyStr.nonempty a && PyStr.nonempty (PyStr.strip a)) answers.

Section Program.

(** The environment: the API key, the completion call, the JSON codec,
    [str()] on a value, the prompt texts and the symbol that opens the two
    messages of the applier. *)
Variable GOOGLE_API_KEY : option string.
Variable acompletion : string -> string -> nat -> completion.
Variable json_loads : string -> option pyval.
Variable json_dumps : pyval -> string.
Variable py_str : pyval -> string.
Variable render : prompt -> string.
Variable check_mark : string.

Definition OFFLINE_MODE : bool :=
  match GOOGLE_API_KEY with None => true | Some _ => false end.

(** *** Structured-decision extractor *)

Definition extract_and_validate_json (raw_text : string) : result (pydict pyval) :=
  if negb (PyStr.nonempty raw_text) || negb (PyStr.nonempty (PyStr.strip raw_text))
  then Err (ValueError "Empty response from LLM")
  else
    match Re.search raw_text with
    | None =>
        Ok [ ("action", PStr "answer"); ("route", PNone);
             ("answer", PStr (PyStr.strip raw_text)) ]
    | Some json_text =>
        match json_loads json_text with
        | None => Err (ValueError "Invalid JSON format")
        | Some (PDict parsed) =>
            match Dict.get "action" parsed with
            | None => Err (ValueError "Missing required 'action' key in JSON response")
            | Some action =>
                if negb (Py.hashable action) then Err TypeError
                else if existsb (Py.eq_str action) valid_actions then Ok parsed
                else Ok (Dict.set "action" (PStr "answer") parsed)
            end
        | Some _ => Err (ValueError "Response is not a JSON object")
        end
    end.

Definition text_or_empty (text : option string) : string :=
  match text with Some t => t | None => EmptyString end.

Definition call_llm_json_decision (system_prompt : string) (user_payload : pyval)
    (max_tokens : nat) : pydict pyval :=
  let user_text := json_dumps user_payload in
  if OFFLINE_MODE then offline_decision
  else
    match acompletion system_prompt user_text max_tokens with
    | Failed => error_decision
    | Replied text =>
        match extract_and_validate_json (text_or_empty text) with
        | Ok parsed => parsed
        | Err _ => error_decision
        end
    end.

(** *** The handlers

    The three handlers that ask for a decision reach [call_llm_json_decision]
    through the name they import; they are written over that name, [decide],
    and wired to the function above in the nodes of the graph below. *)

Section Handlers.

Variable decide : string -> pyval -> nat -> pydict pyval.

Definition not_found_message (name : pyval) (available_sections : list string)
    (ending : string) : string :=
  "I couldn't find section '" +:+ py_str name +:+ "'. Available: "
  +:+ PyStr.join ", " (PyStr.sorted available_sections) +:+ ". " +:+ ending.

(** The user's text of a general-chat turn: the greeting request when the
    last message is not the user's, the last message otherwise. *)
Definition general_chat_payload (ctx : list Message) (compact_sections : pydict pyval)
  : pyval :=
  let first_turn := negb (last_is_user ctx) in
  let user_text :=
    if first_turn
    then PStr "INITIAL_GREETING: Greet user, summarize JD, show sections with alignment scores."
    else last_content ctx in
  PDict [ ("user_query", user_text);
          ("sections_summary", PDict compact_sections);
          ("is_initial_greeting", PBool first_turn) ].

(** The decision of general chat, processed. *)
Definition general_chat_route (compact_sections : pydict pyval)
    (parsed : pydict pyval) : M unit :=
  let action := Dict.get_default "action" PNone parsed in
  let route_to := Dict.get_default "route" PNone parsed in
  let answer_text := Dict.get_default "answer" (PStr EmptyString) parsed in
  if Py.eq_str action "route" && Py.truthy route_to then
    let available_sections := Dict.keys compact_sections in
    normalized <- lift_result (normalize_section_value Difflib.ratio route_to available_sections) ;;
    match normalized with
    | Some (String c rest as normalized_section) =>
        modify (set_current_section (Some normalized_section)) ;;
        modify (set_next_action (Some "section_chat"))
    | _ =>
        append_message "assistant"
          (PStr (not_found_message route_to available_sections
                   "Which would you like to work on?")) ;;
        modify (set_next_action None)
    end
  else
    modify (set_next_action None) ;;
    if Py.truthy answer_text
    then append_message "assistant" answer_text
    else append_message "assistant" (PStr "How can I help you with your resume today?").

(** The two [except] clauses of general chat. *)
Definition general_chat_fault (e : exn) : M unit :=
  match e with
  | ValueError _ =>
      append_message "assistant" (PStr "Could you please rephrase your request?") ;;
      modify (set_next_action None)
  | _ =>
      append_message "assistant" (PStr "How can I help you with your resume?") ;;
      modify (set_next_action None)
  end.

Definition general_chat_and_section_routing : M unit :=
  attempts <- gets routing_attempts ;;
  if (MAX_ROUTING_ATTEMPTS <=? attempts)%Z then
    modify (set_current_section None) ;;
    modify (set_routing_attempts 0) ;;
    modify (set_next_action None) ;;
    append_message "assistant"
      (PStr "Let's start fresh - how can I help you with your resume?")
  else
    modify (fun s => set_routing_attempts (routing_attempts s + 1) s) ;;
    section <- gets current_section ;;
    (match section with
     | Some _ => modify (set_current_section None) ;; modify (set_next_action None)
     | None => ret tt
     end) ;;
    ctx <- gets context ;;
    sections <- gets section_objects ;;
    compact_sections <- lift_result (compact_sections_of sections []) ;;
    jd <- gets jd_summary ;;
    let system_prompt := render (GeneralChatPrompt compact_sections jd) in
    let payload := general_chat_payload ctx compact_sections in
    try_catch
      (let parsed := decide system_prompt payload 400 in
       modify (set_routing_attempts 0) ;;
       general_chat_route compact_sections parsed)
      general_chat_fault.

(** The routing decision of [section_chat_node], once the answers of the
    decision are applied. *)
Definition section_chat_route (section : string) (available_sections : list string)
    (parsed : pydict pyval) : M unit :=
  let action := Dict.get_default "action" (PStr "stay") parsed in
  let target_section := Dict.get_default "target_section" PNone parsed in
  let answer_text := Dict.get_default "answer" (PStr EmptyString) parsed in
  let say_answer :=
    if Py.truthy answer_text then append_message "assistant" answer_text else ret tt in
  if Py.eq_str action "switch_section" && Py.truthy target_section then
    normalized <- lift_result (normalize_section_value Difflib.ratio target_section available_sections) ;;
    match normalized with
    | Some (String c rest as normalized_section) =>
        if negb (String.eqb normalized_section section) then
          modify (set_current_section (Some normalized_section)) ;;
          modify (set_next_action (Some "section_chat")) ;;
          say_answer
        else
          modify (set_next_action (Some "section_chat")) ;;
          append_message "assistant"
            (Py.or_else answer_text
               (PStr ("You're already in the " +:+ section
                      +:+ " section. How can I help you improve it?")))
    | _ =>
        modify (set_next_action (Some "section_chat")) ;;
        append_message "assistant"
          (PStr (not_found_message target_section available_sections
                   ("Staying in " +:+ section +:+ ".")))
    end
  else if Py.eq_str action "exit_section" then
    modify (set_current_section None) ;;
    modify (set_next_action (Some "exit_to_general")) ;;
    append_message "assistant"
      (Py.or_else answer_text
         (PStr "Returning to general chat. How can I help with your resume?"))
  else if Py.eq_str action "trigger_updater" then
    modify (set_next_action (Some "section_updater")) ;;
    say_answer
  else if Py.eq_str action "trigger_applier" then
    modify (set_next_action (Some "section_applier")) ;;
    say_answer
  else
    modify (set_next_action None) ;;
    say_answer.

(** What section chat tells the oracle about the turn. *)
Definition section_chat_payload (section : string) (available_sections : list string)
    (recommended_questions : pyval) (current_answers : list string)
    (all_questions_answered : bool) (ctx : list Message) : pyval :=
  let is_first_entry := negb (last_is_user ctx) in
  let user_text :=
    if is_first_entry
    then PStr ("SECTION_ENTRY: User just entered " +:+ section +:+ " section.")
    else last_content ctx in
  PDict [ ("user_message", user_text);
          ("current_section", PStr section);
          ("available_sections", PList (map PStr available_sections));
          ("questions", recommended_questions);
          ("answers", PList (map PStr current_answers));
          ("all_answered", PBool all_questions_answered) ].

(** The answers of a decision, applied before its routing is looked at. *)
Definition section_chat_updates (section : string) (current_answers : list string)
    (parsed : pydict pyval) : M unit :=
  match Dict.get "updated_answers" parsed with
  | Some (PList updated_answers) =>
      apply_updates section (length current_answers) 0 updated_answers
  | _ => ret tt
  end.

(** The [except] clause of section chat. *)
Definition section_chat_fault (section : string) (e : exn) : M unit :=
  append_message "assistant"
    (PStr ("I'm here to help with your " +:+ section
           +:+ " section. What would you like to know?")) ;;
  modify (set_next_action (Some "section_chat")).

Definition section_chat_node : M unit :=
  active <- gets current_section ;;
  match active with
  | None | Some EmptyString =>
      append_message "assistant" (PStr "Please select a section to work on.") ;;
      modify (set_next_action (Some "exit_to_general"))
  | Some section =>
      sections <- gets section_objects ;;
      let section_data := Dict.get_default section [] sections in
      let recommended_questions :=
        Dict.get_default "recommended_questions" (PList []) section_data in
      let available_sections := Dict.keys sections in
      safe_initialize_answers section recommended_questions ;;
      answers <- gets recommended_answers ;;
      let current_answers := default [] (answers !! section) in
      ctx <- gets context ;;
      n_questions <- len_of recommended_questions ;;
      let all_questions_answered :=
        Nat.ltb 0 n_questions
        && Nat.eqb (length current_answers) n_questions
        && all_nonblank current_answers in
      let system_prompt :=
        render (SectionChatPrompt section recommended_questions current_answers
                  all_questions_answered available_sections section_data) in
      let payload :=
        section_chat_payload section available_sections recommended_questions
          current_answers all_questions_answered ctx in
      try_catch
        (let parsed := decide system_prompt payload 500 in
         section_chat_updates section current_answers parsed ;;
         section_chat_route section available_sections parsed)
        (section_chat_fault section)
  end.

(** [state.resume_sections.get(section, "")]: no [get] on [None]. *)
Definition stored_content (section : string) : M pyval :=
  stored <- gets resume_sections ;;
  match stored with
  | Some m => ret (default (PStr EmptyString) (m !! section))
  | None => raise AttributeError
  end.

Definition section_updater_node : M unit :=
  active <- gets current_section ;;
  match active with
  | None | Some EmptyString => modify (set_next_action (Some "exit_to_general"))
  | Some section =>
      sections <- gets section_objects ;;
      let section_data := Dict.get_default section [] sections in
      let recommended_questions :=
        Dict.get_default "recommended_questions" (PList []) section_data in
      answers <- gets recommended_answers ;;
      let current_answers := default [] (answers !! section) in
      original_content <- stored_content section ;;
      (if Py.iterable recommended_questions then ret tt else raise TypeError) ;;
      let system_prompt :=
        render (UpdaterPrompt section original_content recommended_questions
                  current_answers) in
      let payload :=
        PDict [ ("original_content", original_content);
                ("questions", recommended_questions);
                ("answers", PList (map PStr current_answers)) ] in
      try_catch
        (let parsed := decide system_prompt payload 600 in
         let updated_content :=
           Dict.get_default "updated_content" (PStr EmptyString) parsed in
         let summary := Dict.get_default "summary" (PStr "Content updated") parsed in
         (if Py.truthy updated_content then
            modify (set_proposed_section_content updated_content) ;;
            append_message "assistant"
              (PStr (py_str summary +:+ nl +:+ nl +:+ "**Updated " +:+ section
                     +:+ ":**" +:+ nl +:+ nl +:+ py_str updated_content +:+ nl +:+ nl
                     +:+ "Apply these changes? (say 'yes' or 'apply')"))
          else
            append_message "assistant"
              (PStr ("Having trouble updating " +:+ section +:+ ". Let's continue."))) ;;
         modify (set_next_action (Some "section_chat")))
        (fun _ =>
           append_message "assistant"
             (PStr ("Trouble updating " +:+ section
                    +:+ " content. Let's continue working on it.")) ;;
           modify (set_next_action (Some "section_chat")))
  end.

End Handlers.

Definition offline_analysis (section_name : string) : pydict pyval :=
  [ ("alignment_score", PInt 75);
    ("missing_requirements", PList [PStr "More examples needed"]);
    ("recommended_questions",
      PList [PStr ("Add more examples to " +:+ section_name +:+ "?")]);
    ("analysis_summary", PStr "Offline mode") ].

Definition analysis_defaults (d : pydict pyval) : pydict pyval :=
  Dict.setdefault "analysis_summary" (PStr "Updated successfully")
    (Dict.setdefault "recommended_questions" (PList [])
       (Dict.setdefault "missing_requirements" (PList [])
          (Dict.setdefault "alignment_score" (PInt 70) d))).

(** The reply of the analysis call, read as [apply_section_changes_internal]
    reads it: the first brace span, parsed if it parses. *)
Definition read_analysis (raw : string) : pyval :=
  match Re.search raw with
  | Some json_text =>
      match json_loads json_text with
      | Some v => v
      | None => PDict []
      end
  | None => PDict []
  end.

Definition analyze (jd : option string) (section_name : string)
    (updated_content : pyval) : result (pydict pyval) :=
  if OFFLINE_MODE then Ok (offline_analysis section_name)
  else
    match acompletion (render (AnalysisPrompt jd section_name updated_content))
            ("Section: " +:+ section_name +:+ nl +:+ "Content: " +:+ py_str updated_content)
            400 with
    | Failed => Err CompletionError
    | Replied text =>
        match read_analysis (text_or_empty text) with
        | PDict d => Ok (analysis_defaults d)
        | _ => Err AttributeError
        end
    end.

(** The analysis, written into the state: the metadata of the section, its
    answers reset for the new questions, and the confirmation. *)
Definition record_analysis (section_name : string) (analysis_result : pydict pyval)
  : M unit :=
  let score := Dict.get_default "alignment_score" PNone analysis_result in
  let missing := Dict.get_default "missing_requirements" PNone analysis_result in
  let questions := Dict.get_default "recommended_questions" PNone analysis_result in
  let summary := Dict.get_default "analysis_summary" (PStr EmptyString) analysis_result in
  modify (fun s =>
    if Dict.mem section_name (section_objects s) then s
    else set_section_objects (Dict.set section_name [] (section_objects s)) s) ;;
  modify (fun s =>
    let data := Dict.get_default section_name [] (section_objects s) in
    set_section_objects
      (Dict.set section_name
         (Dict.set "recommended_questions" questions
            (Dict.set "missing_requirements" missing
               (Dict.set "alignment_score" score data)))
         (section_objects s)) s) ;;
  (if Py.truthy questions then
     n <- len_of questions ;;
     modify (fun s =>
       set_recommended_answers
         (<[section_name := replicate n EmptyString]> (recommended_answers s)) s)
   else
     modify (fun s =>
       set_recommended_answers (<[section_name := []]> (recommended_answers s)) s)) ;;
  closing <-
    (if Py.truthy questions then
       n <- len_of questions ;;
       ret ("Continue with " +:+ py_str (PInt (Z.of_nat n)) +:+ " more questions?")
     else ret "Section complete! Switch to another section or continue refining.") ;;
  append_message "assistant"
    (PStr (check_mark +:+ " Applied changes to " +:+ section_name +:+ "!" +:+ nl +:+ nl
           +:+ "New alignment: " +:+ py_str score +:+ "%" +:+ nl
           +:+ py_str summary +:+ nl +:+ nl +:+ closing)).

(** The [except] clause of [apply_section_changes_internal]. *)
Definition apply_fault (section_name : string) (e : exn) : M unit :=
  append_message "assistant"
    (PStr (check_mark +:+ " Changes saved to " +:+ section_name
           +:+ ", but analysis failed. Continue working on this section.")).

Definition apply_section_changes_internal (section_name : string)
    (updated_content : pyval) : M unit :=
  stored <- gets resume_sections ;;
  match stored with
  | None => raise TypeError
  | Some m =>
      modify (set_resume_sections (Some (<[section_name := updated_content]> m))) ;;
      jd <- gets jd_summary ;;
      try_catch
        (analysis_result <- lift_result (analyze jd section_name updated_content) ;;
         record_analysis section_name analysis_result)
        (apply_fault section_name)
  end.

Definition section_applier_node : M unit :=
  active <- gets current_section ;;
  match active with
  | None | Some EmptyString => modify (set_next_action (Some "exit_to_general"))
  | Some section =>
      proposed <- gets proposed_section_content ;;
      content_to_apply <-
        (if Py.truthy proposed then ret proposed else stored_content section) ;;
      if negb (Py.truthy content_to_apply) then
        append_message "assistant"
          (PStr ("No content to apply for " +:+ section +:+ ". Please try again.")) ;;
        modify (set_next_action (Some "section_chat"))
      else
        apply_section_changes_internal section content_to_apply ;;
        modify (set_proposed_section_content PNone) ;;
        modify (set_next_action (Some "section_chat"))
  end.

(** *** The nodes of the graph: [graph.add_node(name, handler)] *)

Definition GeneralChat : M unit :=
  general_chat_and_section_routing call_llm_json_decision.

Definition SectionChat : M unit := section_chat_node call_llm_json_decision.

Definition SectionUpdater : M unit := section_updater_node call_llm_json_decision.

Definition SectionApplier : M unit := section_applier_node.

End Program.

(** ** [detect_question_matches] *)

Module Words.

(** [s.split()]: the maximal runs of characters that are not white space. *)
Fixpoint split_from (word : string) (s : string) : list string :=
  match s with
  | EmptyString => if PyStr.nonempty word then [word] else []
  | String c rest =>
      if PyStr.is_space c then
        if PyStr.nonempty word then word :: split_from EmptyString rest
        else split_from EmptyString rest
      else split_from (word +:+ String c EmptyString) rest
  end.

Definition split (s : string) : list string := split_from EmptyString s.

(** [set(s.lower().split())] *)
Definition word_set (s : string) : gset string :=
  list_to_set (split (PyStr.lower s)).

End Words.

(** An entry [(question_index, question_text, confidence_score)]. The
    confidence is a quotient of two word counts; it is kept as the exact
    fraction, which compares as the quotient does in floating point for
    questions of fewer than 2^26 words. *)
Definition match_entry : Type := nat * string * Q.

Definition confidence (m : match_entry) : Q := snd m.

(** The loop over [enumerate(questions)]. *)
Fixpoint collect_matches (user_words : gset string) (idx : nat)
    (questions : list string) : list match_entry :=
  match questions with
  | [] => []
  | question :: rest =>
      let question_words := Words.word_set question in
      let common_words := user_words ∩ question_words in
      if Nat.ltb 0 (size common_words) then
        (idx, question,
         Z.of_nat (size common_words) # Pos.of_nat (Nat.max (size question_words) 1))
        :: collect_matches user_words (S idx) rest
      else collect_matches user_words (S idx) rest
  end.

(** [sorted(matches, key=lambda x: x[2], reverse=True)]: the sort is stable,
    entries of equal confidence keep their order. *)
Fixpoint insert_by_confidence (x : match_entry) (l : list match_entry)
  : list match_entry :=
  match l with
  | [] => [x]
  | y :: rest =>
      if Qgtb (confidence y) (confidence x) then y :: insert_by_confidence x rest
      else x :: l
  end.

Definition sorted_by_confidence (l : list match_entry) : list match_entry :=
  foldr insert_by_confidence [] l.

Definition detect_question_matches (user_answer : string) (questions : list string)
  : list match_entry :=
  sorted_by_confidence (collect_matches (Words.word_set user_answer) 0 questions).

(** ** The conditional edges of the graph: [graph_builder.py]

    A router reads the state that a node leaves and names the next node; the
    path map of its edge sends each name to the node of that name. *)

Inductive node : Type :=
| GeneralChatNode
| SectionChatNode
| SectionUpdaterNode
| SectionApplierNode
| END.

Definition valid_sections : list string :=
  [ "skills"; "experiences"; "education"; "projects"; "summary"; "contact";
    "certificates"; "publications"; "languages"; "recommendations"; "custom" ].

(** [next_action == tag] *)
Definition next_action_is (tag : string) (st : ResumeBuilderState) : bool :=
  match next_action st with
  | Some a => String.eqb a tag
  | None => false
  end.

Definition route_from_general_chat (st : ResumeBuilderState) : node :=
  if (3 <=? routing_attempts st)%Z then END
  else if next_action_is "section_chat" st
          && match current_section st with
             | Some section => str_in section valid_sections
             | None => false
             end
  then SectionChatNode
  else END.

Definition route_from_section_chat (st : ResumeBuilderState) : node :=
  if next_action_is "section_updater" st then SectionUpdaterNode
  else if next_action_is "section_applier" st then SectionApplierNode
  else if next_action_is "exit_to_general" st then GeneralChatNode
  else if next_action_is "section_chat" st then SectionChatNode
  else SectionChatNode.

Definition route_from_section_updater (st : ResumeBuilderState) : node :=
  if next_action_is "section_applier" st then SectionApplierNode
  else if next_action_is "exit_to_general" st then GeneralChatNode
  else SectionChatNode.

Definition route_from_section_applier (st : ResumeBuilderState) : node :=
  if next_action_is "exit_to_general" st then GeneralChatNode
  else SectionChatNode.

(** ** Words of the specification *)

(** A block fits in the first text when it ends within its length. *)
Definition fits (total : nat) (m : Difflib.block) : Prop :=
  fst (fst m) + snd m <= total.


Section ResolverSpec.

Variable ratio : string -> string -> Q.

(** The candidate of maximum similarity, the first seen among equals. *)
Fixpoint best_candidate (x : string) (candidates : list string) : option string :=
  match candidates with
  | [] => None
  | c :: rest =>
      match best_candidate x rest with
      | Some b => if Qgtb (ratio x b) (ratio x c) then Some b else Some c
      | None => Some c
      end
  end.

(** The resolver in the words of the specification: normalise by trimming
    and lowercasing, null on an empty input or an empty candidate set; then
    exact membership; then the alias table; then the candidate of maximum
    similarity, accepted only above the threshold. *)
Definition resolve_spec (raw_name : string) (candidates : list string)
  : option string :=
  let normalized := PyStr.lower (PyStr.strip raw_name) in
  match raw_name, candidates with
  | EmptyString, _ => None
  | _, [] => None
  | _, _ =>
      if str_in normalized candidates then Some normalized
      else
        let by_similarity :=
          match best_candidate normalized candidates with
          | Some b => if Qgtb (ratio normalized b) threshold then Some b else None
          | None => None
          end in
        match Dict.get normalized section_aliases with
        | Some canonical =>
            if str_in canonical candidates then Some canonical else by_similarity
        | None => by_similarity
        end
  end.

End ResolverSpec.

(** A text is blank when it is empty or holds white space only. *)
Fixpoint blank (s : string) : bool :=
  match s with
  | EmptyString => true
  | String c rest => PyStr.is_space c && blank rest
  end.

Fixpoint brace_free (s : string) : bool :=
  match s with
  | EmptyString => true
  | String c rest => negb (Re.is_brace c) && brace_free rest
  end.

(** The groups of a JSON-object-shaped span: one level of nested braces. *)
Inductive span_groups : string -> Prop :=
| groups_none : span_groups EmptyString
| groups_more (u t g : string) :
    brace_free u = true -> brace_free t = true -> span_groups g ->
    span_groups ("{" +:+ u +:+ "}" +:+ t +:+ g).

Definition brace_span (s : string) : Prop :=
  exists t g, brace_free t = true /\ span_groups g /\ s = "{" +:+ t +:+ g +:+ "}".

Definition contains_span (raw : string) : Prop :=
  exists pre s post, brace_span s /\ raw = pre +:+ s +:+ post.

(** ** Sample environments

    Concrete instances of the parameters, for the runs that the properties
    below are evaluated on. *)

Definition quoted (s : string) : string :=
  String "034"%char (s +:+ String "034"%char EmptyString).

(** [str()] on the values that have a short rendering. *)
Definition sample_str (v : pyval) : string :=
  match v with
  | PStr s => s
  | PInt z => pretty z
  | PNone => "None"
  | PBool true => "True"
  | PBool false => "False"
  | _ => "<value>"
  end.

Definition sample_render (p : prompt) : string :=
  match p with
  | GeneralChatPrompt _ _ => "general chat"
  | SectionChatPrompt section _ _ _ _ _ => "section chat: " +:+ section
  | UpdaterPrompt section _ _ _ => "update: " +:+ section
  | AnalysisPrompt _ section _ => "analyse: " +:+ section
  end.

Definition sample_dumps (v : pyval) : string := "payload".

(** A completion call that always raises, and one that always replies [raw]. *)
Definition failing_completion (system user : string) (max_tokens : nat) : completion :=
  Failed.

Definition replying (raw : string) (system user : string) (max_tokens : nat)
  : completion := Replied (Some raw).

(** [json.loads] on the texts of a table; any other text is taken not to parse. *)
Definition loads_from (table : pydict pyval) (text : string) : option pyval :=
  Dict.get text table.

Definition user_says (text : string) : Message := make_message "user" (PStr text).

(** A fresh session in general chat, the user having said hello. *)
Definition idle_state : ResumeBuilderState :=
  mkState None (Some ∅) [] None [user_says "hello"] ∅ 0 None PNone.

(** One invocation of the general-chat node with no API key configured. *)
Definition offline_general_chat (st : ResumeBuilderState) : ResumeBuilderState :=
  final_state
    (GeneralChat None failing_completion (loads_from []) sample_dumps sample_str
       sample_render st).

(** A session inside the skills section, its three questions unanswered. *)
Definition skills_questions : pyval :=
  PList [ PStr "Do you have infrastructure as code experience?";
          PStr "Can you highlight any hands-on GCP projects?";
          PStr "Have you used Terraform in production environments?" ].

Definition skills_meta : pydict pyval :=
  [ ("section_name", PStr "skills");
    ("alignment_score", PInt 85);
    ("missing_requirements", PList [PStr "GCP"; PStr "Terraform"]);
    ("recommended_questions", skills_questions) ].

Definition education_meta : pydict pyval :=
  [ ("section_name", PStr "education");
    ("alignment_score", PInt 90);
    ("missing_requirements", PList []);
    ("recommended_questions", PList [PStr "Any relevant coursework?"]) ].

Definition in_skills : ResumeBuilderState :=
  mkState (Some "Senior Python Developer")
    (Some {[ "skills" := PStr "java, python, aws" ]})
    [ ("skills", skills_meta); ("education", education_meta) ]
    (Some "skills")
    [user_says "I have used Terraform in production"]
    {[ "skills" := [EmptyString; EmptyString; EmptyString] ]}
    0 None PNone.

(** A decision that names the active section and carries an answer. *)
Definition switch_to_skills_with_answer : pydict pyval :=
  [ ("action", PStr "switch_section");
    ("target_section", PStr "skills");
    ("answer", PStr "You are already working on skills.");
    ("updated_answers",
      PList [PNone; PNone; PStr "Yes, for three production deployments"]) ].

Definition decided (parsed : pydict pyval) (system : string) (payload : pyval)
    (max_tokens : nat) : pydict pyval := parsed.

(** Two replies of the oracle to section chat, and what [json.loads] makes
    of them: an action that no handler knows, and the request to leave the
    section. *)
Definition unknown_action_reply : string :=
  "{" +:+ quoted "action" +:+ ": " +:+ quoted "dance" +:+ ", "
  +:+ quoted "answer" +:+ ": " +:+ quoted "hi" +:+ "}".

Definition exit_reply : string :=
  "{" +:+ quoted "action" +:+ ": " +:+ quoted "exit_section" +:+ ", "
  +:+ quoted "answer" +:+ ": " +:+ quoted "bye" +:+ "}".

Definition section_replies : pydict pyval :=
  [ (unknown_action_reply, PDict [("action", PStr "dance"); ("answer", PStr "hi")]);
    (exit_reply, PDict [("action", PStr "exit_section"); ("answer", PStr "bye")]) ].

(** What the applier commits: the staged content if there is some, the
    stored content of the section otherwise. *)
Definition content_to_apply (section : string) (stored : gmap string pyval)
    (st : ResumeBuilderState) : pyval :=
  if Py.truthy (proposed_section_content st) then proposed_section_content st
  else default (PStr EmptyString) (stored !! section).

(** The state once the applier has written [content] for [section]. *)
Definition committed (section : string) (content : pyval) (stored : gmap string pyval)
    (st : ResumeBuilderState) : ResumeBuilderState :=
  set_resume_sections (Some (<[section := content]> stored)) st.

(** The skills section with its three questions answered and a rewrite
    staged. *)
Definition answered_skills : ResumeBuilderState :=
  mkState (Some "Senior Python Developer")
    (Some {[ "skills" := PStr "java, python, aws" ]})
    [ ("skills", skills_meta); ("education", education_meta) ]
    (Some "skills")
    [user_says "apply"]
    {[ "skills" := ["Terraform modules"; "Two GCP projects"; "Yes, in production"] ]}
    0 (Some "section_applier") (PStr "java, python, aws, gcp, terraform").

(** Two replies of the oracle to the analysis request, and what [json.loads]
    makes of them: two new questions, and a number where the questions
    should be. *)
Definition two_questions_reply : string :=
  "{" +:+ quoted "alignment_score" +:+ ": 92, "
  +:+ quoted "missing_requirements" +:+ ": [], "
  +:+ quoted "recommended_questions" +:+ ": ["
  +:+ quoted "Which GCP services?" +:+ ", " +:+ quoted "Any certifications?" +:+ "], "
  +:+ quoted "analysis_summary" +:+ ": " +:+ quoted "Closer to the role" +:+ "}".

Definition number_of_questions_reply : string :=
  "{" +:+ quoted "alignment_score" +:+ ": 90, "
  +:+ quoted "recommended_questions" +:+ ": 5}".

Definition analysis_replies : pydict pyval :=
  [ (two_questions_reply,
      PDict [ ("alignment_score", PInt 92);
              ("missing_requirements", PList []);
              ("recommended_questions",
                PList [PStr "Which GCP services?"; PStr "Any certifications?"]);
              ("analysis_summary", PStr "Closer to the role") ]);
    (number_of_questions_reply,
      PDict [ ("alignment_score", PInt 90); ("recommended_questions", PInt 5) ]) ].

(** The skills section with its missing requirements kept by key, with
    numbers where its missing requirements and its questions should be, and
    a session with no stored contents at all or with none for the
    section. *)
Definition keyed_meta : pydict pyval :=
  [ ("section_name", PStr "skills");
    ("alignment_score", PInt 85);
    ("missing_requirements", PDict [ ("must", PStr "GCP") ]);
    ("recommended_questions", skills_questions) ].

Definition keyed_skills : ResumeBuilderState :=
  set_section_objects [ ("skills", keyed_meta); ("education", education_meta) ]
    (set_current_section None in_skills).

Definition unsized_meta : pydict pyval :=
  [ ("section_name", PStr "skills");
    ("alignment_score", PInt 85);
    ("missing_requirements", PInt 2);
    ("recommended_questions", PInt 5) ].

Definition unsized_skills : ResumeBuilderState :=
  set_section_objects [ ("skills", unsized_meta) ] in_skills.

Definition no_documents : ResumeBuilderState := set_resume_sections None in_skills.

Definition staged_without_documents : ResumeBuilderState :=
  set_resume_sections None answered_skills.

Definition empty_documents : ResumeBuilderState :=
  set_resume_sections (Some ∅) in_skills.

(** The actions that the prompt of section chat offers to the model. *)
Definition section_chat_actions : list string :=
  [ "stay"; "switch_section"; "exit_section"; "trigger_updater"; "trigger_applier" ].

(** A reply of the model in the skills section that switches to skills and
    carries an answer of the user, and what [json.loads] makes of it. *)
Definition switch_reply : string :=
  "{" +:+ quoted "action" +:+ ": " +:+ quoted "switch_section" +:+ ", "
  +:+ quoted "target_section" +:+ ": " +:+ quoted "skills" +:+ ", "
  +:+ quoted "answer" +:+ ": " +:+ quoted "You are already working on skills." +:+ ", "
  +:+ quoted "updated_answers" +:+ ": [null, null, "
  +:+ quoted "Yes, for three production deployments" +:+ "]}".

Definition switch_replies : pydict pyval :=
  [ (switch_reply, PDict switch_to_skills_with_answer) ].

(** ** Invariants of a handler

    [stable P m]: whatever [m] does, returning or raising, a state that
    satisfies [P] is left satisfying [P]. [total m]: [m] never raises. *)

Definition stable {A : Type} (P : ResumeBuilderState -> Prop) (m : M A) : Prop :=
  forall s, P s -> P (final_state (m s)).

Definition total {A : Type} (m : M A) : Prop :=
  forall s, exists a s', m s = Returns a s'.

(** The state in which general chat processes a decision: the counter is
    back to zero and no section is active. *)
Definition general_chat_entered (st : ResumeBuilderState) : ResumeBuilderState :=
  mkState (jd_summary st) (resume_sections st) (section_objects st) None
    (context st) (recommended_answers st) 0
    (match current_section st with Some _ => None | None => next_action st end)
    (proposed_section_content st).

(** The questions of a section as section chat reads them. *)
Definition questions_of (section : string) (st : ResumeBuilderState) : pyval :=
  Dict.get_default "recommended_questions" (PList [])
    (Dict.get_default section [] (section_objects st)).

(** The ledger of a section rebuilt for [n] questions. *)
Definition rebuilt (n : nat) (section : string) (st : ResumeBuilderState)
  : list string :=
  resize n EmptyString (default [] (recommended_answers st !! section)).

(** The state once [safe_initialize_answers] has run for [n] questions. *)
Definition reconciled (n : nat) (section : string) (st : ResumeBuilderState)
  : ResumeBuilderState :=
  set_recommended_answers
    (<[section := rebuilt n section st]> (recommended_answers st)) st.

(** The decision that section chat gets in a turn. *)
Definition section_chat_decision (render : prompt -> string)
    (decide : string -> pyval -> nat -> pydict pyval)
    (section : string) (n : nat) (st : ResumeBuilderState) : pydict pyval :=
  let current_answers := rebuilt n section st in
  let available_sections := Dict.keys (section_objects st) in
  let all_questions_answered :=
    Nat.ltb 0 n && Nat.eqb (length current_answers) n && all_nonblank current_answers in
  decide
    (render (SectionChatPrompt section (questions_of section st) current_answers
               all_questions_answered available_sections
               (Dict.get_default section [] (section_objects st))))
    (section_chat_payload section available_sections (questions_of section st)
       current_answers all_questions_answered (context st))
    500.

(** ** Vocabulary of the further properties *)

(** A text with no opening brace: the brace-span search passes over it. *)
Fixpoint no_lbrace (s : string) : bool :=
  match s with
  | EmptyString => true
  | String c rest => negb (Ascii.eqb c Re.lbrace) && no_lbrace rest
  end.

(** A slot of the ledger after an update: a text that is not blank takes
    the slot, trimmed; null, a blank text or no update at all leave it. *)
Definition updated_slot (old : string) (update : option pyval) : string :=
  match update with
  | Some (PStr a) => if PyStr.nonempty (PyStr.strip a) then PyStr.strip a else old
  | _ => old
  end.

(** An update that the loop of section chat can take: a text, or a value
    that counts as false. *)
Definition appliable (update : pyval) : bool :=
  match update with
  | PStr _ => true
  | _ => negb (Py.truthy update)
  end.

(** The missing requirements of a section, as general chat reads them. *)
Definition missing_of (data : pydict pyval) : pyval :=
  Dict.get_default "missing_requirements" (PList []) data.

(** A section whose missing requirements can be cut to the first two. *)
Definition sliceable (entry : string * pydict pyval) : Prop :=
  Py.slice2 (missing_of (snd entry)) <> None.

(** The active section and the next action that a turn of section chat in
    [section] may leave. *)
Inductive section_chat_control (section : string) (available : list string)
  : option string -> option string -> Prop :=
| control_stay (next : option string) :
    In next [ None; Some "section_chat"; Some "section_updater"; Some "section_applier" ] ->
    section_chat_control section available (Some section) next
| control_exit :
    section_chat_control section available None (Some "exit_to_general")
| control_switch (found : string) :
    In found available -> found <> section -> found <> EmptyString ->
    section_chat_control section available (Some found) (Some "section_chat").

(** [later] is [earlier] with at most one assistant message appended. *)
Definition said_at_most_once (earlier later : list Message) : Prop :=
  later = earlier
  \/ exists message, later = earlier ++ [make_message "assistant" message].

(** The fields that neither general chat nor section chat writes. *)
Definition same_documents (s s' : ResumeBuilderState) : Prop :=
  resume_sections s' = resume_sections s
  /\ section_objects s' = section_objects s
  /\ jd_summary s' = jd_summary s
  /\ routing_attempts s' = routing_attempts s
  /\ proposed_section_content s' = proposed_section_content s.

(** A node run again each time its router names it: [turns] runs in a row. *)
Fixpoint repeated (turns : nat) (handler : M unit) : M unit :=
  match turns with
  | 0 => ret tt
  | S k => handler ;; repeated k handler
  end.

(** The decision that the updater gets for a section. *)
Definition updater_decision (render : prompt -> string)
    (decide : string -> pyval -> nat -> pydict pyval)
    (section : string) (stored : gmap string pyval) (st : ResumeBuilderState)
  : pydict pyval :=
  let original_content := default (PStr EmptyString) (stored !! section) in
  let current_answers := default [] (recommended_answers st !! section) in
  decide
    (render (UpdaterPrompt section original_content (questions_of section st)
               current_answers))
    (PDict [ ("original_content", original_content);
             ("questions", questions_of section st);
             ("answers", PList (map PStr current_answers)) ])
    600.

(** The rewrite that a decision of the updater carries. *)
Definition updated_content_of (parsed : pydict pyval) : pyval :=
  Dict.get_default "updated_content" (PStr EmptyString) parsed.

(** The ledger that an apply leaves for questions [questions]: as many
    empty strings as there are questions, or nothing at all when the
    questions count as true and have no length. *)
Definition reset_ledger (questions : pyval) : option (list string) :=
  if Py.truthy questions
  then option_map (fun n => replicate n EmptyString) (Py.len questions)
  else Some [].

(** The metadata once an analysis is written under a section. *)
Definition recorded (section : string) (analysis_result : pydict pyval)
    (sections : pydict (pydict pyval)) : pydict (pydict pyval) :=
  Dict.set section
    (Dict.set "recommended_questions"
       (Dict.get_default "recommended_questions" PNone analysis_result)
       (Dict.set "missing_requirements"
          (Dict.get_default "missing_requirements" PNone analysis_result)
          (Dict.set "alignment_score"
             (Dict.get_default "alignment_score" PNone analysis_result)
             (Dict.get_default section [] sections))))
    sections.

(** The three keys of the metadata of a section that an apply writes. *)
Definition analysis_keys : list string :=
  [ "alignment_score"; "missing_requirements"; "recommended_questions" ].

(** The analysis that stands in for a reply that cannot be read. *)
Definition default_analysis : pydict pyval :=
  [ ("alignment_score", PInt 70);
    ("missing_requirements", PList []);
    ("recommended_questions", PList []);
    ("analysis_summary", PStr "Updated successfully") ].

(** The index of the question of an entry. *)
Definition question_index (m : match_entry) : nat := fst (fst m).

(** The number of words that a question shares with the words of the user. *)
Definition overlap (user_words : gset string) (question : string) : nat :=
  size (user_words ∩ Words.word_set question).

(** The share of the words of a question that the user has used. *)
Definition confidence_of (user_words : gset string) (question : string) : Q :=
  Z.of_nat (overlap user_words question)
  # Pos.of_nat (Nat.max (size (Words.word_set question)) 1).

(** The order of the entries of a result: the higher confidence first, and
    of two entries of equal confidence the earlier question first. *)
Definition ranks_before (a b : match_entry) : Prop :=
  (confidence b < confidence a)%Q
  \/ ((confidence a == confidence b)%Q /\ question_index a < question_index b).

(** General chat having said [message] and ended the turn. *)
Definition answered (message : string) (st : ResumeBuilderState) : ResumeBuilderState :=
  set_context (context st ++ [make_message "assistant" (PStr message)])
    (set_next_action None (general_chat_entered st)).

(** The summary of a section in the overview that general chat sends. *)
Definition summary_of (data : pydict pyval) (first_two : pyval) : pyval :=
  PDict [ ("alignment_score", Dict.get_default "alignment_score" PNone data);
          ("missing_requirements", first_two) ].

(** * Properties *)

(** ** Strings *)

#[local] Arguments String.append !s1 s2 : simpl nomatch.

Lemma append_empty_r (s : string) : s +:+ EmptyString = s.
Proof. induction s as [|c s IH]; simpl; [reflexivity | now rewrite IH]. Qed.

Lemma append_assoc (a b c : string) : (a +:+ b) +:+ c = a +:+ (b +:+ c).
Proof. induction a as [|x a IH]; simpl; [reflexivity | now rewrite IH]. Qed.

Lemma append_nil_l (s : string) : EmptyString +:+ s = s.
Proof. reflexivity. Qed.

Lemma append_cons (c : ascii) (s t : string) :
  String c s +:+ t = String c (s +:+ t).
Proof. reflexivity. Qed.

Create Rewrite HintDb strs.
#[local] Hint Rewrite append_nil_l append_cons append_assoc append_empty_r : strs.

Ltac str_norm := unfold Re.lbrace, Re.rbrace in *; autorewrite with strs.

Lemma lstrip_blank (s : string) : PyStr.lstrip s = EmptyString <-> blank s = true.
Proof.
  induction s as [|c s IH]; simpl.
  - split; reflexivity.
  - destruct (PyStr.is_space c); simpl; [exact IH | split; discriminate].
Qed.

Lemma rstrip_empty (s : string) : PyStr.rstrip s = EmptyString <-> blank s = true.
Proof.
  induction s as [|c s IH]; simpl.
  - split; reflexivity.
  - destruct (PyStr.rstrip s) eqn:R.
    + destruct (PyStr.is_space c); simpl.
      * split; [intros _; now apply IH | reflexivity].
      * split; discriminate.
    + split; [discriminate |].
      intros H. apply andb_true_iff in H as [_ H]. apply IH in H. discriminate.
Qed.

Lemma lstrip_suffix_blank (s : string) :
  blank (PyStr.lstrip s) = true -> blank s = true.
Proof.
  induction s as [|c s IH]; simpl; [reflexivity |].
  destruct (PyStr.is_space c) eqn:E; simpl; [exact IH |].
  rewrite E. discriminate.
Qed.

Lemma blank_lstrip (s : string) : blank s = true -> PyStr.lstrip s = EmptyString.
Proof. apply lstrip_blank. Qed.

(** [s.strip()] is empty exactly on the blank texts. *)
Lemma strip_empty_iff (s : string) : PyStr.strip s = EmptyString <-> blank s = true.
Proof.
  unfold PyStr.strip. rewrite rstrip_empty. split.
  - apply lstrip_suffix_blank.
  - intros H. now rewrite (blank_lstrip s H).
Qed.

(** ** The brace-span search finds exactly the spans of the specification *)

Lemma match_tail_free (inner : bool) (t rest : string) :
  brace_free t = true ->
  Re.match_tail inner (t +:+ rest) = option_map (String.append t) (Re.match_tail inner rest).
Proof.
  induction t as [|c t IH]; simpl; intros H.
  - now destruct (Re.match_tail inner rest).
  - apply andb_true_iff in H as [Hc Ht]. unfold Re.is_brace in Hc.
    apply negb_true_iff, orb_false_iff in Hc as [Hl Hr].
    rewrite Hl, Hr, (IH Ht). now destruct (Re.match_tail inner rest).
Qed.

Lemma match_tail_close_inner (rest : string) :
  Re.match_tail true ("}" +:+ rest)
  = option_map (String.append "}") (Re.match_tail false rest).
Proof. reflexivity. Qed.

Lemma match_tail_groups (g post : string) :
  span_groups g ->
  Re.match_tail false (g +:+ "}" +:+ post) = Some (g +:+ "}").
Proof.
  induction 1 as [|u t g Hu Ht Hg IH].
  - reflexivity.
  - rewrite !append_assoc.
    change ("{" +:+ (u +:+ ("}" +:+ (t +:+ (g +:+ ("}" +:+ post))))))
      with (String Re.lbrace (u +:+ ("}" +:+ (t +:+ (g +:+ ("}" +:+ post)))))).
    cbn [Re.match_tail]. rewrite Ascii.eqb_refl.
    rewrite (match_tail_free true u _ Hu), match_tail_close_inner.
    rewrite (match_tail_free false t _ Ht), IH. reflexivity.
Qed.

Lemma match_tail_complete (t g post : string) :
  brace_free t = true -> span_groups g ->
  Re.match_tail false ((t +:+ g +:+ "}") +:+ post) = Some (t +:+ g +:+ "}").
Proof.
  intros Ht Hg. rewrite !append_assoc.
  rewrite (match_tail_free false t _ Ht).
  change ("}" +:+ post) with ("}" +:+ post).
  now rewrite (match_tail_groups g post Hg).
Qed.

Lemma match_tail_sound (r : string) :
  forall inner tail, Re.match_tail inner r = Some tail ->
    (exists post, r = tail +:+ post)
    /\ (inner = false ->
        exists t g, brace_free t = true /\ span_groups g /\ tail = t +:+ g +:+ "}")
    /\ (inner = true ->
        exists u t g, brace_free u = true /\ brace_free t = true /\ span_groups g
                      /\ tail = u +:+ "}" +:+ t +:+ g +:+ "}").
Proof.
  induction r as [|c r IH]; intros inner tail H; simpl in H; [discriminate |].
  destruct (Ascii.eqb c Re.lbrace) eqn:El.
  - apply Ascii.eqb_eq in El. subst c.
    destruct inner; [discriminate |].
    destruct (Re.match_tail true r) as [tail'|] eqn:M; [|discriminate].
    injection H as <-. destruct (IH _ _ M) as ([post ->] & _ & Hin).
    destruct (Hin eq_refl) as (u & t & g & Hu & Ht & Hg & ->).
    split; [exists post; reflexivity |]. split; [intros _ | discriminate].
    exists EmptyString, ("{" +:+ u +:+ "}" +:+ t +:+ g). repeat split.
    + now constructor.
    + now str_norm.
  - destruct (Ascii.eqb c Re.rbrace) eqn:Er.
    + apply Ascii.eqb_eq in Er. subst c. destruct inner.
      * destruct (Re.match_tail false r) as [tail'|] eqn:M; [|discriminate].
        injection H as <-. destruct (IH _ _ M) as ([post ->] & Hout & _).
        destruct (Hout eq_refl) as (t & g & Ht & Hg & ->).
        split; [exists post; reflexivity |]. split; [discriminate | intros _].
        exists EmptyString, t, g. repeat split; assumption.
      * injection H as <-. split; [exists r; reflexivity |].
        split; [intros _ | discriminate].
        exists EmptyString, EmptyString. repeat split. constructor.
    + destruct (Re.match_tail inner r) as [tail'|] eqn:M; [|discriminate].
      injection H as <-. destruct (IH _ _ M) as ([post ->] & Hout & Hin).
      assert (Hc : negb (Re.is_brace c) = true)
        by (unfold Re.is_brace; now rewrite El, Er).
      split; [exists post; reflexivity |]. split; intros ->.
      * destruct (Hout eq_refl) as (t & g & Ht & Hg & ->).
        exists (String c t), g. repeat split; [simpl; now rewrite Hc, Ht | assumption].
      * destruct (Hin eq_refl) as (u & t & g & Hu & Ht & Hg & ->).
        exists (String c u), t, g.
        repeat split; [simpl; now rewrite Hc, Hu | assumption | assumption].
Qed.

(** What the search returns is a span of the text. *)
Lemma search_sound (raw s : string) :
  Re.search raw = Some s ->
  brace_span s /\ exists pre post, raw = pre +:+ s +:+ post.
Proof.
  induction raw as [|c raw IH]; simpl; [discriminate |].
  assert (Hskip : Re.search raw = Some s ->
                  brace_span s /\ exists pre post, String c raw = pre +:+ s +:+ post).
  { intros H. destruct (IH H) as (Hs & pre & post & ->).
    split; [assumption | now exists (String c pre), post]. }
  destruct (Ascii.eqb c Re.lbrace) eqn:El; [|exact Hskip].
  destruct (Re.match_tail false raw) as [tail|] eqn:M; [|exact Hskip].
  intros H. injection H as <-. apply Ascii.eqb_eq in El. subst c.
  destruct (match_tail_sound _ _ _ M) as ([post ->] & Hout & _).
  destruct (Hout eq_refl) as (t & g & Ht & Hg & ->). split.
  - now exists t, g.
  - now exists EmptyString, post.
Qed.

(** A text that holds a span is never reported as holding none. *)
Lemma search_complete (raw : string) :
  contains_span raw -> Re.search raw <> None.
Proof.
  intros (pre & s & post & (t & g & Ht & Hg & ->) & ->).
  induction pre as [|c pre IH]; simpl.
  - change (Ascii.eqb "{" Re.lbrace) with true. cbn iota.
    rewrite (match_tail_complete t g post Ht Hg). discriminate.
  - destruct (Ascii.eqb c Re.lbrace); [|exact IH].
    destruct (Re.match_tail false _); [discriminate | exact IH].
Qed.

Lemma search_none_iff (raw : string) :
  Re.search raw = None <-> ~ contains_span raw.
Proof.
  split.
  - intros H Hc. now apply (search_complete raw Hc).
  - intros H. destruct (Re.search raw) as [s|] eqn:E; [|reflexivity].
    exfalso. apply H. destruct (search_sound _ _ E) as (Hs & pre & post & ->).
    now exists pre, s, post.
Qed.

(** ** Dictionaries *)

Lemma dict_get_set_eq {V : Type} (k : string) (v : V) (d : pydict V) :
  Dict.get k (Dict.set k v d) = Some v.
Proof.
  induction d as [|[k' v'] d IH]; simpl.
  - now rewrite String.eqb_refl.
  - destruct (String.eqb k k') eqn:E; simpl; rewrite E; [reflexivity | exact IH].
Qed.

Lemma dict_get_set_ne {V : Type} (k k0 : string) (v : V) (d : pydict V) :
  k0 <> k -> Dict.get k0 (Dict.set k v d) = Dict.get k0 d.
Proof.
  intros Hne. induction d as [|[k' v'] d IH]; simpl.
  - destruct (String.eqb k0 k) eqn:E; [apply String.eqb_eq in E; contradiction | reflexivity].
  - destruct (String.eqb k k') eqn:E; simpl.
    + apply String.eqb_eq in E. subst k'.
      destruct (String.eqb k0 k) eqn:E'; [apply String.eqb_eq in E'; contradiction | reflexivity].
    + destruct (String.eqb k0 k'); [reflexivity | exact IH].
Qed.

(** ** The structured-decision extractor *)

Section Extractor.

Variable json_loads : string -> option pyval.

(** C8. The extractor fails with a [ValueError] on an empty or blank text;
    on a text with no JSON-object-shaped span it does not fail and returns
    the decision [answer] with no route and the trimmed text as its answer;
    so it does on the text [just talking, no json]. *)
Theorem extract_degrades (raw : string) :
  (blank raw = true ->
   extract_and_validate_json json_loads raw = Err (ValueError "Empty response from LLM"))
  /\ (blank raw = false -> ~ contains_span raw ->
      extract_and_validate_json json_loads raw
      = Ok [ ("action", PStr "answer"); ("route", PNone);
             ("answer", PStr (PyStr.strip raw)) ])
  /\ extract_and_validate_json json_loads "just talking, no json"
     = Ok [ ("action", PStr "answer"); ("route", PNone);
            ("answer", PStr "just talking, no json") ].
Proof.
  split; [|split].
  - intros Hb. unfold extract_and_validate_json.
    apply strip_empty_iff in Hb. rewrite Hb. simpl.
    now rewrite orb_true_r.
  - intros Hb Hspan. unfold extract_and_validate_json.
    assert (Hs : PyStr.nonempty (PyStr.strip raw) = true).
    { destruct (PyStr.strip raw) eqn:E; [|reflexivity].
      apply strip_empty_iff in E. congruence. }
    assert (Hr : PyStr.nonempty raw = true) by (destruct raw; [discriminate | reflexivity]).
    rewrite Hs, Hr. simpl.
    apply search_none_iff in Hspan. now rewrite Hspan.
  - reflexivity.
Qed.

End Extractor.

Lemma extract_degrades_witness :
  extract_and_validate_json (loads_from []) "   "
  = Err (ValueError "Empty response from LLM")
  /\ extract_and_validate_json (loads_from []) " no braces here "
     = Ok [ ("action", PStr "answer"); ("route", PNone);
            ("answer", PStr "no braces here") ].
Proof.
  split.
  - apply (extract_degrades (loads_from []) "   "). reflexivity.
  - apply (extract_degrades (loads_from []) " no braces here ").
    + reflexivity.
    + apply search_none_iff. reflexivity.
Defined.


(** ** Invariants and totality, rule by rule *)

Section Rules.

Context {A B : Type}.
Variable P : ResumeBuilderState -> Prop.

Lemma stable_ret (a : A) : stable P (ret a).
Proof. intros s Hs. exact Hs. Qed.

Lemma stable_raise (e : exn) : stable P (@raise A e).
Proof. intros s Hs. exact Hs. Qed.

Lemma stable_gets (f : ResumeBuilderState -> A) : stable P (gets f).
Proof. intros s Hs. exact Hs. Qed.

Lemma stable_modify (f : ResumeBuilderState -> ResumeBuilderState) :
  (forall s, P s -> P (f s)) -> stable P (modify f).
Proof. intros H s Hs. now apply H. Qed.

Lemma stable_bind (m : M A) (k : A -> M B) :
  stable P m -> (forall a, stable P (k a)) -> stable P (bind m k).
Proof.
  intros Hm Hk s Hs. unfold bind. specialize (Hm s Hs).
  destruct (m s) as [a s'|e s']; simpl in *; [now apply Hk | exact Hm].
Qed.

Lemma stable_try_catch (body : M A) (handler : exn -> M A) :
  stable P body -> (forall e, stable P (handler e)) -> stable P (try_catch body handler).
Proof.
  intros Hb Hh s Hs. unfold try_catch. specialize (Hb s Hs).
  destruct (body s) as [a s'|e s']; simpl in *; [exact Hb | now apply Hh].
Qed.

Lemma stable_lift_result (r : result A) : stable P (lift_result r).
Proof. destruct r; [apply stable_ret | apply stable_raise]. Qed.

Lemma total_ret (a : A) : total (ret a).
Proof. intros s. now exists a, s. Qed.

Lemma total_bind (m : M A) (k : A -> M B) :
  total m -> (forall a, total (k a)) -> total (bind m k).
Proof.
  intros Hm Hk s. unfold bind. destruct (Hm s) as (a & s' & ->). apply Hk.
Qed.

Lemma total_try_catch (body : M A) (handler : exn -> M A) :
  (forall e, total (handler e)) -> total (try_catch body handler).
Proof.
  intros Hh s. unfold try_catch.
  destruct (body s) as [a s'|e s']; [now exists a, s' | apply Hh].
Qed.

End Rules.

Lemma stable_len_of (P : ResumeBuilderState -> Prop) (v : pyval) : stable P (len_of v).
Proof. unfold len_of. destruct (Py.len v); [apply stable_ret | apply stable_raise]. Qed.

Lemma stable_append_message (P : ResumeBuilderState -> Prop) (r : string) (c : pyval) :
  (forall s v, P s -> P (set_context v s)) -> stable P (append_message r c).
Proof. intros H. apply stable_modify. intros s Hs. now apply H. Qed.

Lemma total_modify (f : ResumeBuilderState -> ResumeBuilderState) : total (modify f).
Proof. intros s. now exists tt, (f s). Qed.

Lemma total_append_message (r : string) (c : pyval) : total (append_message r c).
Proof. apply total_modify. Qed.

(** One step of a proof that a handler keeps an invariant; [side] closes
    the goals that the writes of a field leave. *)
Ltac stable_step side :=
  lazymatch goal with
  | |- stable _ (bind _ _) => apply stable_bind; [|intros ?]
  | |- stable _ (try_catch _ _) => apply stable_try_catch; [|intros ?]
  | |- stable _ (ret _) => apply stable_ret
  | |- stable _ (raise _) => apply stable_raise
  | |- stable _ (gets _) => apply stable_gets
  | |- stable _ (lift_result _) => apply stable_lift_result
  | |- stable _ (len_of _) => apply stable_len_of
  | |- stable _ (modify _) => apply stable_modify; intros ? ?; side
  | |- stable _ (append_message _ _) =>
      apply stable_append_message; intros ? ? ?; side
  | |- stable _ (match ?x with _ => _ end) => destruct x
  | |- stable _ (let _ := _ in _) => cbv zeta
  end.

Ltac stable_with side := repeat (stable_step side).

(** ** General chat *)

Section GeneralChatProperties.

Variable py_str : pyval -> string.
Variable render : prompt -> string.
Variable decide : string -> pyval -> nat -> pydict pyval.

Lemma general_chat_reset (st : ResumeBuilderState) :
  (3 <= routing_attempts st)%Z ->
  general_chat_and_section_routing py_str render decide st
  = Returns tt
      (mkState (jd_summary st) (resume_sections st) (section_objects st) None
         (context st ++ [make_message "assistant"
                           (PStr "Let's start fresh - how can I help you with your resume?")])
         (recommended_answers st) 0 None (proposed_section_content st)).
Proof.
  intros H. unfold general_chat_and_section_routing, bind, gets.
  unfold MAX_ROUTING_ATTEMPTS.
  destruct (Z.leb_spec 3 (routing_attempts st)) as [_|Hlt]; [reflexivity | lia].
Qed.

Lemma general_chat_below_cap (st : ResumeBuilderState) (c : pydict pyval) :
  (routing_attempts st < 3)%Z ->
  compact_sections_of (section_objects st) [] = Ok c ->
  general_chat_and_section_routing py_str render decide st
  = try_catch
      (general_chat_route py_str c
         (decide (render (GeneralChatPrompt c (jd_summary st)))
            (general_chat_payload (context st) c) 400))
      general_chat_fault (general_chat_entered st).
Proof.
  intros H C. unfold general_chat_and_section_routing, bind, gets.
  unfold MAX_ROUTING_ATTEMPTS.
  destruct (Z.leb_spec 3 (routing_attempts st)) as [Hge|_]; [lia |].
  destruct st as [jd rs so cs ctx ans att na prop]. simpl in *.
  destruct cs; simpl; rewrite C; reflexivity.
Qed.

Lemma general_chat_unbuilt (st : ResumeBuilderState) (e : exn) :
  (routing_attempts st < 3)%Z ->
  compact_sections_of (section_objects st) [] = Err e ->
  general_chat_and_section_routing py_str render decide st
  = Raises e
      (mkState (jd_summary st) (resume_sections st) (section_objects st) None
         (context st) (recommended_answers st) (routing_attempts st + 1)
         (match current_section st with Some _ => None | None => next_action st end)
         (proposed_section_content st)).
Proof.
  intros H C. unfold general_chat_and_section_routing, bind, gets.
  unfold MAX_ROUTING_ATTEMPTS.
  destruct (Z.leb_spec 3 (routing_attempts st)) as [Hge|_]; [lia |].
  destruct st as [jd rs so cs ctx ans att na prop]. simpl in *.
  destruct cs; simpl; rewrite C; reflexivity.
Qed.

Lemma general_chat_route_stable (P : ResumeBuilderState -> Prop)
    (c parsed : pydict pyval) :
  (forall s v, P s -> P (set_context v s)) ->
  (forall s v, P s -> P (set_next_action v s)) ->
  (forall s v, P s -> P (set_current_section v s)) ->
  stable P (general_chat_route py_str c parsed).
Proof.
  intros Hc Hn Hs. unfold general_chat_route. cbv zeta.
  stable_with auto.
Qed.

Lemma general_chat_fault_stable (P : ResumeBuilderState -> Prop) (e : exn) :
  (forall s v, P s -> P (set_context v s)) ->
  (forall s v, P s -> P (set_next_action v s)) ->
  stable P (general_chat_fault e).
Proof.
  intros Hc Hn. unfold general_chat_fault. stable_with auto.
Qed.

Lemma general_chat_fault_total (e : exn) : total (general_chat_fault e).
Proof.
  unfold general_chat_fault.
  destruct e; (apply total_bind; [apply total_append_message | intros ?; apply total_modify]).
Qed.

(** C4 (as the code has it). An invocation of general chat that finds the
    counter at 3 or more forces the hard reset whatever the oracle would say:
    no section, counter 0, no next action, the fixed message appended. An
    invocation below the cap that gets to ask for a decision leaves the
    counter at 0 whatever the decision is, so turns without a resolved
    section do not add up towards the cap. *)
Theorem loop_cap_forces_reset (st : ResumeBuilderState) :
  ((3 <= routing_attempts st)%Z ->
   general_chat_and_section_routing py_str render decide st
   = Returns tt
       (mkState (jd_summary st) (resume_sections st) (section_objects st) None
          (context st ++ [make_message "assistant"
                            (PStr "Let's start fresh - how can I help you with your resume?")])
          (recommended_answers st) 0 None (proposed_section_content st)))
  /\ ((routing_attempts st < 3)%Z ->
      forall c, compact_sections_of (section_objects st) [] = Ok c ->
      exists st', general_chat_and_section_routing py_str render decide st = Returns tt st'
                  /\ routing_attempts st' = 0%Z).
Proof.
  split; [apply general_chat_reset |].
  intros Hlt c Hc. rewrite (general_chat_below_cap st c Hlt Hc).
  set (body := general_chat_route py_str c _).
  destruct (total_try_catch body general_chat_fault general_chat_fault_total
              (general_chat_entered st)) as ([] & st' & E).
  exists st'. split; [exact E |].
  change st' with (final_state (Returns tt st')). rewrite <- E.
  apply (stable_try_catch (fun s => routing_attempts s = 0%Z)); [| |reflexivity].
  - apply general_chat_route_stable; auto.
  - intros e. apply general_chat_fault_stable; auto.
Qed.

(** General chat never touches the staged content. *)
Lemma general_chat_keeps_proposed (st : ResumeBuilderState) :
  proposed_section_content
    (final_state (general_chat_and_section_routing py_str render decide st))
  = proposed_section_content st.
Proof.
  assert (H : stable (fun s => proposed_section_content s = proposed_section_content st)
                (general_chat_and_section_routing py_str render decide)).
  { unfold general_chat_and_section_routing, general_chat_route, general_chat_fault.
    stable_with assumption. }
  exact (H st eq_refl).
Qed.

End GeneralChatProperties.

Lemma loop_cap_forces_reset_witness :
  let capped := set_routing_attempts 3 idle_state in
  let asked := fun (system : string) (payload : pyval) (max_tokens : nat) =>
                 [ ("action", PStr "route"); ("route", PStr "skills") ] in
  general_chat_and_section_routing sample_str sample_render asked capped
  = Returns tt
      (mkState None (Some ∅) [] None
         [user_says "hello";
          make_message "assistant"
            (PStr "Let's start fresh - how can I help you with your resume?")]
         ∅ 0 None PNone)
  /\ exists st', general_chat_and_section_routing sample_str sample_render asked idle_state
                 = Returns tt st'
                 /\ routing_attempts st' = 0%Z.
Proof.
  intros capped asked. split.
  - apply (loop_cap_forces_reset sample_str sample_render asked capped). simpl. lia.
  - apply (loop_cap_forces_reset sample_str sample_render asked idle_state) with (c := []).
    + simpl. lia.
    + reflexivity.
Defined.

(** C4 (as stated) fails: with no API key every invocation ends without a
    resolved section, and after three of them the fourth finds the counter
    at 0 and answers as usual instead of resetting. *)
Lemma loop_cap_counterexample :
  let after3 := offline_general_chat (offline_general_chat (offline_general_chat idle_state)) in
  current_section after3 = None
  /\ routing_attempts after3 = 0%Z
  /\ last (context (offline_general_chat after3))
     = Some (make_message "assistant"
               (PStr "(Offline) I received your query and will help once an API key is configured."))
  /\ last (context (offline_general_chat after3))
     <> Some (make_message "assistant"
                (PStr "Let's start fresh - how can I help you with your resume?")).
Proof. vm_compute. repeat split; discriminate. Qed.

(** ** Offline mode *)

(** C10. With no API key the decision call returns one fixed object, the
    action [answer] with no route and the canned text, for every prompt and
    payload; general chat then never ends with an active section. *)
Theorem offline_decision_is_fixed
    (acompletion : string -> string -> nat -> completion)
    (json_loads : string -> option pyval) (json_dumps : pyval -> string)
    (py_str : pyval -> string) (render : prompt -> string)
    (prompt1 prompt2 : string) (payload1 payload2 : pyval) (tokens1 tokens2 : nat)
    (st : ResumeBuilderState) :
  call_llm_json_decision None acompletion json_loads json_dumps prompt1 payload1 tokens1
  = [ ("action", PStr "answer"); ("route", PNone);
      ("answer", PStr "(Offline) I received your query and will help once an API key is configured.") ]
  /\ call_llm_json_decision None acompletion json_loads json_dumps prompt1 payload1 tokens1
     = call_llm_json_decision None acompletion json_loads json_dumps prompt2 payload2 tokens2
  /\ current_section
       (final_state (GeneralChat None acompletion json_loads json_dumps py_str render st))
     = None.
Proof.
  split; [reflexivity | split; [reflexivity |]].
  unfold GeneralChat.
  destruct (Z.leb_spec 3 (routing_attempts st)) as [Hge|Hlt].
  - now rewrite general_chat_reset.
  - destruct (compact_sections_of (section_objects st) []) as [c|e] eqn:C.
    + now rewrite (general_chat_below_cap _ _ _ st c Hlt C).
    + now rewrite (general_chat_unbuilt _ _ _ st e Hlt C).
Qed.

(** ** The answer ledger *)

Lemma copy_answers_prefix (current_answers new_answers : list string) (count : nat) :
  count <= length current_answers -> count <= length new_answers ->
  copy_answers count current_answers new_answers
  = take count current_answers ++ drop count new_answers.
Proof.
  unfold copy_answers. induction count as [|count IH]; intros Hc Hn.
  - reflexivity.
  - rewrite seq_S, fold_left_app. simpl. rewrite IH by lia.
    destruct (lookup_lt_is_Some_2 current_answers count) as [a Ha]; [lia |].
    rewrite Ha, (take_S_r _ _ _ Ha).
    destruct (lookup_lt_is_Some_2 new_answers count) as [b Hb]; [lia |].
    rewrite (drop_S _ _ _ Hb), <- app_assoc. simpl.
    rewrite insert_app_r_alt by (rewrite length_take; lia).
    rewrite length_take, Nat.min_l by lia.
    now rewrite Nat.sub_diag.
Qed.

(** The rebuilt list: the old values at their indices, empty strings in the
    new slots, nothing beyond the new length. *)
Lemma copy_answers_resize (current_answers : list string) (n : nat) :
  copy_answers (Nat.min (length current_answers) n) current_answers
    (replicate n EmptyString)
  = resize n EmptyString current_answers.
Proof.
  rewrite copy_answers_prefix by (rewrite ?length_replicate; lia).
  rewrite resize_spec, drop_replicate.
  destruct (Nat.le_gt_cases (length current_answers) n) as [Hle|Hgt].
  - rewrite Nat.min_l by lia. now rewrite !take_ge by lia.
  - rewrite Nat.min_r by lia. do 2 f_equal. lia.
Qed.

Lemma set_recommended_answers_same (st : ResumeBuilderState) :
  set_recommended_answers (recommended_answers st) st = st.
Proof. now destruct st. Qed.

Lemma safe_initialize_answers_spec (st : ResumeBuilderState) (section_name : string)
    (questions : pyval) (n : nat) :
  Py.len questions = Some n ->
  safe_initialize_answers section_name questions st
  = Returns tt
      (set_recommended_answers
         (<[section_name := resize n EmptyString
                              (default [] (recommended_answers st !! section_name))]>
            (recommended_answers st)) st).
Proof.
  intros Hn. unfold safe_initialize_answers, bind, gets, len_of. rewrite Hn.
  destruct (recommended_answers st !! section_name) as [current|] eqn:E; simpl.
  - destruct (Nat.eqb_spec (length current) n) as [<-|Hne]; simpl.
    + rewrite resize_all, insert_id by exact E.
      now rewrite set_recommended_answers_same.
    + unfold modify. now rewrite copy_answers_resize.
  - unfold modify. now rewrite resize_nil.
Qed.

Lemma safe_initialize_answers_raises (st : ResumeBuilderState) (section_name : string)
    (questions : pyval) :
  Py.len questions = None ->
  safe_initialize_answers section_name questions st = Raises TypeError st.
Proof.
  intros Hn. unfold safe_initialize_answers, bind, gets, len_of. rewrite Hn.
  now destruct (recommended_answers st !! section_name).
Qed.

(** Applying the answers of a decision rewrites the list of the section in
    place and keeps its length, also when a value of the wrong type stops
    the loop half-way. *)
Lemma apply_updates_effect (section : string) (n_current : nat)
    (updated_answers : list pyval) :
  forall (i : nat) (s : ResumeBuilderState) (l : list string),
    recommended_answers s !! section = Some l ->
    exists l', length l' = length l
      /\ final_state (apply_updates section n_current i updated_answers s)
         = set_recommended_answers (<[section := l']> (recommended_answers s)) s.
Proof.
  induction updated_answers as [|answer rest IH]; intros i s l Hl; simpl.
  - exists l. split; [reflexivity |].
    now rewrite insert_id, set_recommended_answers_same.
  - assert (Hskip : exists l', length l' = length l
              /\ final_state (apply_updates section n_current (S i) rest s)
                 = set_recommended_answers (<[section := l']> (recommended_answers s)) s)
      by exact (IH (S i) s l Hl).
    assert (Hstop : forall e, exists l', length l' = length l
              /\ final_state (@Raises unit e s)
                 = set_recommended_answers (<[section := l']> (recommended_answers s)) s).
    { intros e. exists l. split; [reflexivity |]. simpl.
      now rewrite insert_id, set_recommended_answers_same. }
    unfold bind at 1.
    destruct (Nat.ltb i n_current && Py.truthy answer); [|exact Hskip].
    destruct answer as [| | | |a| |]; try apply Hstop.
    destruct (PyStr.nonempty (PyStr.strip a)); [|exact Hskip].
    unfold set_answer, bind, gets. rewrite Hl.
    destruct (Nat.ltb i (length l)); [|apply Hstop].
    unfold modify.
    set (s1 := set_recommended_answers _ s).
    destruct (IH (S i) s1 (<[i := PyStr.strip a]> l)) as (l' & Hlen & ->).
    { unfold s1. simpl. apply lookup_insert_eq. }
    exists l'. split; [now rewrite Hlen, length_insert |].
    unfold s1. simpl. now rewrite insert_insert_eq.
Qed.

Lemma apply_updates_stable (P : ResumeBuilderState -> Prop) (section : string)
    (n_current : nat) (updated_answers : list pyval) :
  (forall s v, P s -> P (set_recommended_answers v s)) ->
  forall i, stable P (apply_updates section n_current i updated_answers).
Proof.
  intros HP. induction updated_answers as [|answer rest IH]; intros i; simpl.
  - apply stable_ret.
  - apply stable_bind; [|intros _; apply IH].
    destruct (Nat.ltb i n_current && Py.truthy answer); [|apply stable_ret].
    destruct answer as [| | | |a| |]; try apply stable_raise.
    destruct (PyStr.nonempty _); [|apply stable_ret].
    unfold set_answer. apply stable_bind; [apply stable_gets | intros answers].
    destruct (answers !! section); [|apply stable_raise].
    destruct (Nat.ltb i _); [|apply stable_raise].
    apply stable_modify. intros s0 Hs0. now apply HP.
Qed.

(** ** Section chat *)

Section SectionChatProperties.

Variable py_str : pyval -> string.
Variable render : prompt -> string.
Variable decide : string -> pyval -> nat -> pydict pyval.

Lemma section_chat_in_section (st : ResumeBuilderState) (section : string) (n : nat) :
  current_section st = Some section -> section <> EmptyString ->
  Py.len (questions_of section st) = Some n ->
  section_chat_node py_str render decide st
  = try_catch
      (section_chat_updates section (rebuilt n section st)
         (section_chat_decision render decide section n st) ;;
       section_chat_route py_str section (Dict.keys (section_objects st))
         (section_chat_decision render decide section n st))
      (section_chat_fault section) (reconciled n section st).
Proof.
  intros Hs Hne Hn. unfold section_chat_node. unfold bind at 1. unfold gets at 1.
  rewrite Hs. destruct section as [|c rest]; [contradiction |].
  unfold bind at 1. unfold gets at 1. cbv zeta.
  unfold bind at 1. fold (questions_of (String c rest) st).
  rewrite (safe_initialize_answers_spec st _ _ n Hn).
  fold (rebuilt n (String c rest) st). fold (reconciled n (String c rest) st).
  unfold bind at 1. unfold gets at 1.
  unfold bind at 1. unfold gets at 1.
  unfold bind at 1. unfold len_of. rewrite Hn. unfold ret at 1.
  replace (default [] (recommended_answers (reconciled n (String c rest) st) !! String c rest))
    with (rebuilt n (String c rest) st)
    by (unfold reconciled; simpl; now rewrite lookup_insert_eq).
  reflexivity.
Qed.

Lemma section_chat_unsized (st : ResumeBuilderState) (section : string) :
  current_section st = Some section -> section <> EmptyString ->
  Py.len (questions_of section st) = None ->
  section_chat_node py_str render decide st = Raises TypeError st.
Proof.
  intros Hs Hne Hn. unfold section_chat_node. unfold bind at 1. unfold gets at 1.
  rewrite Hs. destruct section as [|c rest]; [contradiction |].
  unfold bind at 1. unfold gets at 1. cbv zeta.
  unfold bind at 1. fold (questions_of (String c rest) st).
  now rewrite (safe_initialize_answers_raises st _ _ Hn).
Qed.

Lemma section_chat_route_stable (P : ResumeBuilderState -> Prop)
    (section : string) (available : list string) (parsed : pydict pyval) :
  (forall s v, P s -> P (set_context v s)) ->
  (forall s v, P s -> P (set_next_action v s)) ->
  (forall s v, P s -> P (set_current_section v s)) ->
  stable P (section_chat_route py_str section available parsed).
Proof.
  intros Hc Hn Hs. unfold section_chat_route. cbv zeta. stable_with auto.
Qed.

Lemma section_chat_fault_returns (section : string) (e : exn) (s : ResumeBuilderState) :
  section_chat_fault section e s
  = Returns tt
      (set_next_action (Some "section_chat")
         (set_context
            (context s ++ [make_message "assistant"
                             (PStr ("I'm here to help with your " +:+ section
                                    +:+ " section. What would you like to know?"))]) s)).
Proof. reflexivity. Qed.

(** The answers of a decision leave a list of the same length in the
    ledger, whether or not applying them runs into a fault. *)
Lemma section_chat_updates_outcome (section : string) (parsed : pydict pyval)
    (s : ResumeBuilderState) (l : list string) :
  recommended_answers s !! section = Some l ->
  exists l', length l' = length l
    /\ (Dict.get "updated_answers" parsed = None -> l' = l)
    /\ (section_chat_updates section l parsed s
        = Returns tt (set_recommended_answers (<[section := l']> (recommended_answers s)) s)
        \/ exists e, section_chat_updates section l parsed s
        = Raises e (set_recommended_answers (<[section := l']> (recommended_answers s)) s)).
Proof.
  intros Hl.
  assert (Hsame : set_recommended_answers (<[section := l]> (recommended_answers s)) s = s)
    by now rewrite insert_id, set_recommended_answers_same.
  assert (Hnone : exists l', length l' = length l
    /\ (Dict.get "updated_answers" parsed = None -> l' = l)
    /\ (@ret unit tt s
        = Returns tt (set_recommended_answers (<[section := l']> (recommended_answers s)) s)
        \/ exists e, @ret unit tt s
        = Raises e (set_recommended_answers (<[section := l']> (recommended_answers s)) s))).
  { exists l. repeat split; [left; now rewrite Hsame]. }
  unfold section_chat_updates.
  destruct (Dict.get "updated_answers" parsed) as [[| | | | |updates|]|]; try exact Hnone.
  destruct (apply_updates_effect section (length l) updates 0 s l Hl) as (l' & Hlen & E).
  exists l'. split; [exact Hlen | split; [discriminate |]].
  destruct (apply_updates section (length l) 0 updates s) as [[] s2|e s2]; simpl in E;
    subst s2; [left | right; exists e]; reflexivity.
Qed.

Lemma section_chat_fault_stable (P : ResumeBuilderState -> Prop)
    (section : string) (e : exn) :
  (forall s v, P s -> P (set_context v s)) ->
  (forall s v, P s -> P (set_next_action v s)) ->
  stable P (section_chat_fault section e).
Proof. intros Hc Hn. unfold section_chat_fault. stable_with auto. Qed.

(** Section chat never touches the staged content. *)
Lemma section_chat_keeps_proposed (st : ResumeBuilderState) :
  proposed_section_content (final_state (section_chat_node py_str render decide st))
  = proposed_section_content st.
Proof.
  assert (H : stable (fun s => proposed_section_content s = proposed_section_content st)
                (section_chat_node py_str render decide)).
  { unfold section_chat_node, safe_initialize_answers, section_chat_updates,
      section_chat_route, section_chat_fault.
    stable_with assumption.
    all: apply apply_updates_stable; intros; assumption. }
  exact (H st eq_refl).
Qed.

(** After a turn of section chat in a section whose question list has a
    length, the metadata is as before, the ledger of the section has that
    length and the other ledgers are as before. *)
Lemma section_chat_ledger (st : ResumeBuilderState) (section : string) (n : nat) :
  current_section st = Some section -> section <> EmptyString ->
  Py.len (questions_of section st) = Some n ->
  section_objects (final_state (section_chat_node py_str render decide st))
  = section_objects st
  /\ exists l, recommended_answers (final_state (section_chat_node py_str render decide st))
               = <[section := l]> (recommended_answers st)
               /\ length l = n.
Proof.
  intros Hs Hne Hn. rewrite (section_chat_in_section st section n Hs Hne Hn).
  set (parsed := section_chat_decision render decide section n st).
  destruct (section_chat_updates_outcome section parsed (reconciled n section st)
              (rebuilt n section st)) as (l & Hlen & _ & Hout).
  { unfold reconciled. simpl. apply lookup_insert_eq. }
  assert (Hl : length l = n) by (rewrite Hlen; unfold rebuilt; apply length_resize).
  set (s2 := set_recommended_answers _ _) in Hout.
  set (P := fun s => section_objects s = section_objects st
                     /\ recommended_answers s = <[section := l]> (recommended_answers st)).
  assert (P2 : P s2)
    by (split; [reflexivity | unfold s2, reconciled; simpl; apply insert_insert_eq]).
  assert (Hend : P (final_state
            (try_catch
               (section_chat_updates section (rebuilt n section st) parsed ;;
                section_chat_route py_str section (Dict.keys (section_objects st)) parsed)
               (section_chat_fault section) (reconciled n section st)))).
  { unfold try_catch, bind. destruct Hout as [-> | [e ->]].
    - apply (stable_try_catch P
               (section_chat_route py_str section (Dict.keys (section_objects st)) parsed)
               (section_chat_fault section)); [| |exact P2].
      + apply section_chat_route_stable; intros ? ? ?; assumption.
      + intros e. apply section_chat_fault_stable; intros ? ? ?; assumption.
    - apply (section_chat_fault_stable P section e); [| |exact P2];
        intros ? ? ?; assumption. }
  destruct Hend as [Hobj Hans]. split; [exact Hobj | now exists l].
Qed.

End SectionChatProperties.

(** ** The ledger keeps the length of the question list *)

Lemma lookup_resize_default (l : list string) (n i : nat) :
  i < n -> resize n EmptyString l !! i = Some (default EmptyString (l !! i)).
Proof.
  intros Hi. destruct (Nat.lt_ge_cases i (length l)) as [Hlt|Hge].
  - rewrite lookup_resize by lia.
    destruct (lookup_lt_is_Some_2 l i Hlt) as [a ->]. reflexivity.
  - rewrite lookup_resize_new by lia. now rewrite (lookup_ge_None_2 l i Hge).
Qed.

(** C5. For a section whose question list has [n] entries: the reconcile
    returns and leaves a ledger of [n] entries for the section, each slot
    holding the earlier answer at that index or else the empty string;
    applying the answers of a decision keeps the length [n]; and a whole turn
    of section chat in that section ends with the ledger of the section at
    length [n], the question lists as they were and the ledgers of the other
    sections as they were, so that a section whose ledger had the length of
    its question list before the turn has it after the turn. *)
Theorem ledger_length_invariant (py_str : pyval -> string) (render : prompt -> string)
    (decide : string -> pyval -> nat -> pydict pyval)
    (st : ResumeBuilderState) (section : string) (n : nat) :
  Py.len (questions_of section st) = Some n ->
  (exists st' l,
     safe_initialize_answers section (questions_of section st) st = Returns tt st'
     /\ section_objects st' = section_objects st
     /\ recommended_answers st' = <[section := l]> (recommended_answers st)
     /\ length l = n
     /\ forall i, i < n ->
          l !! i = Some (default EmptyString
                           (default [] (recommended_answers st !! section) !! i)))
  /\ (forall updates i l,
        recommended_answers st !! section = Some l -> length l = n ->
        exists l',
          recommended_answers
            (final_state (apply_updates section (length l) i updates st))
          = <[section := l']> (recommended_answers st)
          /\ length l' = n)
  /\ (current_section st = Some section -> section <> EmptyString ->
      let st' := final_state (section_chat_node py_str render decide st) in
      section_objects st' = section_objects st
      /\ (exists l, recommended_answers st' !! section = Some l /\ length l = n)
      /\ forall other l m,
           recommended_answers st !! other = Some l ->
           Py.len (questions_of other st) = Some m -> length l = m ->
           exists l', recommended_answers st' !! other = Some l'
                      /\ Py.len (questions_of other st') = Some (length l')).
Proof.
  intros Hn. split; [|split].
  - exists (reconciled n section st), (rebuilt n section st).
    split; [now apply safe_initialize_answers_spec |].
    split; [reflexivity |]. split; [reflexivity |].
    split; [apply length_resize |].
    intros i Hi. now apply lookup_resize_default.
  - intros updates i l Hl Hlen.
    destruct (apply_updates_effect section (length l) updates i st l Hl) as (l' & Hl' & ->).
    exists l'. split; [reflexivity | congruence].
  - intros Hs Hne st'.
    destruct (section_chat_ledger py_str render decide st section n Hs Hne Hn)
      as (Hobj & l & Hans & Hl).
    fold st' in Hobj, Hans.
    split; [exact Hobj |]. split.
    + exists l. split; [|exact Hl]. rewrite Hans. apply lookup_insert_eq.
    + intros other l0 m Hl0 Hm Hlen.
      assert (Hq : questions_of other st' = questions_of other st)
        by (unfold questions_of; now rewrite Hobj).
      rewrite Hq, Hans. destruct (String.eqb_spec section other) as [<-|Hne'].
      * exists l. split; [apply lookup_insert_eq |]. congruence.
      * exists l0. split; [now rewrite lookup_insert_ne | congruence].
Qed.

Lemma ledger_length_invariant_witness :
  (exists st' l,
     safe_initialize_answers "skills" (questions_of "skills" in_skills) in_skills
     = Returns tt st'
     /\ section_objects st' = section_objects in_skills
     /\ recommended_answers st' = <["skills" := l]> (recommended_answers in_skills)
     /\ length l = 3
     /\ forall i, i < 3 ->
          l !! i = Some (default EmptyString
                           (default [] (recommended_answers in_skills !! "skills") !! i)))
  /\ exists l,
       recommended_answers
         (final_state
            (section_chat_node sample_str sample_render
               (decided switch_to_skills_with_answer) in_skills)) !! "skills" = Some l
       /\ length l = 3.
Proof.
  destruct (ledger_length_invariant sample_str sample_render
              (decided switch_to_skills_with_answer) in_skills "skills" 3 eq_refl)
    as (H1 & _ & H3).
  split; [exact H1 |].
  apply H3; [reflexivity | discriminate].
Defined.

(** ** Decisions as section chat gets them *)

Lemma extract_action (json_loads : string -> option pyval) (raw : string)
    (parsed : pydict pyval) :
  extract_and_validate_json json_loads raw = Ok parsed ->
  Dict.get "action" parsed = Some (PStr "answer")
  \/ Dict.get "action" parsed = Some (PStr "route").
Proof.
  unfold extract_and_validate_json.
  destruct (negb (PyStr.nonempty raw) || negb (PyStr.nonempty (PyStr.strip raw)));
    [discriminate |].
  destruct (Re.search raw) as [json_text|].
  - destruct (json_loads json_text) as [[| | | | | |d]|]; try discriminate.
    destruct (Dict.get "action" d) as [action|] eqn:Ha; [|discriminate].
    destruct (negb (Py.hashable action)); [discriminate |].
    destruct (existsb (Py.eq_str action) valid_actions) eqn:Hv; intros [= <-].
    + destruct action as [| | | |a| |]; try discriminate. simpl in Hv.
      rewrite orb_false_r in Hv. apply orb_true_iff in Hv as [Hv|Hv];
        apply String.eqb_eq in Hv; subst a; [left | right]; exact Ha.
    + left. apply dict_get_set_eq.
  - intros [= <-]. now left.
Qed.

(** Whatever the oracle replies, the decision that [call_llm_json_decision]
    hands to a handler has the action [answer] or [route]. *)
Lemma decision_actions (key : option string)
    (acompletion : string -> string -> nat -> completion)
    (json_loads : string -> option pyval) (json_dumps : pyval -> string)
    (system : string) (payload : pyval) (max_tokens : nat) :
  let parsed :=
    call_llm_json_decision key acompletion json_loads json_dumps system payload max_tokens in
  Dict.get "action" parsed = Some (PStr "answer")
  \/ Dict.get "action" parsed = Some (PStr "route").
Proof.
  unfold call_llm_json_decision.
  destruct (OFFLINE_MODE key); [now left |].
  destruct (acompletion _ _ _) as [|text]; [now left |].
  destruct (extract_and_validate_json json_loads (text_or_empty text)) eqn:E; [|now left].
  now apply (extract_action json_loads _ _ E).
Qed.

(** ** The applier *)

Section ApplierProperties.

Variable GOOGLE_API_KEY : option string.
Variable acompletion : string -> string -> nat -> completion.
Variable json_loads : string -> option pyval.
Variable py_str : pyval -> string.
Variable render : prompt -> string.
Variable check_mark : string.

Local Abbreviation apply_changes :=
  (apply_section_changes_internal GOOGLE_API_KEY acompletion json_loads py_str render
     check_mark).
Local Abbreviation analysis :=
  (analyze GOOGLE_API_KEY acompletion json_loads py_str render).
Local Abbreviation applier :=
  (section_applier_node GOOGLE_API_KEY acompletion json_loads py_str render check_mark).

Lemma apply_committed (st : ResumeBuilderState) (stored : gmap string pyval)
    (section : string) (content : pyval) :
  resume_sections st = Some stored ->
  apply_changes section content st
  = try_catch
      (analysis_result <- lift_result (analysis (jd_summary st) section content) ;;
       record_analysis py_str check_mark section analysis_result)
      (apply_fault check_mark section)
      (committed section content stored st).
Proof.
  intros H. unfold apply_section_changes_internal.
  unfold bind at 1. unfold gets at 1. rewrite H. reflexivity.
Qed.

Lemma apply_fault_total (section : string) (e : exn) :
  total (apply_fault check_mark section e).
Proof. apply total_append_message. Qed.

Lemma record_analysis_stable (P : ResumeBuilderState -> Prop) (section : string)
    (d : pydict pyval) :
  (forall s v, P s -> P (set_context v s)) ->
  (forall s v, P s -> P (set_section_objects v s)) ->
  (forall s v, P s -> P (set_recommended_answers v s)) ->
  stable P (record_analysis py_str check_mark section d).
Proof.
  intros Hc Ho Ha. unfold record_analysis. cbv zeta.
  stable_with ltac:(first [solve [auto] | destruct (Dict.mem _ _); auto]).
Qed.

(** The applier's commit survives whatever the analysis does. *)
Lemma apply_keeps (P : ResumeBuilderState -> Prop) (st : ResumeBuilderState)
    (stored : gmap string pyval) (section : string) (content : pyval) :
  (forall s v, P s -> P (set_context v s)) ->
  (forall s v, P s -> P (set_section_objects v s)) ->
  (forall s v, P s -> P (set_recommended_answers v s)) ->
  resume_sections st = Some stored ->
  P (committed section content stored st) ->
  exists st1, apply_changes section content st = Returns tt st1 /\ P st1.
Proof.
  intros Hc Ho Ha Hst HP. rewrite (apply_committed st stored section content Hst).
  set (body := bind _ _).
  destruct (total_try_catch body (apply_fault check_mark section)
              (apply_fault_total section) (committed section content stored st))
    as ([] & st1 & E).
  exists st1. split; [exact E |].
  change st1 with (final_state (Returns tt st1)). rewrite <- E.
  apply (stable_try_catch P); [| |exact HP].
  - unfold body. apply stable_bind; [apply stable_lift_result |].
    intros d. now apply record_analysis_stable.
  - intros e. unfold apply_fault. now apply stable_append_message.
Qed.


Lemma falsy_len (v : pyval) (n : nat) :
  Py.truthy v = false -> Py.len v = Some n -> n = 0.
Proof.
  destruct v as [| | | |s|l|d]; simpl; try discriminate.
  - destruct s; [now intros _ [= <-] | discriminate].
  - destruct l; [now intros _ [= <-] | discriminate].
  - destruct d; [now intros _ [= <-] | discriminate].
Qed.

(** An analysis whose question list has a length resets the ledger of the
    section to that many empty strings. *)
Lemma apply_analysis_sized (st : ResumeBuilderState) (stored : gmap string pyval)
    (section : string) (content : pyval) (d : pydict pyval) (n : nat) :
  resume_sections st = Some stored ->
  analysis (jd_summary st) section content = Ok d ->
  Py.len (Dict.get_default "recommended_questions" PNone d) = Some n ->
  exists st1,
    apply_changes section content st = Returns tt st1
    /\ recommended_answers st1
       = <[section := replicate n EmptyString]> (recommended_answers st)
    /\ Dict.get "recommended_questions" (Dict.get_default section [] (section_objects st1))
       = Some (Dict.get_default "recommended_questions" PNone d).
Proof.
  intros Hst Hd Hn. rewrite (apply_committed st stored section content Hst).
  unfold try_catch. unfold bind at 1. simpl jd_summary. rewrite Hd.
  unfold lift_result, ret at 1. unfold record_analysis. cbv zeta.
  set (q := Dict.get_default "recommended_questions" PNone d) in *.
  unfold bind, modify, len_of, append_message, ret. rewrite Hn.
  assert (Hfalsy : Py.truthy q = false -> @nil string = replicate n EmptyString)
    by (intros Hq; now rewrite (falsy_len q n Hq Hn)).
  destruct (Dict.mem section (section_objects (committed section content stored st)));
    destruct (Py.truthy q) eqn:Hq; try rewrite (Hfalsy eq_refl);
    (eexists; split; [reflexivity |]; split; [reflexivity |]; simpl;
     unfold Dict.get_default; rewrite dict_get_set_eq; apply dict_get_set_eq).
Qed.

(** The applier on its commit path. *)
Lemma applier_commits (st : ResumeBuilderState) (stored : gmap string pyval)
    (section : string) :
  current_section st = Some section -> section <> EmptyString ->
  resume_sections st = Some stored ->
  Py.truthy (content_to_apply section stored st) = true ->
  applier st
  = (apply_changes section (content_to_apply section stored st) ;;
     modify (set_proposed_section_content PNone) ;;
     modify (set_next_action (Some "section_chat"))) st.
Proof.
  intros Hs Hne Hst Ht. unfold section_applier_node.
  unfold bind at 1. unfold gets at 1. rewrite Hs.
  destruct section as [|c rest]; [contradiction |].
  unfold bind at 1. unfold gets at 1.
  unfold content_to_apply in *.
  destruct (Py.truthy (proposed_section_content st)) eqn:Hp.
  - unfold bind at 1. unfold ret at 1. now rewrite Ht.
  - unfold bind at 1. unfold stored_content, bind, gets. rewrite Hst.
    unfold ret at 1. now rewrite Ht.
Qed.


(** C3 (as the code has it). The applier, on its commit path, ends with no
    staged content. General chat and section chat, which are the handlers
    that set the active section to null, leave the staged content as they
    found it on every path. *)
Theorem staged_content_lifecycle
    (decide : string -> pyval -> nat -> pydict pyval) (st : ResumeBuilderState) :
  (forall stored section,
     current_section st = Some section -> section <> EmptyString ->
     resume_sections st = Some stored ->
     Py.truthy (content_to_apply section stored st) = true ->
     exists st', applier st = Returns tt st' /\ proposed_section_content st' = PNone)
  /\ proposed_section_content
       (final_state (general_chat_and_section_routing py_str render decide st))
     = proposed_section_content st
  /\ proposed_section_content (final_state (section_chat_node py_str render decide st))
     = proposed_section_content st.
Proof.
  split; [|split].
  - intros stored section Hs Hne Hst Ht.
    rewrite (applier_commits st stored section Hs Hne Hst Ht).
    destruct (apply_keeps (fun _ => True) st stored section
                (content_to_apply section stored st)) as (st1 & E & _); auto.
    unfold bind. rewrite E. eexists. split; reflexivity.
  - apply general_chat_keeps_proposed.
  - apply section_chat_keeps_proposed.
Qed.

(** C2 (as the code has it). The reconcile of a ledger that is present
    rebuilds it to the length of the question list: the old values stay at
    their indices, the new slots hold the empty string, the values beyond the
    new length are dropped, so three answers reconciled against two
    questions leave the first two. An apply does not go through this
    rebuild: an analysis whose question list has [n] entries resets the
    ledger of the section to [n] empty strings. *)
Theorem reconcile_rebuilds_apply_resets (st : ResumeBuilderState)
    (section : string) (questions : pyval) (n : nat) :
  Py.len questions = Some n ->
  (forall old, recommended_answers st !! section = Some old ->
     exists st' l,
       safe_initialize_answers section questions st = Returns tt st'
       /\ recommended_answers st' !! section = Some l
       /\ length l = n
       /\ l = take n old ++ replicate (n - length old) EmptyString
       /\ (forall i, i < n -> i < length old -> l !! i = old !! i)
       /\ (forall i, length old <= i -> i < n -> l !! i = Some EmptyString)
       /\ (forall a b c, old = [a; b; c] -> n = 2 -> l = [a; b]))
  /\ (forall stored content d,
        resume_sections st = Some stored ->
        analysis (jd_summary st) section content = Ok d ->
        Dict.get_default "recommended_questions" PNone d = questions ->
        exists st1,
          apply_changes section content st = Returns tt st1
          /\ recommended_answers st1 !! section = Some (replicate n EmptyString)).
Proof.
  intros Hn. split.
  - intros old Hold. exists (reconciled n section st), (resize n EmptyString old).
    split; [now apply safe_initialize_answers_spec |].
    split; [unfold reconciled, rebuilt; simpl; rewrite Hold; apply lookup_insert_eq |].
    split; [apply length_resize |].
    split; [apply resize_spec |].
    split; [intros i H1 H2; now apply lookup_resize |].
    split; [intros i H1 H2; now apply lookup_resize_new |].
    intros a b c -> ->. reflexivity.
  - intros stored content d Hst Hd Hq. subst questions.
    destruct (apply_analysis_sized st stored section content d n Hst Hd Hn)
      as (st1 & E & Hans & _).
    exists st1. split; [exact E |]. rewrite Hans. apply lookup_insert_eq.
Qed.

End ApplierProperties.



Lemma staged_content_lifecycle_witness :
  exists st',
    section_applier_node (Some "key") failing_completion (loads_from analysis_replies)
      sample_str sample_render "[saved]" answered_skills = Returns tt st'
    /\ proposed_section_content st' = PNone.
Proof.
  destruct (staged_content_lifecycle (Some "key") failing_completion
              (loads_from analysis_replies) sample_str sample_render "[saved]"
              (decided offline_decision) answered_skills) as (H & _ & _).
  apply (H {[ "skills" := PStr "java, python, aws" ]} "skills").
  - reflexivity.
  - discriminate.
  - reflexivity.
  - reflexivity.
Defined.

(** C3 (as stated) fails: a hard reset, and likewise the guard of general
    chat, sets the active section to null and leaves the staged rewrite where
    it was. *)
Lemma staged_content_counterexample :
  let reset := offline_general_chat (set_routing_attempts 3 answered_skills) in
  let guarded := offline_general_chat answered_skills in
  proposed_section_content answered_skills = PStr "java, python, aws, gcp, terraform"
  /\ current_section reset = None
  /\ proposed_section_content reset = PStr "java, python, aws, gcp, terraform"
  /\ current_section guarded = None
  /\ proposed_section_content guarded = PStr "java, python, aws, gcp, terraform".
Proof. vm_compute. repeat split. Qed.

Lemma reconcile_rebuilds_apply_resets_witness :
  (exists st' l,
     safe_initialize_answers "skills" (PList [PStr "q1"; PStr "q2"]) answered_skills
     = Returns tt st'
     /\ recommended_answers st' !! "skills" = Some l
     /\ l = ["Terraform modules"; "Two GCP projects"])
  /\ exists st1,
       apply_section_changes_internal (Some "key") (replying two_questions_reply)
         (loads_from analysis_replies) sample_str sample_render "[saved]" "skills"
         (PStr "java, python, aws, gcp, terraform") answered_skills = Returns tt st1
       /\ recommended_answers st1 !! "skills" = Some [EmptyString; EmptyString].
Proof.
  destruct (reconcile_rebuilds_apply_resets (Some "key") (replying two_questions_reply)
              (loads_from analysis_replies) sample_str sample_render "[saved]"
              answered_skills "skills" (PList [PStr "q1"; PStr "q2"]) 2 eq_refl)
    as (H1 & _).
  destruct (reconcile_rebuilds_apply_resets (Some "key") (replying two_questions_reply)
              (loads_from analysis_replies) sample_str sample_render "[saved]"
              answered_skills "skills"
              (PList [PStr "Which GCP services?"; PStr "Any certifications?"]) 2 eq_refl)
    as (_ & H2).
  split.
  - destruct (H1 ["Terraform modules"; "Two GCP projects"; "Yes, in production"] eq_refl)
      as (st' & l & E & Hl & _ & _ & _ & _ & Hex).
    exists st', l. split; [exact E |]. split; [exact Hl |].
    now apply (Hex "Terraform modules" "Two GCP projects" "Yes, in production").
  - apply (H2 {[ "skills" := PStr "java, python, aws" ]}
              (PStr "java, python, aws, gcp, terraform")
              [ ("alignment_score", PInt 92);
                ("missing_requirements", PList []);
                ("recommended_questions",
                  PList [PStr "Which GCP services?"; PStr "Any certifications?"]);
                ("analysis_summary", PStr "Closer to the role") ]);
      reflexivity.
Defined.

(** C2 (as stated) fails: the applier, told of two questions where there
    were three, leaves two empty answers, and the reconcile of the next
    section-chat turn finds nothing to rebuild. *)
Lemma answers_after_apply_counterexample :
  let applied :=
    final_state
      (SectionApplier (Some "key") (replying two_questions_reply)
         (loads_from analysis_replies) sample_str sample_render "[saved]"
         answered_skills) in
  let next_turn :=
    final_state
      (SectionChat (Some "key") (replying two_questions_reply)
         (loads_from analysis_replies) sample_dumps sample_str sample_render applied) in
  Py.len (questions_of "skills" answered_skills) = Some 3
  /\ Py.len (questions_of "skills" applied) = Some 2
  /\ recommended_answers answered_skills !! "skills"
     = Some ["Terraform modules"; "Two GCP projects"; "Yes, in production"]
  /\ recommended_answers applied !! "skills" = Some [EmptyString; EmptyString]
  /\ recommended_answers next_turn !! "skills" = Some [EmptyString; EmptyString]
  /\ recommended_answers next_turn !! "skills"
     <> Some ["Terraform modules"; "Two GCP projects"].
Proof. vm_compute. repeat split. discriminate. Qed.

(** ** The resolver *)

Lemma is_space_lower_char (c : ascii) :
  PyStr.is_space (PyStr.lower_char c) = PyStr.is_space c.
Proof. destruct c as [[] [] [] [] [] [] [] []]; reflexivity. Qed.

Lemma lstrip_lower (s : string) :
  PyStr.lstrip (PyStr.lower s) = PyStr.lower (PyStr.lstrip s).
Proof.
  induction s as [|c s IH]; simpl; [reflexivity |].
  rewrite is_space_lower_char. destruct (PyStr.is_space c); [exact IH | reflexivity].
Qed.

Lemma rstrip_lower (s : string) :
  PyStr.rstrip (PyStr.lower s) = PyStr.lower (PyStr.rstrip s).
Proof.
  induction s as [|c s IH]; simpl; [reflexivity |].
  rewrite IH, is_space_lower_char.
  destruct (PyStr.rstrip s); simpl; [|reflexivity].
  destruct (PyStr.is_space c); reflexivity.
Qed.

(** Lowercasing and trimming commute: the code lowercases first, the
    specification trims first. *)
Lemma strip_lower (s : string) :
  PyStr.strip (PyStr.lower s) = PyStr.lower (PyStr.strip s).
Proof. unfold PyStr.strip. now rewrite lstrip_lower, rstrip_lower. Qed.

Lemma Qgtb_true (a b : Q) : Qgtb a b = true <-> (b < a)%Q.
Proof.
  unfold Qgtb. rewrite negb_true_iff. split.
  - intros H. apply Qnot_le_lt. intros Hle. apply Qle_bool_iff in Hle. congruence.
  - intros H. destruct (Qle_bool a b) eqn:E; [|reflexivity].
    apply Qle_bool_iff in E. exfalso. exact (Qlt_not_le _ _ H E).
Qed.

Lemma Qgtb_false (a b : Q) : Qgtb a b = false <-> (a <= b)%Q.
Proof.
  unfold Qgtb. rewrite negb_false_iff. apply Qle_bool_iff.
Qed.

Ltac q_facts :=
  repeat match goal with
    | H : Qgtb _ _ = true |- _ => apply Qgtb_true in H
    | H : Qgtb _ _ = false |- _ => apply Qgtb_false in H
    | H : _ && _ = true |- _ => apply andb_true_iff in H as [? ?]
    | H : _ && _ = false |- _ => apply andb_false_iff in H as [?|?]
    end.

Section ResolverProperties.

Variable ratio : string -> string -> Q.

(** The loop over the candidates keeps the first candidate of maximum
    similarity among those that beat both the best so far and the
    threshold. *)
Lemma fuzzy_fold (x : string) (candidates : list string) :
  forall (m : option string) (best : Q),
    fst (fold_left (fuzzy_step ratio x) candidates (m, best))
    = match best_candidate ratio x candidates with
      | Some b =>
          if Qgtb (ratio x b) best && Qgtb (ratio x b) threshold then Some b else m
      | None => m
      end.
Proof.
  induction candidates as [|c rest IH]; intros m best; simpl; [reflexivity |].
  unfold fuzzy_step at 2. simpl snd.
  destruct (Qgtb (ratio x c) best && Qgtb (ratio x c) threshold) eqn:Hc;
    rewrite IH; destruct (best_candidate ratio x rest) as [b|]; simpl;
    try (rewrite Hc; reflexivity).
  - destruct (Qgtb (ratio x b) (ratio x c)) eqn:Hbc; simpl.
    + destruct (Qgtb (ratio x b) threshold) eqn:Hbt;
        destruct (Qgtb (ratio x b) best) eqn:Hbb; simpl; try reflexivity;
        exfalso; q_facts; lra.
    + now rewrite Hc.
  - destruct (Qgtb (ratio x b) (ratio x c)) eqn:Hbc; simpl; [reflexivity |].
    rewrite Hc.
    destruct (Qgtb (ratio x b) best && Qgtb (ratio x b) threshold) eqn:Hb;
      [|reflexivity].
    exfalso. q_facts; lra.
Qed.

Lemma fuzzy_match_spec (x : string) (candidates : list string) :
  fuzzy_match ratio x candidates
  = match best_candidate ratio x candidates with
    | Some b => if Qgtb (ratio x b) threshold then Some b else None
    | None => None
    end.
Proof.
  unfold fuzzy_match. rewrite fuzzy_fold.
  destruct (best_candidate ratio x candidates) as [b|]; [|reflexivity].
  destruct (Qgtb (ratio x b) threshold) eqn:Ht; [|now rewrite andb_false_r].
  rewrite andb_true_r.
  destruct (Qgtb (ratio x b) 0) eqn:H0; [reflexivity |].
  exfalso. q_facts. unfold threshold in *. lra.
Qed.

(** The resolver does what the specification says, step by step. *)
Lemma normalize_section_name_refines (raw_name : string) (candidates : list string) :
  normalize_section_name ratio raw_name candidates = resolve_spec ratio raw_name candidates.
Proof.
  unfold normalize_section_name, resolve_spec. cbv zeta.
  destruct raw_name as [|c0 raw]; [reflexivity |].
  destruct candidates as [|c1 rest]; [reflexivity |].
  cbn [PyStr.nonempty negb orb]. rewrite strip_lower.
  set (x := PyStr.lower (PyStr.strip (String c0 raw))).
  destruct (str_in x (c1 :: rest)); [reflexivity |].
  rewrite fuzzy_match_spec.
  destruct (Dict.get x section_aliases) as [canonical|]; [|reflexivity].
  destruct (str_in canonical (c1 :: rest)); reflexivity.
Qed.

End ResolverProperties.

Lemma best_candidate_in (ratio : string -> string -> Q) (x : string)
    (candidates : list string) (b : string) :
  best_candidate ratio x candidates = Some b -> In b candidates.
Proof.
  revert b. induction candidates as [|c rest IH]; intros b; simpl; [discriminate |].
  destruct (best_candidate ratio x rest) as [b'|].
  - destruct (Qgtb _ _); intros [= <-]; [right; now apply IH | now left].
  - intros [= <-]. now left.
Qed.

Lemma str_in_false (x : string) (l : list string) : ~ In x l -> str_in x l = false.
Proof.
  intros H. unfold str_in. destruct (existsb (String.eqb x) l) eqn:E; [|reflexivity].
  apply existsb_exists in E as (y & Hy & Heq). apply String.eqb_eq in Heq. now subst y.
Qed.

(** [difflib] scores the empty text 0 against any other text. *)
Lemma ratio_of_empty (c : string) :
  c <> EmptyString -> Qgtb (Difflib.ratio EmptyString c) threshold = false.
Proof.
  intros Hc. destruct c as [|a c]; [contradiction |]. reflexivity.
Qed.

(** C9. For every similarity score, input and candidate list the resolver
    returns what the steps of the specification return: null on an empty
    input or on no candidates, else the normalised input if it is a
    candidate, else its alias if that is a candidate, else the first
    candidate of maximum similarity if its score is above 0.6, else null.
    With the score of [difflib] an input that is blank resolves to null as
    well (the empty name not being a candidate), and the four examples come
    out as stated. *)
Theorem resolver_follows_spec :
  (forall (ratio : string -> string -> Q) (raw_name : string) (candidates : list string),
     normalize_section_name ratio raw_name candidates
     = resolve_spec ratio raw_name candidates)
  /\ (forall (raw_name : string) (candidates : list string),
        blank raw_name = true -> ~ In EmptyString candidates ->
        normalize_section_name Difflib.ratio raw_name candidates = None)
  /\ normalize_section_name Difflib.ratio "exp" ["experiences"; "skills"]
     = Some "experiences"
  /\ normalize_section_name Difflib.ratio "refs" ["recommendations"]
     = Some "recommendations"
  /\ normalize_section_name Difflib.ratio "experiance" canonical_sections
     = Some "experiences"
  /\ normalize_section_name Difflib.ratio "xyz123" ["skills"; "education"] = None.
Proof.
  split; [exact normalize_section_name_refines |].
  split; [|vm_compute; repeat split].
  intros raw_name candidates Hb Hno.
  rewrite normalize_section_name_refines. unfold resolve_spec. cbv zeta.
  destruct raw_name as [|c0 raw]; [reflexivity |].
  destruct candidates as [|c1 rest]; [reflexivity |].
  apply strip_empty_iff in Hb. rewrite Hb. simpl PyStr.lower.
  rewrite (str_in_false _ _ Hno). simpl Dict.get.
  destruct (best_candidate Difflib.ratio EmptyString (c1 :: rest)) as [b|] eqn:E;
    [|reflexivity].
  rewrite ratio_of_empty; [reflexivity |].
  intros ->. apply Hno. now apply (best_candidate_in _ _ _ _ E).
Qed.

Lemma resolver_follows_spec_witness :
  normalize_section_name Difflib.ratio "   " canonical_sections = None.
Proof.
  destruct resolver_follows_spec as (_ & H & _).
  apply H; [reflexivity |].
  unfold canonical_sections. simpl. intuition discriminate.
Defined.

(** ** The matcher runs to its end *)

Lemma common_prefix_le (a b : list ascii) : Difflib.common_prefix a b <= length a.
Proof.
  revert b. induction a as [|x a IH]; intros [|y b]; simpl; try lia.
  destruct (Ascii.eqb x y); [specialize (IH b) |]; lia.
Qed.

Lemma common_unpopular_le (pop : ascii -> bool) (a b : list ascii) :
  Difflib.common_unpopular pop a b <= length a.
Proof.
  revert b. induction a as [|x a IH]; intros [|y b]; simpl; try lia.
  destruct (Ascii.eqb x y && negb (pop y)); [specialize (IH b) |]; lia.
Qed.

Lemma scan_b_fits (pop : ascii -> bool) (total i : nat) (a b : list ascii) :
  i + length a <= total ->
  forall j best, fits total best -> fits total (Difflib.scan_b pop i a b j best).
Proof.
  intros Hi. induction b as [|y b IH]; intros j best Hbest; simpl; [exact Hbest |].
  apply IH. destruct (Nat.ltb _ _); [|exact Hbest].
  unfold fits. simpl. pose proof (common_unpopular_le pop a (y :: b)). lia.
Qed.

Lemma scan_a_fits (pop : ascii -> bool) (total : nat) (b a : list ascii) :
  forall i best, i + length a <= total -> fits total best ->
                 fits total (Difflib.scan_a pop a b i best).
Proof.
  induction a as [|x a IH]; intros i best Hi Hbest; simpl; [exact Hbest |].
  apply IH; [simpl in Hi; lia |]. now apply scan_b_fits.
Qed.

Lemma find_longest_match_fits (pop : ascii -> bool) (a b : list ascii) :
  fits (length a) (Difflib.find_longest_match pop a b).
Proof.
  unfold Difflib.find_longest_match.
  pose proof (scan_a_fits pop (length a) b a 0 (0, 0, 0)) as Hfit.
  destruct (Difflib.scan_a pop a b 0 (0, 0, 0)) as [[i j] k].
  unfold fits in *. simpl in *.
  assert (Hik : i + k <= length a) by (apply Hfit; lia).
  pose proof (common_prefix_le (rev (take i a)) (rev (take j b))) as Hbefore.
  rewrite length_rev, length_take in Hbefore.
  pose proof (common_prefix_le (drop (i + k) a) (drop (j + k) b)) as Hafter.
  rewrite length_drop in Hafter. lia.
Qed.

(** Any fuel above the length of the first text gives the same count: the
    fuel that [Difflib.ratio] provides is enough. *)
Lemma matches_enough_fuel (pop : ascii -> bool) (fuel1 : nat) :
  forall (fuel2 : nat) (a b : list ascii),
    length a < fuel1 -> length a < fuel2 ->
    Difflib.matches pop fuel1 a b = Difflib.matches pop fuel2 a b.
Proof.
  induction fuel1 as [|fuel1 IH]; intros fuel2 a b H1 H2; [lia |].
  destruct fuel2 as [|fuel2]; [lia |]. simpl.
  pose proof (find_longest_match_fits pop a b) as Hfit.
  destruct (Difflib.find_longest_match pop a b) as [[i j] k].
  unfold fits in Hfit. simpl in Hfit.
  destruct (Nat.eqb_spec k 0) as [->|Hk]; [reflexivity |].
  rewrite (IH fuel2 (take i a) (take j b)) by (rewrite length_take; lia).
  rewrite (IH fuel2 (drop (i + k) a) (drop (j + k) b)) by (rewrite length_drop; lia).
  reflexivity.
Qed.

(** * Further properties of the code *)

(** ** The resolver *)

Lemma str_in_true (x : string) (l : list string) : str_in x l = true -> In x l.
Proof.
  unfold str_in. intros H. apply existsb_exists in H as (y & Hy & Heq).
  apply String.eqb_eq in Heq. now subst y.
Qed.

Lemma str_in_iff (x : string) (l : list string) : str_in x l = true <-> In x l.
Proof.
  split; [apply str_in_true |]. intros H.
  destruct (str_in x l) eqn:E; [reflexivity |].
  unfold str_in in E. rewrite <- not_true_iff_false in E. exfalso. apply E.
  apply existsb_exists. exists x. split; [exact H | apply String.eqb_refl].
Qed.

Lemma normalize_section_name_in (ratio : string -> string -> Q)
    (section_name : string) (available_sections : list string) (found : string) :
  normalize_section_name ratio section_name available_sections = Some found ->
  In found available_sections.
Proof.
  unfold normalize_section_name.
  destruct (negb (PyStr.nonempty section_name) || _); [discriminate |]. cbv zeta.
  set (x := PyStr.strip (PyStr.lower section_name)).
  destruct (str_in x available_sections) eqn:Hx.
  - intros [= <-]. now apply str_in_true.
  - destruct (Dict.get x section_aliases) as [canonical|].
    + destruct (str_in canonical available_sections) eqn:Hc.
      * intros [= <-]. now apply str_in_true.
      * rewrite fuzzy_match_spec.
        destruct (best_candidate ratio x available_sections) as [b|] eqn:Hb;
          [|discriminate].
        destruct (Qgtb _ _); intros [= <-]. now apply (best_candidate_in _ _ _ _ Hb).
    + rewrite fuzzy_match_spec.
      destruct (best_candidate ratio x available_sections) as [b|] eqn:Hb;
        [|discriminate].
      destruct (Qgtb _ _); intros [= <-]. now apply (best_candidate_in _ _ _ _ Hb).
Qed.

Lemma normalize_section_value_in (ratio : string -> string -> Q)
    (section_name : pyval) (available_sections : list string) (found : string) :
  normalize_section_value ratio section_name available_sections = Ok (Some found) ->
  In found available_sections.
Proof.
  unfold normalize_section_value. destruct (negb _ || _); [discriminate |].
  destruct section_name; try discriminate. intros [= H].
  now apply (normalize_section_name_in _ _ _ _ H).
Qed.

(** X1. Whatever the similarity score, a name that the resolver returns is
    one of the candidates it was given: by exact match, through the alias
    table or by similarity, it never makes up a section; and so for the
    call that the handlers make on a value of a decision. *)
Theorem resolver_returns_candidate (ratio : string -> string -> Q)
    (available_sections : list string) (found : string) :
  (forall section_name,
     normalize_section_name ratio section_name available_sections = Some found ->
     In found available_sections)
  /\ (forall value,
        normalize_section_value ratio value available_sections = Ok (Some found) ->
        In found available_sections).
Proof.
  split.
  - intros section_name. apply normalize_section_name_in.
  - intros value. apply normalize_section_value_in.
Qed.

Lemma resolver_returns_candidate_witness : In "experiences" canonical_sections.
Proof.
  apply (resolver_returns_candidate Difflib.ratio canonical_sections "experiences")
    with (section_name := "Experiance ").
  vm_compute. reflexivity.
Defined.

Lemma lower_char_idem (c : ascii) :
  PyStr.lower_char (PyStr.lower_char c) = PyStr.lower_char c.
Proof. destruct c as [[] [] [] [] [] [] [] []]; reflexivity. Qed.

Lemma lower_idem (s : string) : PyStr.lower (PyStr.lower s) = PyStr.lower s.
Proof.
  induction s as [|c s IH]; simpl; [reflexivity |]. now rewrite lower_char_idem, IH.
Qed.

Lemma rstrip_idem (s : string) : PyStr.rstrip (PyStr.rstrip s) = PyStr.rstrip s.
Proof.
  induction s as [|c s IH]; simpl; [reflexivity |].
  destruct (PyStr.rstrip s) as [|c' r] eqn:E.
  - destruct (PyStr.is_space c) eqn:Hc; simpl; [reflexivity |]. now rewrite Hc.
  - change (PyStr.rstrip (String c (String c' r)))
      with (match PyStr.rstrip (String c' r) with
            | EmptyString =>
                if PyStr.is_space c then EmptyString else String c EmptyString
            | r0 => String c r0
            end).
    now rewrite IH.
Qed.

Lemma lstrip_head (s : string) :
  match PyStr.lstrip s with
  | EmptyString => True
  | String c _ => PyStr.is_space c = false
  end.
Proof.
  induction s as [|c s IH]; simpl; [exact I |].
  destruct (PyStr.is_space c) eqn:E; [exact IH | exact E].
Qed.

Lemma rstrip_head (s : string) :
  match PyStr.rstrip s with
  | EmptyString => True
  | String c _ => exists rest, s = String c rest
  end.
Proof.
  destruct s as [|c s]; simpl; [exact I |].
  destruct (PyStr.rstrip s); [destruct (PyStr.is_space c) |]; simpl; eauto.
Qed.

Lemma strip_idem (s : string) : PyStr.strip (PyStr.strip s) = PyStr.strip s.
Proof.
  unfold PyStr.strip.
  assert (H : PyStr.lstrip (PyStr.rstrip (PyStr.lstrip s)) = PyStr.rstrip (PyStr.lstrip s)).
  { pose proof (lstrip_head s) as Hl. pose proof (rstrip_head (PyStr.lstrip s)) as Hr.
    destruct (PyStr.rstrip (PyStr.lstrip s)) as [|c r]; [reflexivity |].
    destruct Hr as [rest Hrest]. rewrite Hrest in Hl. simpl. now rewrite Hl. }
  rewrite H. apply rstrip_idem.
Qed.

(** X2. The resolver looks at its input only up to case and surrounding
    white space: a name whose normal form is not empty resolves to what its
    normal form resolves to. *)
Theorem resolver_ignores_case_and_padding (ratio : string -> string -> Q)
    (section_name : string) (available_sections : list string) :
  PyStr.strip (PyStr.lower section_name) <> EmptyString ->
  normalize_section_name ratio section_name available_sections
  = normalize_section_name ratio (PyStr.strip (PyStr.lower section_name))
      available_sections.
Proof.
  intros Hne. unfold normalize_section_name.
  assert (Hs : PyStr.nonempty section_name = true)
    by (destruct section_name; [now contradiction Hne | reflexivity]).
  assert (Hc : PyStr.nonempty (PyStr.strip (PyStr.lower section_name)) = true)
    by (destruct (PyStr.strip (PyStr.lower section_name)); [contradiction | reflexivity]).
  rewrite Hs, Hc.
  replace (PyStr.strip (PyStr.lower (PyStr.strip (PyStr.lower section_name))))
    with (PyStr.strip (PyStr.lower section_name)); [reflexivity |].
  rewrite (strip_lower (PyStr.strip (PyStr.lower section_name))).
  rewrite strip_idem. rewrite <- strip_lower. now rewrite lower_idem.
Qed.

Lemma resolver_ignores_case_and_padding_witness :
  normalize_section_name Difflib.ratio "  SKILLS " canonical_sections
  = normalize_section_name Difflib.ratio "skills" canonical_sections.
Proof.
  apply (resolver_ignores_case_and_padding Difflib.ratio "  SKILLS " canonical_sections).
  vm_compute. discriminate.
Defined.

(** X3. The alias table is usable as it stands: every key of it is in
    normal form and not shadowed, so that a key which is not itself a
    candidate resolves to its target whenever the target is a candidate; and
    every target is one of the canonical sections. *)
Theorem aliases_resolve_to_their_targets (ratio : string -> string -> Q)
    (alias target : string) (available_sections : list string) :
  In (alias, target) section_aliases ->
  In target available_sections ->
  (alias = target \/ ~ In alias available_sections) ->
  normalize_section_name ratio alias available_sections = Some target
  /\ In target canonical_sections.
Proof.
  intros Hin Htarget Halias.
  assert (Hgen : forall clean,
            PyStr.nonempty alias = true ->
            PyStr.strip (PyStr.lower alias) = clean -> clean = alias ->
            Dict.get alias section_aliases = Some target ->
            normalize_section_name ratio alias available_sections = Some target).
  { intros clean Hne Hclean -> Hget. unfold normalize_section_name.
    rewrite Hne, Hclean, Hget. cbv zeta.
    destruct available_sections as [|a rest]; [contradiction |]. cbn [negb orb].
    destruct Halias as [->|Hno].
    - now rewrite (proj2 (str_in_iff _ _) Htarget).
    - rewrite (str_in_false _ _ Hno). now rewrite (proj2 (str_in_iff _ _) Htarget). }
  unfold section_aliases in Hin. simpl in Hin.
  repeat (destruct Hin as [[= <- <-]|Hin];
          [split; [now apply (Hgen _ eq_refl eq_refl eq_refl eq_refl)
                  | unfold canonical_sections; simpl; tauto] |]).
  contradiction.
Qed.

Lemma aliases_resolve_to_their_targets_witness :
  normalize_section_name Difflib.ratio "refs" ["skills"; "recommendations"]
  = Some "recommendations"
  /\ In "recommendations" canonical_sections.
Proof.
  apply (aliases_resolve_to_their_targets Difflib.ratio "refs" "recommendations").
  - unfold section_aliases. simpl. tauto.
  - simpl. tauto.
  - right. simpl. intuition discriminate.
Defined.

(** ** The extractor *)

Lemma dict_keys_set_present {V : Type} (k : string) (v : V) (d : pydict V) :
  Dict.get k d <> None -> Dict.keys (Dict.set k v d) = Dict.keys d.
Proof.
  induction d as [|[k' v'] d IH]; simpl; [congruence |].
  destruct (String.eqb k k') eqn:E; simpl; intros H; [reflexivity |].
  f_equal. now apply IH.
Qed.

(** X4. A decision that the extractor takes from a JSON object is that
    object, key for key and in the same order, but for its action: every
    other key reads as in the object, and an object whose action is [answer]
    or [route] comes back untouched. *)
Theorem extract_keeps_the_object (json_loads : string -> option pyval)
    (raw json_text : string) (decision : pydict pyval) :
  extract_and_validate_json json_loads raw = Ok decision ->
  Re.search raw = Some json_text ->
  exists parsed action,
    json_loads json_text = Some (PDict parsed)
    /\ Dict.get "action" parsed = Some action
    /\ Dict.keys decision = Dict.keys parsed
    /\ (forall key, key <> "action" -> Dict.get key decision = Dict.get key parsed)
    /\ (action = PStr "answer" \/ action = PStr "route" -> decision = parsed).
Proof.
  unfold extract_and_validate_json.
  destruct (negb (PyStr.nonempty raw) || negb (PyStr.nonempty (PyStr.strip raw)));
    [discriminate |].
  intros H Hs. rewrite Hs in H.
  destruct (json_loads json_text) as [[| | | | | |parsed]|]; try discriminate.
  destruct (Dict.get "action" parsed) as [action|] eqn:Ha; [|discriminate].
  destruct (negb (Py.hashable action)); [discriminate |].
  exists parsed, action. split; [reflexivity |]. split; [exact Ha |].
  destruct (existsb (Py.eq_str action) valid_actions) eqn:Hv; injection H as <-.
  - repeat split; auto.
  - split; [apply dict_keys_set_present; congruence |].
    split; [intros key Hk; now apply dict_get_set_ne |].
    intros [-> | ->]; discriminate.
Qed.

Lemma extract_keeps_the_object_witness :
  exists parsed action,
    loads_from section_replies unknown_action_reply = Some (PDict parsed)
    /\ Dict.get "action" parsed = Some action
    /\ Dict.keys [ ("action", PStr "answer"); ("answer", PStr "hi") ] = Dict.keys parsed
    /\ (forall key, key <> "action" ->
          Dict.get key [ ("action", PStr "answer"); ("answer", PStr "hi") ]
          = Dict.get key parsed)
    /\ (action = PStr "answer" \/ action = PStr "route" ->
        [ ("action", PStr "answer"); ("answer", PStr "hi") ] = parsed).
Proof.
  apply (extract_keeps_the_object (loads_from section_replies) unknown_action_reply
           unknown_action_reply).
  - vm_compute. reflexivity.
  - vm_compute. reflexivity.
Defined.

Lemma blank_append (a b : string) : blank (a +:+ b) = blank a && blank b.
Proof.
  induction a as [|c a IH]; simpl; [reflexivity |]. now rewrite IH, andb_assoc.
Qed.

Lemma search_skips_prose (pre rest : string) :
  no_lbrace pre = true -> Re.search (pre +:+ rest) = Re.search rest.
Proof.
  induction pre as [|c pre IH]; simpl; [reflexivity |].
  intros H. apply andb_true_iff in H as [Hc Hp]. apply negb_true_iff in Hc.
  rewrite Hc. now apply IH.
Qed.

Lemma search_finds_span (s post : string) :
  brace_span s -> Re.search (s +:+ post) = Some s.
Proof.
  intros (t & g & Ht & Hg & ->).
  change (("{" +:+ t +:+ g +:+ "}") +:+ post)
    with (String Re.lbrace ((t +:+ g +:+ "}") +:+ post)).
  cbn [Re.search]. rewrite Ascii.eqb_refl.
  now rewrite (match_tail_complete t g post Ht Hg).
Qed.

Lemma guard_of_nonblank (raw : string) :
  blank raw = false ->
  negb (PyStr.nonempty raw) || negb (PyStr.nonempty (PyStr.strip raw)) = false.
Proof.
  intros Hb.
  assert (Hs : PyStr.nonempty (PyStr.strip raw) = true).
  { destruct (PyStr.strip raw) eqn:E; [|reflexivity].
    apply strip_empty_iff in E. congruence. }
  assert (Hr : PyStr.nonempty raw = true) by (destruct raw; [discriminate | reflexivity]).
  now rewrite Hs, Hr.
Qed.

(** X5. The extractor reads the first JSON-object-shaped span and nothing
    else: a span wrapped in leading text without an opening brace and in any
    trailing text gives the result that the span alone gives. *)
Theorem extract_ignores_surrounding_text (json_loads : string -> option pyval)
    (pre span post : string) :
  no_lbrace pre = true -> brace_span span ->
  extract_and_validate_json json_loads (pre +:+ span +:+ post)
  = extract_and_validate_json json_loads span.
Proof.
  intros Hpre Hspan.
  assert (Hb : blank span = false) by (destruct Hspan as (t & g & _ & _ & ->); reflexivity).
  assert (Hb' : blank (pre +:+ span +:+ post) = false).
  { rewrite !blank_append, Hb. now rewrite andb_false_r. }
  unfold extract_and_validate_json.
  rewrite (guard_of_nonblank _ Hb), (guard_of_nonblank _ Hb').
  rewrite (search_skips_prose pre _ Hpre), (search_finds_span span post Hspan).
  pose proof (search_finds_span span EmptyString Hspan) as Hself.
  rewrite append_empty_r in Hself. now rewrite Hself.
Qed.

Lemma extract_ignores_surrounding_text_witness :
  extract_and_validate_json (loads_from section_replies)
    ("Here is my decision: " +:+ exit_reply +:+ " Hope {that} helps.")
  = extract_and_validate_json (loads_from section_replies) exit_reply.
Proof.
  apply (extract_ignores_surrounding_text (loads_from section_replies)
           "Here is my decision: " exit_reply " Hope {that} helps.").
  - reflexivity.
  - destruct (search_sound exit_reply exit_reply) as [H _]; [vm_compute; reflexivity |].
    exact H.
Defined.

(** ** The ledger *)

Lemma apply_updates_from (section : string) (updates : list pyval) :
  forall (first : nat) (s : ResumeBuilderState) (l : list string),
    recommended_answers s !! section = Some l ->
    Forall (fun u => appliable u = true) updates ->
    exists l',
      apply_updates section (length l) first updates s
      = Returns tt (set_recommended_answers (<[section := l']> (recommended_answers s)) s)
      /\ length l' = length l
      /\ forall i old, l !! i = Some old ->
           l' !! i = Some (updated_slot old
                             (if Nat.leb first i then updates !! (i - first) else None)).
Proof.
  induction updates as [|u rest IH]; intros first s l Hl Hok.
  - exists l. split; [|split; [reflexivity |]].
    + simpl. unfold ret. now rewrite insert_id, set_recommended_answers_same.
    + intros i old Hi. destruct (Nat.leb first i); simpl; now rewrite ?lookup_nil.
  - apply Forall_cons in Hok as [Hu Hrest].
    assert (Hskip :
      (Nat.ltb first (length l) = true -> forall old, updated_slot old (Some u) = old) ->
      exists l',
        apply_updates section (length l) (S first) rest s
        = Returns tt (set_recommended_answers (<[section := l']> (recommended_answers s)) s)
        /\ length l' = length l
        /\ forall i old, l !! i = Some old ->
             l' !! i = Some (updated_slot old
                               (if Nat.leb first i then (u :: rest) !! (i - first)
                                else None))).
    { intros Hsame. destruct (IH (S first) s l Hl Hrest) as (l' & E & Hlen & Hpt).
      exists l'. split; [exact E |]. split; [exact Hlen |].
      intros i old Hi. rewrite (Hpt i old Hi).
      destruct (Nat.leb_spec first i) as [Hle|Hgt].
      - destruct (Nat.eq_dec i first) as [->|Hne].
        + rewrite Nat.sub_diag. change ((u :: rest) !! 0) with (Some u).
          destruct (Nat.leb_spec (S first) first) as [?|_]; [lia |].
          assert (Hin : Nat.ltb first (length l) = true)
            by (apply Nat.ltb_lt; now apply lookup_lt_Some in Hi).
          now rewrite (Hsame Hin old).
        + destruct (Nat.leb_spec (S first) i) as [_|?]; [|lia].
          replace (i - first) with (S (i - S first)) by lia. reflexivity.
      - destruct (Nat.leb_spec (S first) i) as [?|_]; [lia | reflexivity]. }
    cbn [apply_updates]. unfold bind at 1.
    destruct (Nat.ltb first (length l)) eqn:Hin; cbn [andb].
    + destruct (Py.truthy u) eqn:Ht.
      * assert (Hstr : exists a, u = PStr a).
        { destruct u as [| | | |a| |]; unfold appliable in Hu;
            try (rewrite Ht in Hu; discriminate). now exists a. }
        destruct Hstr as [a ->].
        destruct (PyStr.nonempty (PyStr.strip a)) eqn:Hblank.
        -- unfold set_answer, bind, gets. rewrite Hl, Hin. unfold modify.
           set (s1 := set_recommended_answers _ s).
           destruct (IH (S first) s1 (<[first := PyStr.strip a]> l)) as (l' & E & Hlen & Hpt).
           { unfold s1. simpl. apply lookup_insert_eq. }
           { exact Hrest. }
           exists l'. rewrite length_insert in E, Hlen. split; [|split; [exact Hlen |]].
           ++ rewrite E. unfold s1. simpl. now rewrite insert_insert_eq.
           ++ intros i old Hi. destruct (Nat.eq_dec i first) as [->|Hne].
              ** rewrite (Hpt first (PyStr.strip a)) by
                   (apply list_lookup_insert_eq; now apply Nat.ltb_lt).
                 destruct (Nat.leb_spec (S first) first) as [?|_]; [lia |].
                 rewrite Nat.leb_refl, Nat.sub_diag.
                 change ((PStr a :: rest) !! 0) with (Some (PStr a)).
                 unfold updated_slot. now rewrite Hblank.
              ** rewrite (Hpt i old) by (rewrite list_lookup_insert_ne; auto).
                 destruct (Nat.leb_spec first i) as [Hle|Hgt].
                 --- destruct (Nat.leb_spec (S first) i) as [_|?]; [|lia].
                     replace (i - first) with (S (i - S first)) by lia. reflexivity.
                 --- destruct (Nat.leb_spec (S first) i) as [?|_]; [lia | reflexivity].
        -- unfold ret at 1. apply Hskip. intros _ old. unfold updated_slot.
           now rewrite Hblank.
      * unfold ret at 1. apply Hskip. intros _ old.
        destruct u as [| | | |a| |]; try reflexivity.
        destruct a; [reflexivity | discriminate].
    + unfold ret at 1. apply Hskip. discriminate.
Qed.

(** X6. When every update of a decision is a text or counts as false, the
    loop of section chat returns, keeps the length of the ledger and decides
    slot by slot: a slot takes its update, trimmed, when that is a text which
    is not blank, and stays as it was otherwise, also when the list of
    updates is shorter or longer than the ledger. *)
Theorem apply_updates_slot_by_slot (section : string) (updates : list pyval)
    (s : ResumeBuilderState) (l : list string) :
  recommended_answers s !! section = Some l ->
  Forall (fun u => appliable u = true) updates ->
  exists l',
    apply_updates section (length l) 0 updates s
    = Returns tt (set_recommended_answers (<[section := l']> (recommended_answers s)) s)
    /\ length l' = length l
    /\ forall i old, l !! i = Some old ->
         l' !! i = Some (updated_slot old (updates !! i)).
Proof.
  intros Hl Hok. destruct (apply_updates_from section updates 0 s l Hl Hok)
    as (l' & E & Hlen & Hpt).
  exists l'. split; [exact E |]. split; [exact Hlen |].
  intros i old Hi. rewrite (Hpt i old Hi). simpl. now rewrite Nat.sub_0_r.
Qed.

Lemma apply_updates_slot_by_slot_witness :
  exists l',
    apply_updates "skills" 3 0
      [PNone; PStr "   "; PStr " Yes, in production "; PStr "beyond the ledger"] in_skills
    = Returns tt
        (set_recommended_answers (<["skills" := l']> (recommended_answers in_skills))
           in_skills)
    /\ length l' = 3
    /\ forall i old, [EmptyString; EmptyString; EmptyString] !! i = Some old ->
         l' !! i
         = Some (updated_slot old
                   ([PNone; PStr "   "; PStr " Yes, in production ";
                     PStr "beyond the ledger"] !! i)).
Proof.
  apply (apply_updates_slot_by_slot "skills"
           [PNone; PStr "   "; PStr " Yes, in production "; PStr "beyond the ledger"]
           in_skills [EmptyString; EmptyString; EmptyString]).
  - reflexivity.
  - repeat constructor.
Defined.

Lemma reconciled_twice (n : nat) (section : string) (st : ResumeBuilderState) :
  reconciled n section (reconciled n section st) = reconciled n section st.
Proof.
  unfold reconciled, rebuilt. simpl. rewrite lookup_insert_eq. simpl.
  rewrite resize_idemp. now rewrite insert_insert_eq.
Qed.

(** X7. Reconciling is idempotent: running [safe_initialize_answers] a
    second time for the same section and questions changes nothing, whether
    the first run rebuilt the ledger, created it, found it in order or
    raised. *)
Theorem reconcile_is_idempotent (section : string) (questions : pyval)
    (st : ResumeBuilderState) :
  (safe_initialize_answers section questions ;;
   safe_initialize_answers section questions) st
  = safe_initialize_answers section questions st.
Proof.
  unfold bind. destruct (Py.len questions) as [n|] eqn:Hn.
  - rewrite (safe_initialize_answers_spec st section questions n Hn).
    fold (rebuilt n section st). fold (reconciled n section st).
    rewrite (safe_initialize_answers_spec _ section questions n Hn).
    fold (rebuilt n section (reconciled n section st)).
    fold (reconciled n section (reconciled n section st)).
    now rewrite reconciled_twice.
  - now rewrite (safe_initialize_answers_raises st section questions Hn).
Qed.

(** ** General chat *)

Lemma dict_keys_set_in {V : Type} (k k0 : string) (v : V) (d : pydict V) :
  In k0 (Dict.keys (Dict.set k v d)) -> k0 = k \/ In k0 (Dict.keys d).
Proof.
  induction d as [|[k' v'] d IH]; simpl.
  - intros [<-|[]]. now left.
  - destruct (String.eqb k k') eqn:E; simpl.
    + intros [<-|H]; [right; now left | right; now right].
    + intros [<-|H]; [right; now left |].
      destruct (IH H) as [->|H']; [now left | right; now right].
Qed.

Lemma dict_keys_set_fresh {V : Type} (k : string) (v : V) (d : pydict V) :
  ~ In k (Dict.keys d) -> Dict.keys (Dict.set k v d) = Dict.keys d ++ [k].
Proof.
  induction d as [|[k' v'] d IH]; simpl; [reflexivity |].
  intros H. destruct (String.eqb_spec k k') as [->|Hne]; [exfalso; apply H; now left |].
  simpl. f_equal. apply IH. intros Hin. apply H. now right.
Qed.

Lemma dict_get_none {V : Type} (k : string) (d : pydict V) :
  ~ In k (Dict.keys d) -> Dict.get k d = None.
Proof.
  induction d as [|[k' v'] d IH]; simpl; [reflexivity |].
  intros H. destruct (String.eqb_spec k k') as [->|Hne]; [exfalso; apply H; now left |].
  apply IH. intros Hin. apply H. now right.
Qed.

Lemma dict_get_in {V : Type} (k : string) (d : pydict V) (v : V) :
  Dict.get k d = Some v -> In k (Dict.keys d).
Proof.
  induction d as [|[k' v'] d IH]; simpl; [discriminate |].
  destruct (String.eqb_spec k k') as [->|Hne]; [now left | right; now apply IH].
Qed.

Lemma compact_keys (sections : pydict (pydict pyval)) :
  forall acc c, compact_sections_of sections acc = Ok c ->
    forall k, In k (Dict.keys c) -> In k (Dict.keys acc) \/ In k (Dict.keys sections).
Proof.
  induction sections as [|[s data] rest IH]; intros acc c H k Hk; simpl in H.
  - injection H as <-. now left.
  - destruct (Py.slice2 _) as [first_two|]; [|discriminate].
    destruct (IH _ _ H k Hk) as [Hin|Hin]; [|right; now right].
    destruct (dict_keys_set_in _ _ _ _ Hin) as [->|Hacc];
      [right; now left | now left].
Qed.

Lemma compact_error (sections : pydict (pydict pyval)) :
  forall acc e, compact_sections_of sections acc = Err e ->
    exists entry,
      In entry sections /\ ~ sliceable entry
      /\ e = slice_fault (missing_of (snd entry)).
Proof.
  induction sections as [|[s data] rest IH]; intros acc e H; simpl in H; [discriminate |].
  destruct (Py.slice2 _) as [first_two|] eqn:E.
  - destruct (IH _ _ H) as (entry & Hin & Hno & ->).
    exists entry. split; [now right | now split].
  - injection H as <-. exists (s, data). split; [now left |].
    split; [|reflexivity]. intros Hs. now apply Hs.
Qed.

Lemma compact_built (sections : pydict (pydict pyval)) :
  Forall sliceable sections ->
  forall acc, exists c, compact_sections_of sections acc = Ok c.
Proof.
  induction 1 as [|[s data] rest Hs _ IH]; intros acc; simpl; [now exists acc |].
  unfold sliceable, missing_of in Hs. simpl in Hs.
  destruct (Py.slice2 _) as [first_two|]; [apply IH | contradiction].
Qed.

(** What processing a decision of general chat can come to: a section is
    activated, or one assistant message is appended, or the target of the
    route is not a text. *)
Lemma general_chat_route_cases (py_str : pyval -> string)
    (c parsed : pydict pyval) (s : ResumeBuilderState) :
  (exists found,
     In found (Dict.keys c) /\ found <> EmptyString
     /\ general_chat_route py_str c parsed s
        = Returns tt (set_next_action (Some "section_chat")
                        (set_current_section (Some found) s)))
  \/ (exists message,
        general_chat_route py_str c parsed s
        = Returns tt (set_next_action None
                        (set_context (context s ++ [make_message "assistant" message]) s)))
  \/ (general_chat_route py_str c parsed s = Raises AttributeError s
      /\ Py.truthy (Dict.get_default "route" PNone parsed) = true
      /\ forall text, Dict.get_default "route" PNone parsed <> PStr text).
Proof.
  unfold general_chat_route. cbv zeta.
  destruct (Py.eq_str _ "route" && Py.truthy (Dict.get_default "route" PNone parsed))
    eqn:Hroute.
  - apply andb_true_iff in Hroute as [_ Htruthy].
    unfold bind at 1.
    destruct (normalize_section_value Difflib.ratio _ (Dict.keys c)) as [[found|]|e] eqn:Hn;
      simpl.
    + destruct found as [|ch rest].
      * right. left. eexists. reflexivity.
      * left. exists (String ch rest). split; [|split; [discriminate | reflexivity]].
        now apply (normalize_section_value_in _ _ _ _ Hn).
    + right. left. eexists. reflexivity.
    + right. right. unfold normalize_section_value in Hn.
      rewrite Htruthy in Hn. simpl in Hn.
      destruct (Dict.keys c); [discriminate |].
      destruct (Dict.get_default "route" PNone parsed); try discriminate;
        injection Hn as <-; (split; [reflexivity | split; [exact Htruthy | discriminate]]).
  - right. left. unfold bind, modify.
    destruct (Py.truthy (Dict.get_default "answer" (PStr EmptyString) parsed));
      eexists; reflexivity.
Qed.

Section GeneralChatOutcome.

Variable py_str : pyval -> string.
Variable render : prompt -> string.
Variable decide : string -> pyval -> nat -> pydict pyval.

Lemma general_chat_postcondition (st st' : ResumeBuilderState) :
  general_chat_and_section_routing py_str render decide st = Returns tt st' ->
  resume_sections st' = resume_sections st
  /\ section_objects st' = section_objects st
  /\ recommended_answers st' = recommended_answers st
  /\ jd_summary st' = jd_summary st
  /\ proposed_section_content st' = proposed_section_content st
  /\ routing_attempts st' = 0%Z
  /\ ((current_section st' = None /\ next_action st' = None
       /\ exists message, context st' = context st ++ [make_message "assistant" message])
      \/ (exists found,
            current_section st' = Some found /\ found <> EmptyString
            /\ In found (Dict.keys (section_objects st))
            /\ next_action st' = Some "section_chat"
            /\ context st' = context st)).
Proof.
  destruct (Z.leb_spec 3 (routing_attempts st)) as [Hge|Hlt].
  - rewrite (general_chat_reset py_str render decide st Hge). intros [= <-]. simpl.
    repeat split. left. repeat split. eexists. reflexivity.
  - destruct (compact_sections_of (section_objects st) []) as [c|e] eqn:C.
    + rewrite (general_chat_below_cap py_str render decide st c Hlt C).
      unfold try_catch.
      destruct (general_chat_route_cases py_str c
                  (decide (render (GeneralChatPrompt c (jd_summary st)))
                     (general_chat_payload (context st) c) 400)
                  (general_chat_entered st))
        as [(found & Hin & Hne & ->) | [(message & ->) | (-> & _)]].
      * intros [= <-]. simpl. repeat split. right. exists found. repeat split; auto.
        destruct (compact_keys _ _ _ C found Hin) as [[]|H]; exact H.
      * intros [= <-]. simpl. repeat split. left. repeat split. eexists. reflexivity.
      * intros [= <-]. simpl. repeat split. left. repeat split. eexists. reflexivity.
    + now rewrite (general_chat_unbuilt py_str render decide st e Hlt C).
Qed.

(** X8. When general chat returns, it has left the stored contents, the
    section metadata, the ledger, the job description and the staged content
    as they were and the counter at 0, and it has done one of two things:
    ended the turn in general chat with one assistant message appended, or
    activated a section, named by a key of the section metadata, with
    [section_chat] as the next action and the history as it was. *)
Theorem general_chat_outcome (st st' : ResumeBuilderState) :
  general_chat_and_section_routing py_str render decide st = Returns tt st' ->
  resume_sections st' = resume_sections st
  /\ section_objects st' = section_objects st
  /\ recommended_answers st' = recommended_answers st
  /\ jd_summary st' = jd_summary st
  /\ proposed_section_content st' = proposed_section_content st
  /\ routing_attempts st' = 0%Z
  /\ ((current_section st' = None /\ next_action st' = None
       /\ exists message, context st' = context st ++ [make_message "assistant" message])
      \/ (exists found,
            current_section st' = Some found /\ found <> EmptyString
            /\ In found (Dict.keys (section_objects st))
            /\ next_action st' = Some "section_chat"
            /\ context st' = context st)).
Proof. exact (general_chat_postcondition st st'). Qed.

(** X9. General chat raises in one case only: below the cap, when the
    missing requirements of some section are neither a list nor a text and
    cannot be cut to the first two. The fault is the one of that cut, a
    [KeyError] when the missing requirements are a dict and a [TypeError]
    for any other such value; it comes before any decision is asked for and
    leaves the history, the contents, the metadata and the ledger as they
    were. In every other case general chat returns. *)
Theorem general_chat_raises_on_unsliceable (st : ResumeBuilderState) :
  ((3 <= routing_attempts st)%Z \/ Forall sliceable (section_objects st) ->
   exists st', general_chat_and_section_routing py_str render decide st = Returns tt st')
  /\ (forall e st',
        general_chat_and_section_routing py_str render decide st = Raises e st' ->
        (exists entry,
           In entry (section_objects st) /\ ~ sliceable entry
           /\ e = slice_fault (missing_of (snd entry)))
        /\ (e = KeyError \/ e = TypeError)
        /\ (routing_attempts st < 3)%Z
        /\ context st' = context st
        /\ resume_sections st' = resume_sections st
        /\ section_objects st' = section_objects st
        /\ recommended_answers st' = recommended_answers st).
Proof.
  split.
  - intros Hok. destruct (Z.leb_spec 3 (routing_attempts st)) as [Hge|Hlt].
    + rewrite (general_chat_reset py_str render decide st Hge). eexists. reflexivity.
    + destruct Hok as [?|Hall]; [lia |].
      destruct (compact_built _ Hall []) as [c C].
      rewrite (general_chat_below_cap py_str render decide st c Hlt C).
      destruct (total_try_catch
                  (general_chat_route py_str c
                     (decide (render (GeneralChatPrompt c (jd_summary st)))
                        (general_chat_payload (context st) c) 400))
                  general_chat_fault general_chat_fault_total (general_chat_entered st))
        as ([] & st' & E).
      exists st'. exact E.
  - intros e st'. destruct (Z.leb_spec 3 (routing_attempts st)) as [Hge|Hlt].
    + now rewrite (general_chat_reset py_str render decide st Hge).
    + destruct (compact_sections_of (section_objects st) []) as [c|e0] eqn:C.
      * rewrite (general_chat_below_cap py_str render decide st c Hlt C).
        destruct (total_try_catch
                    (general_chat_route py_str c
                       (decide (render (GeneralChatPrompt c (jd_summary st)))
                          (general_chat_payload (context st) c) 400))
                    general_chat_fault general_chat_fault_total (general_chat_entered st))
          as ([] & st0 & ->).
        discriminate.
      * rewrite (general_chat_unbuilt py_str render decide st e0 Hlt C).
        intros [= <- <-]. destruct (compact_error _ _ _ C) as (entry & Hin & Hno & ->).
        split; [now exists entry |].
        split; [unfold slice_fault; destruct (missing_of (snd entry)); auto |].
        repeat split; auto.
Qed.

(** X10. Processing a decision in general chat can fault in one way only:
    an [AttributeError], with the state untouched, when the route of the
    decision counts as true and is not a text. No decision raises a
    [ValueError] there, so the clause of general chat that asks the user to
    rephrase is never entered. *)
Theorem general_chat_route_faults (c parsed : pydict pyval)
    (s s' : ResumeBuilderState) (e : exn) :
  general_chat_route py_str c parsed s = Raises e s' ->
  e = AttributeError /\ s' = s
  /\ Py.truthy (Dict.get_default "route" PNone parsed) = true
  /\ forall text, Dict.get_default "route" PNone parsed <> PStr text.
Proof.
  destruct (general_chat_route_cases py_str c parsed s)
    as [(found & _ & _ & ->) | [(message & ->) | (-> & Ht & Hno)]]; try discriminate.
  intros [= <- <-]. auto.
Qed.

End GeneralChatOutcome.

Lemma general_chat_outcome_witness :
  exists found,
    current_section
      (set_next_action (Some "section_chat") (set_current_section (Some "skills")
         (general_chat_entered (set_current_section None in_skills))))
    = Some found
    /\ In found (Dict.keys (section_objects (set_current_section None in_skills))).
Proof.
  destruct (general_chat_outcome sample_str sample_render
              (decided [ ("action", PStr "route"); ("route", PStr "Skill") ])
              (set_current_section None in_skills)
              (set_next_action (Some "section_chat") (set_current_section (Some "skills")
                 (general_chat_entered (set_current_section None in_skills)))))
    as (_ & _ & _ & _ & _ & _ & [(H & _) | (found & Hf & _ & Hin & _)]).
  - vm_compute. reflexivity.
  - discriminate H.
  - exists found. split; assumption.
Defined.

Lemma general_chat_raises_on_unsliceable_witness :
  (exists st',
     general_chat_and_section_routing sample_str sample_render (decided offline_decision)
       in_skills = Returns tt st')
  /\ general_chat_and_section_routing sample_str sample_render (decided offline_decision)
       keyed_skills
     = Raises KeyError (set_routing_attempts 1 keyed_skills)
  /\ (exists entry,
        In entry (section_objects keyed_skills) /\ ~ sliceable entry
        /\ KeyError = slice_fault (missing_of (snd entry)))
  /\ exists entry,
       In entry (section_objects unsized_skills) /\ ~ sliceable entry
       /\ TypeError = slice_fault (missing_of (snd entry)).
Proof.
  split; [|split; [reflexivity | split]].
  - apply (general_chat_raises_on_unsliceable sample_str sample_render
             (decided offline_decision) in_skills).
    right. repeat constructor; discriminate.
  - destruct (general_chat_raises_on_unsliceable sample_str sample_render
                (decided offline_decision) keyed_skills) as (_ & Hraise).
    destruct (Hraise KeyError (set_routing_attempts 1 keyed_skills) eq_refl)
      as (Hentry & _).
    exact Hentry.
  - destruct (general_chat_raises_on_unsliceable sample_str sample_render
                (decided offline_decision) unsized_skills) as (_ & Hraise).
    destruct (Hraise TypeError
                (final_state
                   (general_chat_and_section_routing sample_str sample_render
                      (decided offline_decision) unsized_skills)) eq_refl)
      as (Hentry & _).
    exact Hentry.
Defined.

Lemma general_chat_route_faults_witness :
  AttributeError = AttributeError /\ in_skills = in_skills
  /\ Py.truthy (Dict.get_default "route" PNone
                  [ ("action", PStr "route"); ("route", PInt 7) ]) = true
  /\ forall text,
       Dict.get_default "route" PNone [ ("action", PStr "route"); ("route", PInt 7) ]
       <> PStr text.
Proof.
  apply (general_chat_route_faults sample_str
           [ ("skills", PNone) ] [ ("action", PStr "route"); ("route", PInt 7) ]
           in_skills in_skills AttributeError).
  reflexivity.
Defined.

(** ** Section chat *)

Lemma section_chat_route_cases (py_str : pyval -> string) (section : string)
    (available : list string) (parsed : pydict pyval) (s : ResumeBuilderState) :
  current_section s = Some section ->
  match section_chat_route py_str section available parsed s with
  | Returns _ s' =>
      same_documents s s'
      /\ recommended_answers s' = recommended_answers s
      /\ said_at_most_once (context s) (context s')
      /\ section_chat_control section available (current_section s') (next_action s')
  | Raises e s' => e = AttributeError /\ s' = s
  end.
Proof.
  intros Hs.
  assert (Hstay : forall next,
            In next [ None; Some "section_chat"; Some "section_updater";
                      Some "section_applier" ] ->
            section_chat_control section available (current_section s) next)
    by (intros next Hnext; rewrite Hs; now constructor).
  unfold section_chat_route. cbv zeta.
  destruct (Py.eq_str _ "switch_section"
            && Py.truthy (Dict.get_default "target_section" PNone parsed)) eqn:Hswitch.
  - apply andb_true_iff in Hswitch as [_ Htruthy].
    unfold bind at 1.
    destruct (normalize_section_value Difflib.ratio _ available) as [[found|]|e] eqn:Hn;
      unfold lift_result, ret, raise; cbv beta iota.
    + destruct found as [|ch rest]; cbv beta iota.
      * unfold bind, modify, append_message. cbv beta iota.
        split; [repeat split |]. split; [reflexivity |].
        split; [right; eexists; reflexivity |]. apply Hstay. simpl. tauto.
      * destruct (String.eqb_spec (String ch rest) section) as [Heq|Hne]; cbn [negb];
          cbv beta iota.
        -- unfold bind, modify, append_message. cbv beta iota.
           split; [repeat split |]. split; [reflexivity |].
           split; [right; eexists; reflexivity |]. apply Hstay. simpl. tauto.
        -- assert (Hin : In (String ch rest) available)
             by exact (normalize_section_value_in _ _ _ _ Hn).
           unfold bind, modify, append_message.
           destruct (Py.truthy (Dict.get_default "answer" (PStr EmptyString) parsed));
             cbv beta iota;
             (split; [repeat split |]; split; [reflexivity |];
              split; [first [now left | right; eexists; reflexivity] |];
              constructor; [exact Hin | exact Hne | discriminate]).
    + unfold bind, modify, append_message. cbv beta iota.
      split; [repeat split |]. split; [reflexivity |].
      split; [right; eexists; reflexivity |]. apply Hstay. simpl. tauto.
    + split; [|reflexivity].
      unfold normalize_section_value in Hn. rewrite Htruthy in Hn.
      cbn [negb orb] in Hn.
      destruct available; [discriminate |].
      destruct (Dict.get_default "target_section" PNone parsed); try discriminate;
        now injection Hn as <-.
  - destruct (Py.eq_str _ "exit_section").
    { unfold bind, modify, append_message. cbv beta iota.
      split; [repeat split |]. split; [reflexivity |].
      split; [right; eexists; reflexivity |]. constructor. }
    destruct (Py.eq_str _ "trigger_updater").
    { unfold bind, modify, append_message, ret.
      destruct (Py.truthy (Dict.get_default "answer" (PStr EmptyString) parsed));
        cbv beta iota;
        (split; [repeat split |]; split; [reflexivity |];
         split; [first [now left | right; eexists; reflexivity] |]);
        apply Hstay; simpl; tauto. }
    destruct (Py.eq_str _ "trigger_applier").
    { unfold bind, modify, append_message, ret.
      destruct (Py.truthy (Dict.get_default "answer" (PStr EmptyString) parsed));
        cbv beta iota;
        (split; [repeat split |]; split; [reflexivity |];
         split; [first [now left | right; eexists; reflexivity] |]);
        apply Hstay; simpl; tauto. }
    unfold bind, modify, append_message, ret.
    destruct (Py.truthy (Dict.get_default "answer" (PStr EmptyString) parsed));
      cbv beta iota;
      (split; [repeat split |]; split; [reflexivity |];
       split; [first [now left | right; eexists; reflexivity] |]);
      apply Hstay; simpl; tauto.
Qed.

(** A decision with the action [answer] or [route] keeps section chat in
    its section with no next action. *)
Lemma section_chat_route_plain (py_str : pyval -> string) (section : string)
    (available : list string) (parsed : pydict pyval) (s : ResumeBuilderState) :
  Dict.get "action" parsed = Some (PStr "answer")
  \/ Dict.get "action" parsed = Some (PStr "route") ->
  exists s',
    section_chat_route py_str section available parsed s = Returns tt s'
    /\ current_section s' = current_section s
    /\ section_objects s' = section_objects s
    /\ next_action s' = None.
Proof.
  intros Ha.
  assert (Hact : Dict.get_default "action" (PStr "stay") parsed = PStr "answer"
                 \/ Dict.get_default "action" (PStr "stay") parsed = PStr "route")
    by (unfold Dict.get_default; destruct Ha as [-> | ->]; [now left | now right]).
  unfold section_chat_route. cbv zeta.
  destruct Hact as [-> | ->]; cbn [Py.eq_str String.eqb Ascii.eqb Bool.eqb andb];
    unfold bind, modify, append_message, ret;
    destruct (Py.truthy (Dict.get_default "answer" (PStr EmptyString) parsed));
    eexists; repeat split.
Qed.

Section SectionChatOutcome.

Variable py_str : pyval -> string.
Variable render : prompt -> string.
Variable decide : string -> pyval -> nat -> pydict pyval.

Lemma section_chat_postcondition (st : ResumeBuilderState) (section : string) (n : nat) :
  current_section st = Some section -> section <> EmptyString ->
  Py.len (questions_of section st) = Some n ->
  exists st',
    section_chat_node py_str render decide st = Returns tt st'
    /\ same_documents st st'
    /\ said_at_most_once (context st) (context st')
    /\ section_chat_control section (Dict.keys (section_objects st))
         (current_section st') (next_action st').
Proof.
  intros Hs Hne Hn. rewrite (section_chat_in_section py_str render decide st section n Hs Hne Hn).
  set (parsed := section_chat_decision render decide section n st).
  destruct (section_chat_updates_outcome section parsed (reconciled n section st)
              (rebuilt n section st)) as (l & _ & _ & Hout).
  { unfold reconciled. simpl. apply lookup_insert_eq. }
  set (s2 := set_recommended_answers _ _) in Hout.
  assert (Hfault : forall e s, s = s2 \/ s = s2 ->
            exists st',
              section_chat_fault section e s2 = Returns tt st'
              /\ same_documents st st'
              /\ said_at_most_once (context st) (context st')
              /\ section_chat_control section (Dict.keys (section_objects st))
                   (current_section st') (next_action st')).
  { intros e _ _. rewrite section_chat_fault_returns. eexists. split; [reflexivity |].
    simpl. split; [repeat split |]. split; [right; eexists; reflexivity |].
    rewrite Hs. constructor. simpl. tauto. }
  unfold try_catch, bind. destruct Hout as [-> | [e ->]].
  - pose proof (section_chat_route_cases py_str section (Dict.keys (section_objects st))
                  parsed s2 Hs) as Hroute.
    destruct (section_chat_route py_str section (Dict.keys (section_objects st)) parsed s2)
      as [[] s'|e s'].
    + destruct Hroute as (Hdoc & _ & Hsaid & Hctl).
      exists s'. split; [reflexivity |]. split; [exact Hdoc |]. split; assumption.
    + destruct Hroute as [-> ->]. apply (Hfault AttributeError s2). now left.
  - apply (Hfault e s2). now left.
Qed.

(** X11. In a section whose question list has a length, a turn of section
    chat always returns, whatever the decision holds. It leaves the stored
    contents, the metadata, the job description, the counter and the staged
    content as they were, appends at most one assistant message, and leaves
    one of three control states: still in the section, with no next action
    or one of [section_chat], [section_updater], [section_applier]; out of
    every section with [exit_to_general]; or in another section, named by a
    key of the metadata, with [section_chat]. *)
Theorem section_chat_outcome (st : ResumeBuilderState) (section : string) (n : nat) :
  current_section st = Some section -> section <> EmptyString ->
  Py.len (questions_of section st) = Some n ->
  exists st',
    section_chat_node py_str render decide st = Returns tt st'
    /\ same_documents st st'
    /\ said_at_most_once (context st) (context st')
    /\ section_chat_control section (Dict.keys (section_objects st))
         (current_section st') (next_action st').
Proof. exact (section_chat_postcondition st section n). Qed.

(** X12. Section chat raises in one case only: a section is active and its
    question list has no length (a number, say). The fault is a [TypeError]
    raised before anything is written: the state is the state of the call.
    With no active section it returns, asking to select a section and
    handing over to general chat. *)
Theorem section_chat_raises_on_unsized (st : ResumeBuilderState) :
  (forall e st',
     section_chat_node py_str render decide st = Raises e st' ->
     e = TypeError /\ st' = st
     /\ exists section,
          current_section st = Some section /\ section <> EmptyString
          /\ Py.len (questions_of section st) = None)
  /\ (forall section,
        current_section st = Some section -> section <> EmptyString ->
        Py.len (questions_of section st) = None ->
        section_chat_node py_str render decide st = Raises TypeError st)
  /\ (current_section st = None \/ current_section st = Some EmptyString ->
      section_chat_node py_str render decide st
      = Returns tt
          (set_next_action (Some "exit_to_general")
             (set_context
                (context st
                 ++ [make_message "assistant" (PStr "Please select a section to work on.")])
                st))).
Proof.
  split; [|split].
  - intros e st'. destruct (current_section st) as [[|c rest]|] eqn:Hs.
    + unfold section_chat_node, bind at 1, gets at 1. now rewrite Hs.
    + destruct (Py.len (questions_of (String c rest) st)) as [n|] eqn:Hn.
      * destruct (section_chat_postcondition st (String c rest) n Hs ltac:(discriminate) Hn)
          as (s' & -> & _).
        discriminate.
      * rewrite (section_chat_unsized py_str render decide st (String c rest) Hs
                   ltac:(discriminate) Hn).
        intros [= <- <-]. repeat split. exists (String c rest).
        repeat split; [discriminate | exact Hn].
    + unfold section_chat_node, bind at 1, gets at 1. now rewrite Hs.
  - intros section Hs Hne Hn.
    exact (section_chat_unsized py_str render decide st section Hs Hne Hn).
  - intros [Hs|Hs]; unfold section_chat_node, bind at 1, gets at 1; now rewrite Hs.
Qed.

End SectionChatOutcome.

Lemma section_chat_outcome_witness :
  exists st',
    section_chat_node sample_str sample_render
      (decided [ ("action", PStr "exit_section") ]) in_skills = Returns tt st'
    /\ same_documents in_skills st'
    /\ said_at_most_once (context in_skills) (context st')
    /\ section_chat_control "skills" (Dict.keys (section_objects in_skills))
         (current_section st') (next_action st').
Proof.
  apply (section_chat_outcome sample_str sample_render
           (decided [ ("action", PStr "exit_section") ]) in_skills "skills" 3).
  - reflexivity.
  - discriminate.
  - reflexivity.
Defined.

Lemma section_chat_raises_on_unsized_witness :
  section_chat_node sample_str sample_render (decided offline_decision) unsized_skills
  = Raises TypeError unsized_skills
  /\ (exists section,
        current_section unsized_skills = Some section /\ section <> EmptyString
        /\ Py.len (questions_of section unsized_skills) = None)
  /\ section_chat_node sample_str sample_render (decided offline_decision) idle_state
     = Returns tt
         (set_next_action (Some "exit_to_general")
            (set_context
               (context idle_state
                ++ [make_message "assistant" (PStr "Please select a section to work on.")])
               idle_state)).
Proof.
  destruct (section_chat_raises_on_unsized sample_str sample_render
              (decided offline_decision) unsized_skills) as (Hraise & Hunsized & _).
  destruct (section_chat_raises_on_unsized sample_str sample_render
              (decided offline_decision) idle_state) as (_ & _ & Hidle).
  assert (E : section_chat_node sample_str sample_render (decided offline_decision)
                unsized_skills = Raises TypeError unsized_skills).
  { apply (Hunsized "skills"); [reflexivity | discriminate | reflexivity]. }
  split; [exact E |]. split.
  - destruct (Hraise TypeError unsized_skills E) as (_ & _ & H). exact H.
  - apply Hidle. left. reflexivity.
Defined.

(** ** The section loop of the graph *)

Section Wired.

Variable GOOGLE_API_KEY : option string.
Variable acompletion : string -> string -> nat -> completion.
Variable json_loads : string -> option pyval.
Variable json_dumps : pyval -> string.
Variable py_str : pyval -> string.
Variable render : prompt -> string.

Local Abbreviation section_chat :=
  (SectionChat GOOGLE_API_KEY acompletion json_loads json_dumps py_str render).

Lemma wired_section_chat_turn (st : ResumeBuilderState) (section : string) (n : nat) :
  current_section st = Some section -> section <> EmptyString ->
  Py.len (questions_of section st) = Some n ->
  exists st',
    section_chat st = Returns tt st'
    /\ current_section st' = Some section
    /\ section_objects st' = section_objects st
    /\ (next_action st' = None \/ next_action st' = Some "section_chat").
Proof.
  intros Hs Hne Hn. unfold SectionChat.
  rewrite (section_chat_in_section py_str render _ st section n Hs Hne Hn).
  set (parsed := section_chat_decision render _ section n st).
  assert (Ha : Dict.get "action" parsed = Some (PStr "answer")
               \/ Dict.get "action" parsed = Some (PStr "route"))
    by apply decision_actions.
  destruct (section_chat_updates_outcome section parsed (reconciled n section st)
              (rebuilt n section st)) as (l & _ & _ & Hout).
  { unfold reconciled. simpl. apply lookup_insert_eq. }
  set (s2 := set_recommended_answers _ _) in Hout.
  unfold try_catch, bind. destruct Hout as [-> | [e ->]].
  - destruct (section_chat_route_plain py_str section (Dict.keys (section_objects st))
                parsed s2 Ha) as (s' & -> & Hc & Ho & Hnext).
    exists s'. split; [reflexivity |]. repeat split; [now rewrite Hc | now rewrite Ho | now left].
  - rewrite section_chat_fault_returns. eexists. split; [reflexivity |].
    simpl. repeat split; [exact Hs | now right].
Qed.

(** X13. As the graph wires it, section chat gets its decisions from
    [call_llm_json_decision], and then it never leaves its section: in a
    section whose question list has a length, after any number of runs in a
    row, whatever the model replies, the active section is the same, the
    next action is none or [section_chat], and the router of section chat
    names section chat again. The updater, the applier and general chat are
    never named. *)
Theorem wired_section_chat_never_leaves (turns : nat) (st : ResumeBuilderState)
    (section : string) (n : nat) :
  current_section st = Some section -> section <> EmptyString ->
  Py.len (questions_of section st) = Some n ->
  exists st',
    repeated (S turns) section_chat st = Returns tt st'
    /\ current_section st' = Some section
    /\ (next_action st' = None \/ next_action st' = Some "section_chat")
    /\ route_from_section_chat st' = SectionChatNode.
Proof.
  revert st. induction turns as [|k IH]; intros st Hs Hne Hn.
  - destruct (wired_section_chat_turn st section n Hs Hne Hn) as (st' & E & Hc & _ & Hnext).
    exists st'. cbn [repeated]. unfold bind. rewrite E.
    split; [reflexivity |]. split; [exact Hc |]. split; [exact Hnext |].
    unfold route_from_section_chat, next_action_is.
    now destruct Hnext as [-> | ->].
  - destruct (wired_section_chat_turn st section n Hs Hne Hn) as (st1 & E & Hc & Ho & _).
    destruct (IH st1 Hc Hne) as (st' & E' & H').
    { unfold questions_of in *. now rewrite Ho. }
    exists st'. split; [|exact H'].
    change (repeated (S (S k)) section_chat) with (section_chat ;; repeated (S k) section_chat).
    unfold bind at 1. rewrite E. exact E'.
Qed.

End Wired.

Lemma wired_section_chat_never_leaves_witness :
  exists st',
    repeated 3 (SectionChat (Some "key") (replying exit_reply) (loads_from section_replies)
                  sample_dumps sample_str sample_render) in_skills = Returns tt st'
    /\ current_section st' = Some "skills"
    /\ (next_action st' = None \/ next_action st' = Some "section_chat")
    /\ route_from_section_chat st' = SectionChatNode.
Proof.
  apply (wired_section_chat_never_leaves (Some "key") (replying exit_reply)
           (loads_from section_replies) sample_dumps sample_str sample_render
           2 in_skills "skills" 3).
  - reflexivity.
  - discriminate.
  - reflexivity.
Defined.

(** ** The updater *)

Section UpdaterProperties.

Variable py_str : pyval -> string.
Variable render : prompt -> string.
Variable decide : string -> pyval -> nat -> pydict pyval.

Lemma updater_in_section (st : ResumeBuilderState) (section : string)
    (stored : gmap string pyval) :
  current_section st = Some section -> section <> EmptyString ->
  resume_sections st = Some stored ->
  Py.iterable (questions_of section st) = true ->
  exists message,
    section_updater_node py_str render decide st
    = Returns tt
        (set_next_action (Some "section_chat")
           (set_context (context st ++ [make_message "assistant" message])
              (let updated := updated_content_of (updater_decision render decide section stored st) in
               if Py.truthy updated then set_proposed_section_content updated st else st))).
Proof.
  intros Hs Hne Hst Hit. unfold section_updater_node.
  unfold bind at 1. unfold gets at 1. rewrite Hs.
  destruct section as [|c rest]; [contradiction |].
  unfold bind at 1. unfold gets at 1. cbv zeta.
  unfold bind at 1. unfold gets at 1.
  unfold bind at 1. unfold stored_content. unfold bind at 1. unfold gets at 1.
  rewrite Hst. unfold ret at 1.
  fold (questions_of (String c rest) st). rewrite Hit.
  unfold bind at 1. unfold ret at 1.
  fold (updater_decision render decide (String c rest) stored st).
  fold (updated_content_of (updater_decision render decide (String c rest) stored st)).
  unfold try_catch, bind, modify, append_message.
  destruct (Py.truthy (updated_content_of _)); eexists; reflexivity.
Qed.

Lemma updater_postcondition (st : ResumeBuilderState) (section : string)
    (stored : gmap string pyval) :
  current_section st = Some section -> section <> EmptyString ->
  resume_sections st = Some stored ->
  Py.iterable (questions_of section st) = true ->
  exists st' message,
    section_updater_node py_str render decide st = Returns tt st'
    /\ resume_sections st' = Some stored
    /\ section_objects st' = section_objects st
    /\ recommended_answers st' = recommended_answers st
    /\ current_section st' = Some section
    /\ next_action st' = Some "section_chat"
    /\ context st' = context st ++ [make_message "assistant" message]
    /\ proposed_section_content st'
       = (let updated := updated_content_of (updater_decision render decide section stored st) in
          if Py.truthy updated then updated else proposed_section_content st).
Proof.
  intros Hs Hne Hst Hit.
  destruct (updater_in_section st section stored Hs Hne Hst Hit) as (message & ->).
  eexists _, message. split; [reflexivity |]. cbv zeta.
  destruct (Py.truthy (updated_content_of _)); simpl; repeat split; assumption.
Qed.

(** X14. With an active section, stored contents and a question list that
    can be iterated, the updater returns and only stages: the stored
    contents, the metadata, the ledger and the active section are as they
    were, one assistant message is appended and the next action is
    [section_chat]. The staged content becomes the rewrite of the decision
    when that rewrite counts as true, and is left as it was otherwise. *)
Theorem updater_only_stages (st : ResumeBuilderState) (section : string)
    (stored : gmap string pyval) :
  current_section st = Some section -> section <> EmptyString ->
  resume_sections st = Some stored ->
  Py.iterable (questions_of section st) = true ->
  exists st' message,
    section_updater_node py_str render decide st = Returns tt st'
    /\ resume_sections st' = Some stored
    /\ section_objects st' = section_objects st
    /\ recommended_answers st' = recommended_answers st
    /\ current_section st' = Some section
    /\ next_action st' = Some "section_chat"
    /\ context st' = context st ++ [make_message "assistant" message]
    /\ proposed_section_content st'
       = (let updated := updated_content_of (updater_decision render decide section stored st) in
          if Py.truthy updated then updated else proposed_section_content st).
Proof. exact (updater_postcondition st section stored). Qed.

(** X15. The updater raises before it writes anything, and in two cases
    only, both with an active section: an [AttributeError] when there are no
    stored contents at all, a [TypeError] when the question list of the
    section cannot be iterated. With no active section it returns with
    [exit_to_general] as the next action and nothing else changed. *)
Theorem updater_faults_before_writing (st : ResumeBuilderState) :
  (forall e st',
     section_updater_node py_str render decide st = Raises e st' ->
     st' = st
     /\ exists section,
          current_section st = Some section /\ section <> EmptyString
          /\ ((e = AttributeError /\ resume_sections st = None)
              \/ (e = TypeError /\ Py.iterable (questions_of section st) = false)))
  /\ (current_section st = None \/ current_section st = Some EmptyString ->
      section_updater_node py_str render decide st
      = Returns tt (set_next_action (Some "exit_to_general") st)).
Proof.
  split.
  - intros e st'. destruct (current_section st) as [[|c rest]|] eqn:Hs.
    + unfold section_updater_node, bind at 1, gets at 1. now rewrite Hs.
    + destruct (resume_sections st) as [stored|] eqn:Hst.
      * destruct (Py.iterable (questions_of (String c rest) st)) eqn:Hit.
        -- destruct (updater_in_section st (String c rest) stored Hs ltac:(discriminate)
                       Hst Hit) as (message & ->).
           discriminate.
        -- unfold section_updater_node. unfold bind at 1. unfold gets at 1. rewrite Hs.
           unfold bind at 1. unfold gets at 1. cbv zeta.
           unfold bind at 1. unfold gets at 1.
           unfold bind at 1. unfold stored_content. unfold bind at 1. unfold gets at 1.
           rewrite Hst. unfold ret at 1.
           fold (questions_of (String c rest) st). rewrite Hit.
           unfold bind at 1, raise. intros [= <- <-].
           split; [reflexivity |]. exists (String c rest).
           repeat split; [discriminate | right; now split].
      * unfold section_updater_node. unfold bind at 1. unfold gets at 1. rewrite Hs.
        unfold bind at 1. unfold gets at 1. cbv zeta.
        unfold bind at 1. unfold gets at 1.
        unfold bind at 1. unfold stored_content. unfold bind at 1. unfold gets at 1.
        rewrite Hst. unfold raise. intros [= <- <-].
        split; [reflexivity |]. exists (String c rest).
        repeat split; [discriminate | left; now split].
    + unfold section_updater_node, bind at 1, gets at 1. now rewrite Hs.
  - intros [Hs|Hs]; unfold section_updater_node, bind at 1, gets at 1; now rewrite Hs.
Qed.

End UpdaterProperties.

Lemma updater_only_stages_witness :
  exists st' message,
    section_updater_node sample_str sample_render
      (decided [ ("updated_content", PStr "java, python, aws, terraform") ]) in_skills
    = Returns tt st'
    /\ resume_sections st' = Some {[ "skills" := PStr "java, python, aws" ]}
    /\ context st' = context in_skills ++ [make_message "assistant" message]
    /\ proposed_section_content st' = PStr "java, python, aws, terraform".
Proof.
  destruct (updater_only_stages sample_str sample_render
              (decided [ ("updated_content", PStr "java, python, aws, terraform") ])
              in_skills "skills" {[ "skills" := PStr "java, python, aws" ]})
    as (st' & message & E & Hst & _ & _ & _ & _ & Hc & Hp).
  - reflexivity.
  - discriminate.
  - reflexivity.
  - reflexivity.
  - exists st', message. repeat split; assumption.
Defined.

Lemma updater_faults_before_writing_witness :
  (exists section,
     current_section no_documents = Some section /\ section <> EmptyString
     /\ ((AttributeError = AttributeError /\ resume_sections no_documents = None)
         \/ (AttributeError = TypeError
             /\ Py.iterable (questions_of section no_documents) = false)))
  /\ (exists section,
        current_section unsized_skills = Some section /\ section <> EmptyString
        /\ ((TypeError = AttributeError /\ resume_sections unsized_skills = None)
            \/ (TypeError = TypeError
                /\ Py.iterable (questions_of section unsized_skills) = false)))
  /\ section_updater_node sample_str sample_render (decided offline_decision) idle_state
     = Returns tt (set_next_action (Some "exit_to_general") idle_state).
Proof.
  split; [|split].
  - destruct (updater_faults_before_writing sample_str sample_render
                (decided offline_decision) no_documents) as (Hraise & _).
    destruct (Hraise AttributeError no_documents eq_refl) as (_ & H). exact H.
  - destruct (updater_faults_before_writing sample_str sample_render
                (decided offline_decision) unsized_skills) as (Hraise & _).
    destruct (Hraise TypeError unsized_skills eq_refl) as (_ & H). exact H.
  - apply (updater_faults_before_writing sample_str sample_render
             (decided offline_decision) idle_state).
    left. reflexivity.
Defined.

(** ** What an apply writes *)

Lemma dict_set_set {V : Type} (k : string) (v v0 : V) (d : pydict V) :
  Dict.set k v (Dict.set k v0 d) = Dict.set k v d.
Proof.
  induction d as [|[k' v'] d IH]; simpl.
  - now rewrite String.eqb_refl.
  - destruct (String.eqb k k') eqn:E; simpl; rewrite E; [reflexivity | now rewrite IH].
Qed.

Lemma dict_get_default_set_eq {V : Type} (k : string) (v dflt : V) (d : pydict V) :
  Dict.get_default k dflt (Dict.set k v d) = v.
Proof. unfold Dict.get_default. now rewrite dict_get_set_eq. Qed.

Lemma dict_get_default_set_fresh {V : Type} (k : string) (dflt : V) (d : pydict V) :
  Dict.mem k d = false ->
  Dict.get_default k dflt (Dict.set k dflt d) = Dict.get_default k dflt d.
Proof.
  unfold Dict.mem, Dict.get_default. rewrite dict_get_set_eq.
  now destruct (Dict.get k d).
Qed.

Section ApplyProperties.

Variable GOOGLE_API_KEY : option string.
Variable acompletion : string -> string -> nat -> completion.
Variable json_loads : string -> option pyval.
Variable py_str : pyval -> string.
Variable render : prompt -> string.
Variable check_mark : string.

Local Abbreviation apply_changes :=
  (apply_section_changes_internal GOOGLE_API_KEY acompletion json_loads py_str render
     check_mark).
Local Abbreviation analysis :=
  (analyze GOOGLE_API_KEY acompletion json_loads py_str render).
Local Abbreviation applier :=
  (section_applier_node GOOGLE_API_KEY acompletion json_loads py_str render check_mark).

(** Writing an analysis into the state: the metadata first, then the
    ledger, then the confirmation; questions with no length stop it after
    the metadata. *)
Lemma record_analysis_outcome (section : string) (d : pydict pyval)
    (s : ResumeBuilderState) :
  let written := set_section_objects (recorded section d (section_objects s)) s in
  match reset_ledger (Dict.get_default "recommended_questions" PNone d) with
  | Some l =>
      exists message,
        record_analysis py_str check_mark section d s
        = Returns tt
            (set_context (context s ++ [make_message "assistant" message])
               (set_recommended_answers (<[section := l]> (recommended_answers s))
                  written))
  | None => record_analysis py_str check_mark section d s = Raises TypeError written
  end.
Proof.
  cbv zeta. unfold reset_ledger, recorded, record_analysis. cbv zeta.
  set (q := Dict.get_default "recommended_questions" PNone d).
  destruct (Py.truthy q) eqn:Hq; [destruct (Py.len q) as [n|] eqn:Hlen |];
    simpl option_map; cbv beta iota;
    unfold bind, modify, len_of, append_message, ret, raise;
    rewrite ?Hlen; cbv beta iota;
    (destruct (Dict.mem section (section_objects s)) eqn:E;
     [| simpl section_objects;
        rewrite dict_set_set, (dict_get_default_set_fresh _ _ _ E)]);
    try eexists; reflexivity.
Qed.

Lemma apply_outcome (st : ResumeBuilderState) (stored : gmap string pyval)
    (section : string) (content : pyval) :
  resume_sections st = Some stored ->
  exists message objects ledger,
    apply_changes section content st
    = Returns tt
        (set_context (context st ++ [make_message "assistant" message])
           (set_recommended_answers ledger
              (set_section_objects objects (committed section content stored st))))
    /\ (objects = section_objects st
        \/ exists d, objects = recorded section d (section_objects st))
    /\ (ledger = recommended_answers st
        \/ exists l, ledger = <[section := l]> (recommended_answers st)).
Proof.
  intros Hst. rewrite (apply_committed GOOGLE_API_KEY acompletion json_loads py_str render
                         check_mark st stored section content Hst).
  unfold try_catch. unfold bind at 1. simpl jd_summary.
  destruct (analysis (jd_summary st) section content) as [d|e].
  - unfold lift_result, ret at 1.
    pose proof (record_analysis_outcome section d (committed section content stored st))
      as Hrec. cbv zeta in Hrec.
    destruct (reset_ledger (Dict.get_default "recommended_questions" PNone d)) as [l|].
    + destruct Hrec as (message & ->).
      exists message, (recorded section d (section_objects st)),
        (<[section := l]> (recommended_answers st)).
      split; [reflexivity |]. split; [right; now exists d | right; now exists l].
    + rewrite Hrec. eexists _, (recorded section d (section_objects st)),
        (recommended_answers st).
      split; [reflexivity |]. split; [right; now exists d | now left].
  - eexists _, (section_objects st), (recommended_answers st).
    split; [reflexivity |]. split; now left.
Qed.

(** X16. An apply touches one section. With an active section, stored
    contents and some content to apply, the applier returns with one
    assistant message appended; the stored contents, the metadata and the
    ledgers of every other section are as they were; in the metadata of the
    section itself every key other than the score, the missing requirements
    and the questions reads as before; the job description, the active
    section and the counter are unchanged. This holds whether the analysis
    succeeds or not. *)
Theorem apply_touches_one_section (st : ResumeBuilderState)
    (stored : gmap string pyval) (section : string) :
  current_section st = Some section -> section <> EmptyString ->
  resume_sections st = Some stored ->
  Py.truthy (content_to_apply section stored st) = true ->
  exists st' written message,
    applier st = Returns tt st'
    /\ resume_sections st' = Some written
    /\ context st' = context st ++ [make_message "assistant" message]
    /\ jd_summary st' = jd_summary st
    /\ current_section st' = Some section
    /\ routing_attempts st' = routing_attempts st
    /\ (forall other, other <> section ->
          written !! other = stored !! other
          /\ Dict.get other (section_objects st') = Dict.get other (section_objects st)
          /\ recommended_answers st' !! other = recommended_answers st !! other)
    /\ (forall key, ~ In key analysis_keys ->
          Dict.get key (Dict.get_default section [] (section_objects st'))
          = Dict.get key (Dict.get_default section [] (section_objects st))).
Proof.
  intros Hs Hne Hst Ht.
  rewrite (applier_commits GOOGLE_API_KEY acompletion json_loads py_str render check_mark
             st stored section Hs Hne Hst Ht).
  set (content := content_to_apply section stored st).
  destruct (apply_outcome st stored section content Hst)
    as (message & objects & ledger & E & Hobj & Hled).
  unfold bind. rewrite E. unfold modify.
  eexists _, (<[section := content]> stored), message.
  split; [reflexivity |]. simpl.
  split; [reflexivity |]. split; [reflexivity |]. split; [reflexivity |].
  split; [exact Hs |]. split; [reflexivity |]. split.
  - intros other Hother. split; [now apply lookup_insert_ne |]. split.
    + destruct Hobj as [-> | [d ->]]; [reflexivity |].
      unfold recorded. now apply dict_get_set_ne.
    + destruct Hled as [-> | [l ->]]; [reflexivity |]. now apply lookup_insert_ne.
  - intros key Hkey. destruct Hobj as [-> | [d ->]]; [reflexivity |].
    unfold recorded, Dict.get_default at 1. rewrite dict_get_set_eq.
    unfold analysis_keys in Hkey. simpl in Hkey.
    rewrite !dict_get_set_ne; [reflexivity | | |]; intros ->; tauto.
Qed.

(** X17. A reply to the analysis request that cannot be read is not treated
    as a failed analysis. With an API key configured, when the reply holds
    no brace span, or holds one that does not parse, the apply records the
    defaults as if they were the analysis: score 70, no missing
    requirements, no questions, an empty ledger for the section, and the
    confirmation with the summary [Updated successfully]. *)
Theorem unreadable_analysis_gets_defaults (st : ResumeBuilderState)
    (stored : gmap string pyval) (section : string) (content : pyval)
    (key : string) (text : option string) :
  GOOGLE_API_KEY = Some key ->
  resume_sections st = Some stored ->
  acompletion (render (AnalysisPrompt (jd_summary st) section content))
    ("Section: " +:+ section +:+ nl +:+ "Content: " +:+ py_str content) 400
  = Replied text ->
  Re.search (text_or_empty text) = None
  \/ (exists json_text,
        Re.search (text_or_empty text) = Some json_text /\ json_loads json_text = None) ->
  analysis (jd_summary st) section content = Ok default_analysis
  /\ exists st',
       apply_changes section content st = Returns tt st'
       /\ resume_sections st' = Some (<[section := content]> stored)
       /\ Dict.get "alignment_score" (Dict.get_default section [] (section_objects st'))
          = Some (PInt 70)
       /\ Dict.get "missing_requirements" (Dict.get_default section [] (section_objects st'))
          = Some (PList [])
       /\ Dict.get "recommended_questions" (Dict.get_default section [] (section_objects st'))
          = Some (PList [])
       /\ recommended_answers st' = <[section := []]> (recommended_answers st)
       /\ context st'
          = context st ++
            [make_message "assistant"
               (PStr (check_mark +:+ " Applied changes to " +:+ section +:+ "!"
                      +:+ nl +:+ nl +:+ "New alignment: " +:+ py_str (PInt 70) +:+ "%"
                      +:+ nl +:+ py_str (PStr "Updated successfully") +:+ nl +:+ nl
                      +:+ "Section complete! Switch to another section or continue refining."))].
Proof.
  intros Hkey Hst Hreply Hread.
  assert (Han : analysis (jd_summary st) section content = Ok default_analysis).
  { unfold analyze, OFFLINE_MODE. rewrite Hkey, Hreply. unfold read_analysis.
    destruct Hread as [-> | (json_text & -> & ->)]; reflexivity. }
  split; [exact Han |].
  rewrite (apply_committed GOOGLE_API_KEY acompletion json_loads py_str render
             check_mark st stored section content Hst).
  unfold try_catch. unfold bind at 1. simpl jd_summary. rewrite Han.
  unfold lift_result, ret at 1.
  unfold record_analysis, default_analysis. cbv zeta.
  change (Dict.get_default "recommended_questions" PNone _) with (PList []).
  change (Dict.get_default "missing_requirements" PNone _) with (PList []).
  change (Dict.get_default "alignment_score" PNone _) with (PInt 70).
  change (Dict.get_default "analysis_summary" (PStr EmptyString) _)
    with (PStr "Updated successfully").
  cbn [Py.truthy]. unfold bind, modify, append_message, ret. cbv beta iota.
  change (section_objects (committed section content stored st))
    with (section_objects st).
  destruct (Dict.mem section (section_objects st));
    (eexists; split; [reflexivity |]; simpl;
     split; [reflexivity |];
     rewrite !dict_get_default_set_eq;
     split; [now rewrite !dict_get_set_ne by discriminate; rewrite dict_get_set_eq |];
     split; [now rewrite dict_get_set_ne by discriminate; rewrite dict_get_set_eq |];
     split; [now rewrite dict_get_set_eq |];
     split; reflexivity).
Qed.

(** X18. The applier writes nothing when it has nothing to write. With no
    active section it returns with [exit_to_general] and the state otherwise
    as it was. With an active section, nothing staged and no stored content
    for the section that counts as true, it returns with the message that
    there is no content to apply and [section_chat] as the next action, and
    nothing else changed. It raises only when there are no stored contents
    at all, before writing anything: a [TypeError] if something is staged,
    an [AttributeError] if not. *)
Theorem applier_without_content (st : ResumeBuilderState) :
  (current_section st = None \/ current_section st = Some EmptyString ->
   applier st = Returns tt (set_next_action (Some "exit_to_general") st))
  /\ (forall section stored,
        current_section st = Some section -> section <> EmptyString ->
        resume_sections st = Some stored ->
        Py.truthy (content_to_apply section stored st) = false ->
        applier st
        = Returns tt
            (set_next_action (Some "section_chat")
               (set_context
                  (context st ++
                   [make_message "assistant"
                      (PStr ("No content to apply for " +:+ section
                             +:+ ". Please try again."))])
                  st)))
  /\ (forall e st',
        applier st = Raises e st' ->
        st' = st /\ resume_sections st = None
        /\ ((e = TypeError /\ Py.truthy (proposed_section_content st) = true)
            \/ (e = AttributeError /\ Py.truthy (proposed_section_content st) = false))).
Proof.
  split; [|split].
  - intros [Hs|Hs]; unfold section_applier_node, bind at 1, gets at 1; now rewrite Hs.
  - intros section stored Hs Hne Hst Ht. unfold section_applier_node.
    unfold bind at 1. unfold gets at 1. rewrite Hs.
    destruct section as [|c rest]; [contradiction |].
    unfold bind at 1. unfold gets at 1.
    unfold content_to_apply in Ht.
    destruct (Py.truthy (proposed_section_content st)) eqn:Hp.
    + unfold bind at 1. unfold ret at 1. now rewrite Ht in Hp.
    + unfold bind at 1. unfold stored_content, bind, gets. rewrite Hst.
      unfold ret at 1. rewrite Ht. reflexivity.
  - intros e st'. destruct (current_section st) as [[|c rest]|] eqn:Hs.
    + unfold section_applier_node, bind at 1, gets at 1. now rewrite Hs.
    + destruct (resume_sections st) as [stored|] eqn:Hst.
      * destruct (Py.truthy (content_to_apply (String c rest) stored st)) eqn:Ht.
        -- rewrite (applier_commits GOOGLE_API_KEY acompletion json_loads py_str render
                      check_mark st stored (String c rest) Hs ltac:(discriminate) Hst Ht).
           destruct (apply_outcome st stored (String c rest)
                       (content_to_apply (String c rest) stored st) Hst)
             as (message & objects & ledger & E & _).
           unfold bind. now rewrite E.
        -- unfold section_applier_node.
           unfold bind at 1. unfold gets at 1. rewrite Hs.
           unfold bind at 1. unfold gets at 1.
           unfold content_to_apply in Ht.
           destruct (Py.truthy (proposed_section_content st)) eqn:Hp.
           ++ unfold bind at 1. unfold ret at 1. now rewrite Ht in Hp.
           ++ unfold bind at 1. unfold stored_content, bind, gets. rewrite Hst.
              unfold ret at 1. now rewrite Ht.
      * unfold section_applier_node.
        unfold bind at 1. unfold gets at 1. rewrite Hs.
        unfold bind at 1. unfold gets at 1.
        destruct (Py.truthy (proposed_section_content st)) eqn:Hp.
        -- unfold bind at 1. unfold ret at 1. rewrite Hp. cbn [negb].
           unfold bind at 1. unfold apply_section_changes_internal.
           unfold bind at 1. unfold gets at 1. rewrite Hst. unfold raise.
           intros [= <- <-]. repeat split. left. now split.
        -- unfold bind at 1. unfold stored_content, bind, gets. rewrite Hst.
           unfold raise. intros [= <- <-]. repeat split. right. now split.
    + unfold section_applier_node, bind at 1, gets at 1. now rewrite Hs.
Qed.

End ApplyProperties.

Lemma apply_touches_one_section_witness :
  exists st' written message,
    section_applier_node (Some "key") (replying two_questions_reply)
      (loads_from analysis_replies) sample_str sample_render "[saved]" answered_skills
    = Returns tt st'
    /\ resume_sections st' = Some written
    /\ context st' = context answered_skills ++ [make_message "assistant" message]
    /\ Dict.get "education" (section_objects st') = Some education_meta
    /\ Dict.get "section_name" (Dict.get_default "skills" [] (section_objects st'))
       = Some (PStr "skills").
Proof.
  destruct (apply_touches_one_section (Some "key") (replying two_questions_reply)
              (loads_from analysis_replies) sample_str sample_render "[saved]"
              answered_skills {[ "skills" := PStr "java, python, aws" ]} "skills")
    as (st' & written & message & E & Hw & Hc & _ & _ & _ & Hother & Hkeys).
  - reflexivity.
  - discriminate.
  - reflexivity.
  - reflexivity.
  - exists st', written, message. split; [exact E |]. split; [exact Hw |].
    split; [exact Hc |]. split.
    + destruct (Hother "education") as (_ & -> & _); [discriminate | reflexivity].
    + rewrite Hkeys; [reflexivity |]. unfold analysis_keys. simpl.
      intros [H|[H|[H|[]]]]; discriminate H.
Defined.

Lemma unreadable_analysis_gets_defaults_witness :
  analyze (Some "key") (replying "Looks good to me!") (loads_from analysis_replies)
    sample_str sample_render (jd_summary answered_skills) "skills"
    (PStr "java, python, aws, gcp, terraform")
  = Ok default_analysis.
Proof.
  apply (unreadable_analysis_gets_defaults (Some "key") (replying "Looks good to me!")
           (loads_from analysis_replies) sample_str sample_render "[saved]"
           answered_skills {[ "skills" := PStr "java, python, aws" ]} "skills"
           (PStr "java, python, aws, gcp, terraform") "key" (Some "Looks good to me!")).
  - reflexivity.
  - reflexivity.
  - reflexivity.
  - left. reflexivity.
Defined.

Lemma applier_without_content_witness :
  section_applier_node (Some "key") failing_completion (loads_from analysis_replies)
    sample_str sample_render "[saved]" empty_documents
  = Returns tt
      (set_next_action (Some "section_chat")
         (set_context
            (context empty_documents ++
             [make_message "assistant"
                (PStr ("No content to apply for " +:+ "skills" +:+ ". Please try again."))])
            empty_documents))
  /\ (resume_sections staged_without_documents = None
      /\ ((TypeError = TypeError
           /\ Py.truthy (proposed_section_content staged_without_documents) = true)
          \/ (TypeError = AttributeError
              /\ Py.truthy (proposed_section_content staged_without_documents) = false)))
  /\ (resume_sections no_documents = None
      /\ ((AttributeError = TypeError
           /\ Py.truthy (proposed_section_content no_documents) = true)
          \/ (AttributeError = AttributeError
              /\ Py.truthy (proposed_section_content no_documents) = false)))
  /\ section_applier_node (Some "key") failing_completion (loads_from analysis_replies)
       sample_str sample_render "[saved]" idle_state
     = Returns tt (set_next_action (Some "exit_to_general") idle_state).
Proof.
  split; [|split; [|split]].
  - destruct (applier_without_content (Some "key") failing_completion
                (loads_from analysis_replies) sample_str sample_render "[saved]"
                empty_documents) as (_ & Hnone & _).
    apply (Hnone "skills" ∅); [reflexivity | discriminate | reflexivity | reflexivity].
  - destruct (applier_without_content (Some "key") failing_completion
                (loads_from analysis_replies) sample_str sample_render "[saved]"
                staged_without_documents) as (_ & _ & Hraise).
    destruct (Hraise TypeError staged_without_documents eq_refl) as (_ & H). exact H.
  - destruct (applier_without_content (Some "key") failing_completion
                (loads_from analysis_replies) sample_str sample_render "[saved]"
                no_documents) as (_ & _ & Hraise).
    destruct (Hraise AttributeError no_documents eq_refl) as (_ & H). exact H.
  - apply (applier_without_content (Some "key") failing_completion
             (loads_from analysis_replies) sample_str sample_render "[saved]" idle_state).
    left. reflexivity.
Defined.

(** ** From staging to committing *)

Lemma section_chat_keeps_documents (py_str : pyval -> string) (render : prompt -> string)
    (decide : string -> pyval -> nat -> pydict pyval) (st : ResumeBuilderState) :
  same_documents st (final_state (section_chat_node py_str render decide st)).
Proof.
  assert (H : stable (fun s => same_documents st s)
                (section_chat_node py_str render decide)).
  { unfold section_chat_node, safe_initialize_answers, section_chat_updates,
      section_chat_route, section_chat_fault.
    stable_with ltac:(unfold same_documents in *; simpl; assumption).
    all: apply apply_updates_stable; intros; unfold same_documents in *; simpl; assumption. }
  apply (H st). repeat split.
Qed.

Section Staging.

Variable GOOGLE_API_KEY : option string.
Variable acompletion : string -> string -> nat -> completion.
Variable json_loads : string -> option pyval.
Variable py_str : pyval -> string.
Variable render : prompt -> string.
Variable check_mark : string.
Variable decide_update : string -> pyval -> nat -> pydict pyval.
Variable decide_chat : string -> pyval -> nat -> pydict pyval.

Local Abbreviation applier :=
  (section_applier_node GOOGLE_API_KEY acompletion json_loads py_str render check_mark).

(** X19. The staged content is not tied to the section it was written for.
    When the updater has staged a rewrite for one section and a turn of
    section chat follows, the applier then commits that rewrite under the
    section that is active after the chat turn, which is another section if
    the chat turn switched, and clears the staged content. The stored
    content of every section other than the active one is as it was. *)
Theorem staged_content_goes_to_the_active_section
    (st st1 st2 : ResumeBuilderState) (stored : gmap string pyval)
    (section active : string) :
  current_section st = Some section -> section <> EmptyString ->
  resume_sections st = Some stored ->
  Py.iterable (questions_of section st) = true ->
  Py.truthy (updated_content_of (updater_decision render decide_update section stored st))
  = true ->
  section_updater_node py_str render decide_update st = Returns tt st1 ->
  section_chat_node py_str render decide_chat st1 = Returns tt st2 ->
  current_section st2 = Some active -> active <> EmptyString ->
  exists st3,
    applier st2 = Returns tt st3
    /\ resume_sections st3
       = Some (<[active := updated_content_of
                             (updater_decision render decide_update section stored st)]>
                 stored)
    /\ proposed_section_content st3 = PNone
    /\ next_action st3 = Some "section_chat".
Proof.
  intros Hs Hne Hst Hit Hup E1 E2 Ha Hane.
  destruct (updater_postcondition py_str render decide_update st section stored Hs Hne Hst Hit)
    as (st1' & message & E1' & Hst1 & _ & _ & _ & _ & _ & Hp1).
  rewrite E1 in E1'. injection E1' as <-. cbv zeta in Hp1. rewrite Hup in Hp1.
  pose proof (section_chat_keeps_documents py_str render decide_chat st1) as Hdoc.
  rewrite E2 in Hdoc. simpl in Hdoc. destruct Hdoc as (Hst2 & _ & _ & _ & Hp2).
  rewrite Hst1 in Hst2. rewrite Hp1 in Hp2.
  assert (Hcontent : content_to_apply active stored st2
                     = updated_content_of
                         (updater_decision render decide_update section stored st)).
  { unfold content_to_apply. now rewrite Hp2, Hup. }
  assert (Ht : Py.truthy (content_to_apply active stored st2) = true)
    by now rewrite Hcontent.
  rewrite (applier_commits GOOGLE_API_KEY acompletion json_loads py_str render check_mark
             st2 stored active Ha Hane Hst2 Ht).
  rewrite Hcontent.
  set (content := updated_content_of _).
  destruct (apply_keeps GOOGLE_API_KEY acompletion json_loads py_str render check_mark
              (fun s => resume_sections s = Some (<[active := content]> stored))
              st2 stored active content) as (st3 & E3 & Hkept); auto.
  unfold bind. rewrite E3. eexists. split; [reflexivity |].
  split; [exact Hkept |]. split; reflexivity.
Qed.

End Staging.

Lemma staged_content_goes_to_the_active_section_witness :
  exists st3,
    section_applier_node (Some "key") failing_completion (loads_from analysis_replies)
      sample_str sample_render "[saved]"
      (final_state
         (section_chat_node sample_str sample_render
            (decided [ ("action", PStr "switch_section");
                       ("target_section", PStr "education") ])
            (final_state
               (section_updater_node sample_str sample_render
                  (decided [ ("updated_content", PStr "java, python, aws, terraform") ])
                  in_skills))))
    = Returns tt st3
    /\ resume_sections st3
       = Some (<["education" := PStr "java, python, aws, terraform"]>
                 {[ "skills" := PStr "java, python, aws" ]})
    /\ proposed_section_content st3 = PNone
    /\ next_action st3 = Some "section_chat".
Proof.
  apply (staged_content_goes_to_the_active_section (Some "key") failing_completion
           (loads_from analysis_replies) sample_str sample_render "[saved]"
           (decided [ ("updated_content", PStr "java, python, aws, terraform") ])
           (decided [ ("action", PStr "switch_section");
                      ("target_section", PStr "education") ])
           in_skills
           (final_state
              (section_updater_node sample_str sample_render
                 (decided [ ("updated_content", PStr "java, python, aws, terraform") ])
                 in_skills))
           _ {[ "skills" := PStr "java, python, aws" ]} "skills" "education").
  - reflexivity.
  - discriminate.
  - reflexivity.
  - reflexivity.
  - reflexivity.
  - reflexivity.
  - reflexivity.
  - vm_compute. reflexivity.
  - discriminate.
Defined.

(** ** The routers after their handlers *)

Section Routing.

Variable GOOGLE_API_KEY : option string.
Variable acompletion : string -> string -> nat -> completion.
Variable json_loads : string -> option pyval.
Variable py_str : pyval -> string.
Variable render : prompt -> string.
Variable check_mark : string.
Variable decide : string -> pyval -> nat -> pydict pyval.

(** X20. After general chat the check of the counter in its router never
    fires, and the router names section chat exactly when general chat has
    activated a section with one of the eleven canonical names; in every
    other case the turn ends. A section of the metadata under another name
    can be activated and is never entered. *)
Theorem general_chat_router_follows_activation (st st' : ResumeBuilderState) :
  general_chat_and_section_routing py_str render decide st = Returns tt st' ->
  (routing_attempts st' < 3)%Z
  /\ (route_from_general_chat st' = SectionChatNode
      <-> exists found, current_section st' = Some found /\ In found valid_sections)
  /\ (route_from_general_chat st' = SectionChatNode \/ route_from_general_chat st' = END).
Proof.
  intros E.
  destruct (general_chat_postcondition py_str render decide st st' E)
    as (_ & _ & _ & _ & _ & Hzero & Hcases).
  split; [lia |].
  unfold route_from_general_chat, next_action_is. rewrite Hzero. cbn [Z.leb Z.compare].
  destruct Hcases as [(Hc & Hn & _) | (found & Hc & _ & _ & Hn & _)]; rewrite Hc, Hn.
  - cbn [andb]. split; [|now right]. split; [discriminate |].
    intros (found & H & _). discriminate H.
  - change (String.eqb "section_chat" "section_chat") with true. cbn [andb].
    destruct (str_in found valid_sections) eqn:Hin.
    + split; [|now left]. split; [|reflexivity].
      intros _. exists found. split; [reflexivity | now apply str_in_true].
    + split; [|now right]. split; [discriminate |].
      intros (found' & [= <-] & Hin'). apply str_in_iff in Hin'. congruence.
Qed.

(** X21. The updater and the applier never hand over to anything but
    section chat while a section is active: when either returns, its router
    names section chat if there was an active section and general chat if
    there was none. The edge from the updater to the applier is never
    taken. *)
Theorem updater_and_applier_return_to_section_chat (st st' : ResumeBuilderState) :
  (section_updater_node py_str render decide st = Returns tt st' ->
   route_from_section_updater st'
   = match current_section st with
     | Some (String _ _) => SectionChatNode
     | _ => GeneralChatNode
     end)
  /\ (section_applier_node GOOGLE_API_KEY acompletion json_loads py_str render check_mark st
      = Returns tt st' ->
      route_from_section_applier st'
      = match current_section st with
        | Some (String _ _) => SectionChatNode
        | _ => GeneralChatNode
        end).
Proof.
  split.
  - destruct (current_section st) as [[|c rest]|] eqn:Hs.
    + unfold section_updater_node, bind at 1, gets at 1. rewrite Hs. now intros [= <-].
    + destruct (resume_sections st) as [stored|] eqn:Hst.
      * destruct (Py.iterable (questions_of (String c rest) st)) eqn:Hit.
        -- destruct (updater_in_section py_str render decide st (String c rest) stored Hs
                       ltac:(discriminate) Hst Hit) as (message & ->).
           now intros [= <-].
        -- unfold section_updater_node. unfold bind at 1. unfold gets at 1. rewrite Hs.
           unfold bind at 1. unfold gets at 1. cbv zeta.
           unfold bind at 1. unfold gets at 1.
           unfold bind at 1. unfold stored_content. unfold bind at 1. unfold gets at 1.
           rewrite Hst. unfold ret at 1.
           fold (questions_of (String c rest) st). rewrite Hit.
           unfold bind at 1, raise. discriminate.
      * unfold section_updater_node. unfold bind at 1. unfold gets at 1. rewrite Hs.
        unfold bind at 1. unfold gets at 1. cbv zeta.
        unfold bind at 1. unfold gets at 1.
        unfold bind at 1. unfold stored_content. unfold bind at 1. unfold gets at 1.
        rewrite Hst. unfold raise. discriminate.
    + unfold section_updater_node, bind at 1, gets at 1. rewrite Hs. now intros [= <-].
  - destruct (current_section st) as [[|c rest]|] eqn:Hs.
    + unfold section_applier_node, bind at 1, gets at 1. rewrite Hs. now intros [= <-].
    + unfold section_applier_node. unfold bind at 1. unfold gets at 1. rewrite Hs.
      unfold bind at 1. unfold gets at 1.
      unfold bind at 1.
      destruct ((if Py.truthy (proposed_section_content st)
                 then ret (proposed_section_content st)
                 else stored_content (String c rest)) st) as [content s1|e s1];
        [|discriminate].
      destruct (negb (Py.truthy content)).
      * unfold bind, modify, append_message. now intros [= <-].
      * unfold bind at 1.
        destruct (apply_section_changes_internal _ _ _ _ _ _ _ _ s1) as [[] s2|e s2];
          [|discriminate].
        unfold bind, modify. now intros [= <-].
    + unfold section_applier_node, bind at 1, gets at 1. rewrite Hs. now intros [= <-].
Qed.

(** X22. When a turn of section chat returns, its router names general chat
    exactly when no section is active any more; otherwise it names section
    chat, the updater or the applier, and never ends the turn. *)
Theorem section_chat_router_leaves_with_the_section (st st' : ResumeBuilderState) :
  section_chat_node py_str render decide st = Returns tt st' ->
  (route_from_section_chat st' = GeneralChatNode
   <-> current_section st' = None \/ current_section st' = Some EmptyString)
  /\ route_from_section_chat st' <> END.
Proof.
  intros E. split.
  - destruct (current_section st) as [[|c rest]|] eqn:Hs.
    + revert E. unfold section_chat_node, bind at 1, gets at 1. rewrite Hs.
      intros [= <-]. simpl. rewrite Hs. split; [now right | reflexivity].
    + destruct (Py.len (questions_of (String c rest) st)) as [n|] eqn:Hn.
      * destruct (section_chat_postcondition py_str render decide st (String c rest) n Hs
                    ltac:(discriminate) Hn) as (st'' & E' & _ & _ & Hctl).
        rewrite E in E'. injection E' as <-.
        unfold route_from_section_chat, next_action_is.
        inversion Hctl as [next Hnext Hc Hx | Hc Hx | found Hin Hne Hne' Hc Hx].
        -- simpl in Hnext.
           destruct Hnext as [<- | [<- | [<- | [<- | []]]]]; simpl;
             (split; [discriminate | intros [H|H]; discriminate H]).
        -- simpl. split; [now left | reflexivity].
        -- simpl. split; [discriminate |].
           intros [H|H]; [discriminate H | injection H as ->; contradiction].
      * rewrite (section_chat_unsized py_str render decide st (String c rest) Hs
                   ltac:(discriminate) Hn) in E. discriminate.
    + revert E. unfold section_chat_node, bind at 1, gets at 1. rewrite Hs.
      intros [= <-]. simpl. rewrite Hs. split; [now left | reflexivity].
  - unfold route_from_section_chat.
    repeat match goal with |- context [if ?b then _ else _] => destruct b end;
      discriminate.
Qed.

End Routing.

Lemma general_chat_router_follows_activation_witness :
  route_from_general_chat
    (final_state
       (general_chat_and_section_routing sample_str sample_render
          (decided [ ("action", PStr "route"); ("route", PStr "Skill") ])
          (set_current_section None in_skills)))
  = SectionChatNode.
Proof.
  destruct (general_chat_router_follows_activation sample_str sample_render
              (decided [ ("action", PStr "route"); ("route", PStr "Skill") ])
              (set_current_section None in_skills)
              (final_state
                 (general_chat_and_section_routing sample_str sample_render
                    (decided [ ("action", PStr "route"); ("route", PStr "Skill") ])
                    (set_current_section None in_skills))))
    as (_ & H & _).
  - vm_compute. reflexivity.
  - apply H. exists "skills". split; [vm_compute; reflexivity | simpl; tauto].
Defined.

Lemma updater_and_applier_return_to_section_chat_witness :
  route_from_section_updater
    (final_state
       (section_updater_node sample_str sample_render
          (decided [ ("updated_content", PStr "java, python, aws, terraform") ])
          in_skills))
  = SectionChatNode
  /\ route_from_section_applier
       (final_state
          (section_applier_node (Some "key") (replying two_questions_reply)
             (loads_from analysis_replies) sample_str sample_render "[saved]"
             answered_skills))
     = SectionChatNode
  /\ route_from_section_updater (set_next_action (Some "exit_to_general") idle_state)
     = GeneralChatNode.
Proof.
  split; [|split].
  - destruct (updater_and_applier_return_to_section_chat (Some "key")
                (replying two_questions_reply) (loads_from analysis_replies) sample_str
                sample_render "[saved]"
                (decided [ ("updated_content", PStr "java, python, aws, terraform") ])
                in_skills
                (final_state
                   (section_updater_node sample_str sample_render
                      (decided [ ("updated_content", PStr "java, python, aws, terraform") ])
                      in_skills))) as (Hupdater & _).
    apply Hupdater. reflexivity.
  - destruct (updater_and_applier_return_to_section_chat (Some "key")
                (replying two_questions_reply) (loads_from analysis_replies) sample_str
                sample_render "[saved]" (decided offline_decision) answered_skills
                (final_state
                   (section_applier_node (Some "key") (replying two_questions_reply)
                      (loads_from analysis_replies) sample_str sample_render "[saved]"
                      answered_skills))) as (_ & Happlier).
    apply Happlier. vm_compute. reflexivity.
  - destruct (updater_and_applier_return_to_section_chat (Some "key") failing_completion
                (loads_from analysis_replies) sample_str sample_render "[saved]"
                (decided offline_decision) idle_state
                (set_next_action (Some "exit_to_general") idle_state)) as (Hupdater & _).
    apply Hupdater. reflexivity.
Defined.

Lemma section_chat_router_leaves_with_the_section_witness :
  let st' :=
    final_state
      (section_chat_node sample_str sample_render
         (decided [ ("action", PStr "exit_section") ]) in_skills) in
  (route_from_section_chat st' = GeneralChatNode
   <-> current_section st' = None \/ current_section st' = Some EmptyString)
  /\ route_from_section_chat st' <> END.
Proof.
  apply (section_chat_router_leaves_with_the_section sample_str sample_render
           (decided [ ("action", PStr "exit_section") ]) in_skills).
  vm_compute. reflexivity.
Defined.

(** ** Matching an answer to the questions *)

Lemma collect_matches_in (user_words : gset string) (questions : list string) :
  forall (first idx : nat) (question : string) (c : Q),
    In (idx, question, c) (collect_matches user_words first questions)
    <-> exists i, idx = first + i /\ questions !! i = Some question
                  /\ 0 < overlap user_words question
                  /\ c = confidence_of user_words question.
Proof.
  induction questions as [|q rest IH]; intros first idx question c; simpl.
  - split; [intros [] | intros (i & _ & H & _); discriminate H].
  - fold (overlap user_words q).
    assert (Hrest : In (idx, question, c) (collect_matches user_words (S first) rest)
                    <-> exists i, idx = first + S i /\ rest !! i = Some question
                                  /\ 0 < overlap user_words question
                                  /\ c = confidence_of user_words question).
    { rewrite IH. split; intros (i & Hi & H); exists i; (split; [lia | exact H]). }
    destruct (Nat.ltb_spec 0 (overlap user_words q)) as [Hpos|Hzero]; simpl.
    + rewrite Hrest. split.
      * intros [[= <- <- <-] | (i & Hi & H)].
        -- exists 0. repeat split; [lia | exact Hpos].
        -- exists (S i). split; [exact Hi | exact H].
      * intros ([|i] & Hi & Hq & Ho & Hc).
        -- left. injection Hq as ->. subst c.
           replace idx with first by lia. reflexivity.
        -- right. exists i. repeat split; assumption.
    + rewrite Hrest. split.
      * intros (i & Hi & H). exists (S i). split; [exact Hi | exact H].
      * intros ([|i] & Hi & Hq & Ho & Hc).
        -- injection Hq as ->. lia.
        -- exists i. repeat split; assumption.
Qed.

Lemma insert_by_confidence_in (x y : match_entry) (l : list match_entry) :
  In y (insert_by_confidence x l) <-> y = x \/ In y l.
Proof.
  induction l as [|z rest IH]; simpl.
  - split; [intros [<-|[]]; now left | intros [->|[]]; now left].
  - destruct (Qgtb (confidence z) (confidence x)); simpl; [rewrite IH |];
      intuition congruence.
Qed.

Lemma sorted_by_confidence_in (y : match_entry) (l : list match_entry) :
  In y (sorted_by_confidence l) <-> In y l.
Proof.
  induction l as [|x rest IH]; simpl; [reflexivity |].
  change (foldr insert_by_confidence [] rest) with (sorted_by_confidence rest).
  rewrite insert_by_confidence_in, IH. intuition (subst; auto).
Qed.

Lemma confidence_of_bounds (user_words : gset string) (question : string) :
  0 < overlap user_words question ->
  (0 < confidence_of user_words question)%Q /\ (confidence_of user_words question <= 1)%Q.
Proof.
  intros Hpos. unfold confidence_of.
  assert (Hle : overlap user_words question <= size (Words.word_set question))
    by (unfold overlap; apply subseteq_size, intersection_subseteq_r).
  set (n := size (Words.word_set question)) in *.
  set (k := overlap user_words question) in *.
  assert (Hden : Z.pos (Pos.of_nat (Nat.max n 1)) = Z.of_nat n).
  { replace (Nat.max n 1) with n by lia.
    rewrite <- positive_nat_Z, Nat2Pos.id by lia. reflexivity. }
  unfold Qlt, Qle. simpl Qnum. simpl Qden. rewrite Hden. lia.
Qed.

(** X23. The entries of a result are exactly the questions that share a
    word with the answer: the entry of index [i] is in the result if and
    only if the [i]-th question shares at least one word with the answer,
    words being compared in lower case; it carries the text of that
    question and, as its confidence, the number of shared words over the
    number of distinct words of the question, which lies above 0 and is at
    most 1. *)
Theorem question_matches_are_the_overlapping_questions
    (user_answer : string) (questions : list string)
    (idx : nat) (question : string) (c : Q) :
  (In (idx, question, c) (detect_question_matches user_answer questions)
   <-> questions !! idx = Some question
       /\ 0 < overlap (Words.word_set user_answer) question
       /\ c = confidence_of (Words.word_set user_answer) question)
  /\ (In (idx, question, c) (detect_question_matches user_answer questions) ->
      (0 < c)%Q /\ (c <= 1)%Q).
Proof.
  assert (Hiff : In (idx, question, c) (detect_question_matches user_answer questions)
                 <-> questions !! idx = Some question
                     /\ 0 < overlap (Words.word_set user_answer) question
                     /\ c = confidence_of (Words.word_set user_answer) question).
  { unfold detect_question_matches. rewrite sorted_by_confidence_in, collect_matches_in.
    split.
    - intros (i & -> & H). exact H.
    - intros H. exists idx. split; [reflexivity | exact H]. }
  split; [exact Hiff |].
  intros Hin. apply Hiff in Hin as (_ & Hpos & ->).
  now apply confidence_of_bounds.
Qed.

Lemma insert_by_confidence_sorted (x : match_entry) (l : list match_entry) :
  StronglySorted ranks_before l ->
  Forall (fun y => question_index x < question_index y) l ->
  StronglySorted ranks_before (insert_by_confidence x l).
Proof.
  induction l as [|y rest IH]; intros Hsorted Hlater; simpl.
  - repeat constructor.
  - apply StronglySorted_inv in Hsorted as [Hrest Hy].
    apply Forall_cons in Hlater as [Hxy Hlater].
    destruct (Qgtb (confidence y) (confidence x)) eqn:Hgt.
    + apply Qgtb_true in Hgt. constructor; [now apply IH |].
      apply Forall_forall. intros z Hz. apply list_elem_of_In in Hz.
      apply insert_by_confidence_in in Hz as [-> | Hz]; [now left |].
      rewrite Forall_forall in Hy. apply Hy. now apply list_elem_of_In.
    + apply Qgtb_false in Hgt. constructor; [now constructor |].
      assert (Hrank : forall z, (confidence z <= confidence x)%Q ->
                        question_index x < question_index z -> ranks_before x z).
      { intros z Hle Hidx. apply Qle_lteq in Hle as [Hlt|Heq]; [now left |].
        right. split; [now symmetry | exact Hidx]. }
      constructor; [now apply Hrank |].
      rewrite Forall_forall in Hy, Hlater. apply Forall_forall. intros z Hz.
      apply Hrank; [|now apply Hlater].
      destruct (Hy z Hz) as [Hlt | [Heq _]].
      * apply Qlt_le_weak. now apply Qlt_le_trans with (confidence y).
      * now rewrite <- Heq.
Qed.

Lemma collect_matches_from (user_words : gset string) (questions : list string) :
  forall first,
    Forall (fun y => first <= question_index y) (collect_matches user_words first questions)
    /\ StronglySorted (fun a b => question_index a < question_index b)
         (collect_matches user_words first questions).
Proof.
  induction questions as [|q rest IH]; intros first; simpl.
  - split; constructor.
  - destruct (IH (S first)) as [Hfrom Hsorted].
    assert (Hweak : Forall (fun y => first <= question_index y)
                      (collect_matches user_words (S first) rest))
      by (eapply Forall_impl; [exact Hfrom | intros y Hy; simpl in Hy; lia]).
    destruct (Nat.ltb 0 _).
    + split; [constructor; [reflexivity | exact Hweak] |].
      constructor; [exact Hsorted |].
      eapply Forall_impl; [exact Hfrom |].
      intros y Hy. unfold question_index in *. simpl in *. lia.
    + split; assumption.
Qed.

Lemma sorted_by_confidence_sorted (l : list match_entry) :
  StronglySorted (fun a b => question_index a < question_index b) l ->
  StronglySorted ranks_before (sorted_by_confidence l).
Proof.
  induction 1 as [|x rest Hrest IH Hx]; simpl; [constructor |].
  change (foldr insert_by_confidence [] rest) with (sorted_by_confidence rest).
  apply insert_by_confidence_sorted; [exact IH |].
  rewrite Forall_forall in Hx. apply Forall_forall. intros y Hy.
  apply Hx. apply list_elem_of_In. apply sorted_by_confidence_in.
  now apply list_elem_of_In.
Qed.

Lemma strongly_sorted_lookup {A : Type} (R : A -> A -> Prop) (l : list A) :
  StronglySorted R l ->
  forall i j a b, i < j -> l !! i = Some a -> l !! j = Some b -> R a b.
Proof.
  induction 1 as [|x rest Hrest IH Hx]; intros i j a b Hij Ha Hb; [discriminate Ha |].
  destruct j as [|j]; [lia |]. simpl in Hb. destruct i as [|i]; simpl in Ha.
  - injection Ha as <-. rewrite Forall_forall in Hx. apply Hx.
    now apply list_elem_of_lookup_2 with j.
  - apply (IH i j); [lia | assumption | assumption].
Qed.

(** X24. A result is ordered by confidence, highest first, and the order is
    stable: of two entries, the one that comes first has the higher
    confidence, or they have the same confidence and it belongs to the
    earlier question. So no question appears twice. *)
Theorem question_matches_are_ranked (user_answer : string) (questions : list string)
    (i j : nat) (a b : match_entry) :
  i < j ->
  detect_question_matches user_answer questions !! i = Some a ->
  detect_question_matches user_answer questions !! j = Some b ->
  ranks_before a b /\ (confidence b <= confidence a)%Q
  /\ question_index a <> question_index b.
Proof.
  intros Hij Ha Hb.
  assert (Hrank : ranks_before a b).
  { apply (strongly_sorted_lookup ranks_before
             (detect_question_matches user_answer questions)) with i j; try assumption.
    apply sorted_by_confidence_sorted. apply collect_matches_from. }
  split; [exact Hrank |]. destruct Hrank as [Hlt | [Heq Hidx]].
  - split; [now apply Qlt_le_weak |].
    intros Hsame.
    assert (Hina : In a (detect_question_matches user_answer questions))
      by (apply list_elem_of_In; now apply list_elem_of_lookup_2 with i).
    assert (Hinb : In b (detect_question_matches user_answer questions))
      by (apply list_elem_of_In; now apply list_elem_of_lookup_2 with j).
    destruct a as [[ia qa] ca]. destruct b as [[ib qb] cb].
    unfold detect_question_matches in Hina, Hinb.
    rewrite sorted_by_confidence_in, collect_matches_in in Hina, Hinb.
    destruct Hina as (ka & Hka & Hqa & _ & Hca).
    destruct Hinb as (kb & Hkb & Hqb & _ & Hcb).
    unfold question_index in Hsame. simpl in Hsame, Hka, Hkb.
    assert (Hk : kb = ka) by lia. rewrite Hk, Hqa in Hqb.
    injection Hqb as <-. subst ca cb.
    unfold confidence in Hlt. simpl in Hlt. now apply Qlt_irrefl in Hlt.
  - split; [rewrite Heq; apply Qle_refl | lia].
Qed.

Lemma split_from_blank (s : string) :
  blank s = true -> Words.split_from EmptyString s = [].
Proof.
  induction s as [|c rest IH]; simpl; [reflexivity |].
  intros H. apply andb_true_iff in H as [Hc Hrest]. rewrite Hc. simpl. now apply IH.
Qed.

Lemma blank_lower (s : string) : blank (PyStr.lower s) = blank s.
Proof.
  induction s as [|c rest IH]; simpl; [reflexivity |].
  now rewrite is_space_lower_char, IH.
Qed.

(** X25. An answer with no words, empty or all white space, matches no
    question, and so does any answer when there are no questions. *)
Theorem blank_answer_matches_nothing (user_answer : string) (questions : list string) :
  blank user_answer = true \/ questions = [] ->
  detect_question_matches user_answer questions = [].
Proof.
  intros [Hblank | ->]; [|reflexivity].
  unfold detect_question_matches, Words.word_set, Words.split.
  rewrite split_from_blank by now rewrite blank_lower.
  change (list_to_set []) with (∅ : gset string).
  assert (Hnone : forall first,
            collect_matches (∅ : gset string) first questions = []).
  { induction questions as [|q rest IH]; intros first; simpl; [reflexivity |].
    replace (size (∅ ∩ Words.word_set q)) with 0; [apply IH |].
    symmetry. apply size_empty_iff. intros x. rewrite elem_of_intersection.
    split; [intros [H _]; exact H | intros H; now apply elem_of_empty in H]. }
  now rewrite Hnone.
Qed.

Lemma question_matches_are_ranked_witness :
  ranks_before
    (1, "Have you used Terraform in production", 2 # 6)
    (0, "Do you have cloud experience", 1 # 5).
Proof.
  apply (question_matches_are_ranked "I used Terraform and some cloud"
           [ "Do you have cloud experience"; "Have you used Terraform in production" ]
           0 1
           (1, "Have you used Terraform in production", 2 # 6)
           (0, "Do you have cloud experience", 1 # 5)).
  - lia.
  - vm_compute. reflexivity.
  - vm_compute. reflexivity.
Defined.

Lemma blank_answer_matches_nothing_witness :
  detect_question_matches "   " [ "Do you have cloud experience" ] = [].
Proof.
  apply (blank_answer_matches_nothing "   " [ "Do you have cloud experience" ]).
  left. reflexivity.
Defined.

(** ** General chat as the graph wires it *)

Lemma guard_of_blank (raw : string) :
  blank raw = true ->
  negb (PyStr.nonempty raw) || negb (PyStr.nonempty (PyStr.strip raw)) = true.
Proof.
  intros Hb. apply strip_empty_iff in Hb. rewrite Hb. apply orb_true_r.
Qed.

Section WiredGeneralChat.

Variable GOOGLE_API_KEY : option string.
Variable acompletion : string -> string -> nat -> completion.
Variable json_loads : string -> option pyval.
Variable json_dumps : pyval -> string.
Variable py_str : pyval -> string.
Variable render : prompt -> string.

(** X26. What general chat says when the model does not reply with a
    decision. With an API key, below the cap: when the completion call
    fails, or the reply is missing, empty or all white space, general chat
    says the fixed error message; when the reply is prose with no brace span
    in it, general chat says the reply itself, trimmed. In each case the
    turn ends in general chat, with no active section and the counter
    at 0. *)
Theorem general_chat_relays_the_reply (st : ResumeBuilderState) (c : pydict pyval)
    (key : string) (reply : completion) (message : string) :
  GOOGLE_API_KEY = Some key ->
  (routing_attempts st < 3)%Z ->
  compact_sections_of (section_objects st) [] = Ok c ->
  acompletion (render (GeneralChatPrompt c (jd_summary st)))
    (json_dumps (general_chat_payload (context st) c)) 400 = reply ->
  (reply = Failed
   /\ message = "I encountered an error processing your request. Please try again.")
  \/ (exists text,
        reply = Replied text /\ blank (text_or_empty text) = true
        /\ message = "I encountered an error processing your request. Please try again.")
  \/ (exists raw,
        reply = Replied (Some raw) /\ blank raw = false /\ Re.search raw = None
        /\ message = PyStr.strip raw) ->
  GeneralChat GOOGLE_API_KEY acompletion json_loads json_dumps py_str render st
  = Returns tt (answered message st).
Proof.
  intros Hkey Hlt C Hreply Hcases. unfold GeneralChat.
  rewrite (general_chat_below_cap py_str render _ st c Hlt C).
  unfold call_llm_json_decision, OFFLINE_MODE. rewrite Hkey. cbv zeta. rewrite Hreply.
  destruct Hcases as [(-> & ->) | [(text & -> & Hblank & ->) | (raw & -> & Hb & Hs & ->)]].
  - reflexivity.
  - unfold extract_and_validate_json. rewrite (guard_of_blank _ Hblank). reflexivity.
  - unfold extract_and_validate_json, text_or_empty.
    rewrite (guard_of_nonblank _ Hb), Hs.
    unfold try_catch, general_chat_route. cbv zeta.
    change (Dict.get_default "action" PNone _) with (PStr "answer").
    change (Dict.get_default "answer" (PStr EmptyString) _) with (PStr (PyStr.strip raw)).
    cbn [Py.eq_str String.eqb Ascii.eqb Bool.eqb andb].
    assert (Hne : Py.truthy (PStr (PyStr.strip raw)) = true).
    { simpl. destruct (PyStr.strip raw) eqn:E; [|reflexivity].
      apply strip_empty_iff in E. congruence. }
    rewrite Hne. reflexivity.
Qed.

End WiredGeneralChat.

Lemma general_chat_relays_the_reply_witness :
  GeneralChat (Some "key") (replying "  Happy to help with your resume.  ")
    (loads_from []) sample_dumps sample_str sample_render idle_state
  = Returns tt (answered "Happy to help with your resume." idle_state).
Proof.
  apply (general_chat_relays_the_reply (Some "key")
           (replying "  Happy to help with your resume.  ") (loads_from [])
           sample_dumps sample_str sample_render idle_state [] "key"
           (Replied (Some "  Happy to help with your resume.  "))
           "Happy to help with your resume.").
  - reflexivity.
  - reflexivity.
  - reflexivity.
  - reflexivity.
  - right. right. exists "  Happy to help with your resume.  ".
    repeat split.
Defined.

Lemma question_matches_are_the_overlapping_questions_witness :
  In (1, "Have you used Terraform in production", 2 # 6)
    (detect_question_matches "I used Terraform and some cloud"
       [ "Do you have cloud experience"; "Have you used Terraform in production" ]).
Proof.
  apply (question_matches_are_the_overlapping_questions
           "I used Terraform and some cloud"
           [ "Do you have cloud experience"; "Have you used Terraform in production" ]
           1 "Have you used Terraform in production" (2 # 6)).
  split; [reflexivity |]. split; [vm_compute; lia | vm_compute; reflexivity].
Defined.

(** ** The overview of the sections *)

Lemma prefix_length (n : nat) (s : string) : String.length (PyStr.prefix n s) <= n.
Proof.
  unfold PyStr.prefix. revert s. induction n as [|n IH]; intros s.
  - destruct s; simpl; lia.
  - destruct s as [|c rest]; simpl; [lia |]. specialize (IH rest). lia.
Qed.

Lemma slice2_short (v first_two : pyval) :
  Py.slice2 v = Some first_two -> exists n, Py.len first_two = Some n /\ n <= 2.
Proof.
  destruct v as [| | | |s|l|d]; simpl; try discriminate; intros [= <-]; simpl.
  - eexists. split; [reflexivity | apply prefix_length].
  - eexists. split; [reflexivity |]. rewrite length_take. lia.
Qed.

Lemma compact_sections_from (sections : pydict (pydict pyval)) :
  forall acc c,
    NoDup (Dict.keys acc ++ Dict.keys sections) ->
    compact_sections_of sections acc = Ok c ->
    Dict.keys c = Dict.keys acc ++ Dict.keys sections
    /\ (forall s, In s (Dict.keys acc) -> Dict.get s c = Dict.get s acc)
    /\ (forall s data, Dict.get s sections = Some data ->
          exists first_two,
            Py.slice2 (missing_of data) = Some first_two
            /\ Dict.get s c = Some (summary_of data first_two)).
Proof.
  induction sections as [|[s0 data0] rest IH]; intros acc c Hnd H; simpl in H.
  - injection H as <-. simpl. rewrite app_nil_r.
    split; [reflexivity |]. split; [reflexivity |]. intros s data Hs. discriminate Hs.
  - fold (missing_of data0) in H.
    destruct (Py.slice2 (missing_of data0)) as [first_two|] eqn:Hslice; [|discriminate].
    fold (summary_of data0 first_two) in H.
    assert (Hfresh : ~ In s0 (Dict.keys acc)).
    { intros Hin. apply NoDup_app in Hnd as (_ & Hdisj & _).
      apply (Hdisj s0); [now apply list_elem_of_In | simpl; left]. }
    assert (Hkeys : Dict.keys (Dict.set s0 (summary_of data0 first_two) acc)
                    = Dict.keys acc ++ [s0])
      by now apply dict_keys_set_fresh.
    destruct (IH (Dict.set s0 (summary_of data0 first_two) acc) c) as (Hk & Hacc & Hrest).
    { rewrite Hkeys, <- app_assoc. exact Hnd. }
    { exact H. }
    split; [rewrite Hk, Hkeys, <- app_assoc; reflexivity |]. split.
    + intros s Hin. rewrite Hacc by (rewrite Hkeys; apply in_or_app; now left).
      apply dict_get_set_ne. intros ->. contradiction.
    + intros s data Hs. simpl in Hs.
      destruct (String.eqb_spec s s0) as [->|Hne].
      * injection Hs as <-. exists first_two. split; [exact Hslice |].
        rewrite Hacc by (rewrite Hkeys; apply in_or_app; right; now left).
        apply dict_get_set_eq.
      * now apply Hrest.
Qed.

(** X27. The overview of the sections that general chat sends to the model
    covers every section of the metadata, in the same order, and never holds
    more than two missing requirements for a section: each section is
    summarised by its alignment score, null if it has none, and by the first
    two of its missing requirements. *)
Theorem overview_covers_every_section (sections : pydict (pydict pyval))
    (c : pydict pyval) :
  NoDup (Dict.keys sections) ->
  compact_sections_of sections [] = Ok c ->
  Dict.keys c = Dict.keys sections
  /\ forall s data, Dict.get s sections = Some data ->
       exists first_two n,
         Py.slice2 (missing_of data) = Some first_two
         /\ Dict.get s c = Some (summary_of data first_two)
         /\ Py.len first_two = Some n /\ n <= 2.
Proof.
  intros Hnd H.
  destruct (compact_sections_from sections [] c Hnd H) as (Hk & _ & Hrest).
  split; [exact Hk |]. intros s data Hs.
  destruct (Hrest s data Hs) as (first_two & Hslice & Hget).
  destruct (slice2_short _ _ Hslice) as (n & Hn & Hle).
  exists first_two, n. repeat split; assumption.
Qed.

Lemma overview_covers_every_section_witness :
  Dict.keys
    [ ("skills",
        PDict [ ("alignment_score", PInt 85);
                ("missing_requirements", PList [PStr "GCP"; PStr "Terraform"]) ]);
      ("education",
        PDict [ ("alignment_score", PInt 90); ("missing_requirements", PList []) ]) ]
  = Dict.keys (section_objects in_skills).
Proof.
  apply (overview_covers_every_section (section_objects in_skills)).
  - simpl. apply NoDup_cons_2; [|apply NoDup_cons_2; [|apply NoDup_nil_2]];
      intros H; apply list_elem_of_In in H; simpl in H; decompose [or] H;
      try discriminate; assumption.
  - reflexivity.
Defined.

(** ** An update that is not a text *)

Lemma apply_updates_app (section : string) (n_current : nat)
    (front back : list pyval) :
  forall first s,
    apply_updates section n_current first (front ++ back) s
    = (apply_updates section n_current first front ;;
       apply_updates section n_current (first + length front) back) s.
Proof.
  induction front as [|u front IH]; intros first s; simpl.
  - unfold bind, ret. now rewrite Nat.add_0_r.
  - match goal with |- (bind ?m _) s = _ => set (step := m) end.
    unfold bind. destruct (step s) as [[] s1|e s1]; [|reflexivity].
    rewrite IH. unfold bind. now rewrite Nat.add_succ_r.
Qed.

(** X28. A value among the updated answers that counts as true and is not
    a text stops the update loop with an [AttributeError], and the loop does
    not undo what it has done: the updates before that value are applied,
    slot by slot, and the ones after it are not looked at. The list of
    answers keeps its length. *)
Theorem bad_update_stops_half_way (section : string)
    (good rest : list pyval) (bad : pyval)
    (s : ResumeBuilderState) (l : list string) :
  recommended_answers s !! section = Some l ->
  Forall (fun u => appliable u = true) good ->
  Py.truthy bad = true -> (forall a, bad <> PStr a) ->
  length good < length l ->
  exists l',
    apply_updates section (length l) 0 (good ++ bad :: rest) s
    = Raises AttributeError
        (set_recommended_answers (<[section := l']> (recommended_answers s)) s)
    /\ length l' = length l
    /\ forall i old, l !! i = Some old ->
         l' !! i = Some (updated_slot old (good !! i)).
Proof.
  intros Hl Hgood Hbad Hnot Hlen.
  destruct (apply_updates_from section good 0 s l Hl Hgood) as (l' & E & Hlen' & Hpt).
  exists l'. split; [|split; [exact Hlen' |]].
  - rewrite apply_updates_app. unfold bind at 1. rewrite E. simpl.
    unfold bind at 1.
    destruct (Nat.ltb_spec (length good) (length l)) as [_|Hge]; [|lia].
    rewrite Hbad. cbn [andb].
    destruct bad as [| | | |a| |]; try reflexivity.
    exfalso. now apply (Hnot a).
  - intros i old Hi. rewrite (Hpt i old Hi). simpl. now rewrite Nat.sub_0_r.
Qed.

Lemma bad_update_stops_half_way_witness :
  exists l',
    apply_updates "skills" 3 0 [PStr " Terraform modules "; PInt 7; PStr "never read"]
      in_skills
    = Raises AttributeError
        (set_recommended_answers (<["skills" := l']> (recommended_answers in_skills))
           in_skills)
    /\ l' !! 0 = Some "Terraform modules"
    /\ l' !! 2 = Some EmptyString.
Proof.
  destruct (bad_update_stops_half_way "skills" [PStr " Terraform modules "]
              [PStr "never read"] (PInt 7) in_skills
              [EmptyString; EmptyString; EmptyString])
    as (l' & E & _ & Hpt).
  - reflexivity.
  - repeat constructor.
  - reflexivity.
  - discriminate.
  - simpl. lia.
  - exists l'. split; [exact E |]. split.
    + rewrite (Hpt 0 EmptyString eq_refl). reflexivity.
    + rewrite (Hpt 2 EmptyString eq_refl). reflexivity.
Defined.

(** ** The updater and the applier without a reply *)

Section WithoutReply.

Variable GOOGLE_API_KEY : option string.
Variable acompletion : string -> string -> nat -> completion.
Variable json_loads : string -> option pyval.
Variable json_dumps : pyval -> string.
Variable py_str : pyval -> string.
Variable render : prompt -> string.
Variable check_mark : string.

(** X29. Without a reply of the model the updater stages nothing. With no
    API key, or when the completion call fails, the updater as the graph
    wires it leaves the staged content as it was, says that it has trouble
    updating the section, and hands back to section chat. *)
Theorem updater_stages_nothing_without_a_reply (st : ResumeBuilderState)
    (section : string) (stored : gmap string pyval) :
  current_section st = Some section -> section <> EmptyString ->
  resume_sections st = Some stored ->
  Py.iterable (questions_of section st) = true ->
  GOOGLE_API_KEY = None
  \/ (forall system user, acompletion system user 600 = Failed) ->
  SectionUpdater GOOGLE_API_KEY acompletion json_loads json_dumps py_str render st
  = Returns tt
      (set_next_action (Some "section_chat")
         (set_context
            (context st ++
             [make_message "assistant"
                (PStr ("Having trouble updating " +:+ section +:+ ". Let's continue."))])
            st)).
Proof.
  intros Hs Hne Hst Hit Hno. unfold SectionUpdater, section_updater_node.
  unfold bind at 1. unfold gets at 1. rewrite Hs.
  destruct section as [|ch rest]; [contradiction |].
  unfold bind at 1. unfold gets at 1. cbv zeta.
  unfold bind at 1. unfold gets at 1.
  unfold bind at 1. unfold stored_content. unfold bind at 1. unfold gets at 1.
  rewrite Hst. unfold ret at 1.
  fold (questions_of (String ch rest) st). rewrite Hit.
  unfold bind at 1. unfold ret at 1.
  assert (Hdecision : forall system payload,
            call_llm_json_decision GOOGLE_API_KEY acompletion json_loads json_dumps
              system payload 600 = offline_decision
            \/ call_llm_json_decision GOOGLE_API_KEY acompletion json_loads json_dumps
                 system payload 600 = error_decision).
  { intros system payload. unfold call_llm_json_decision, OFFLINE_MODE.
    destruct Hno as [-> | Hfail]; [now left |].
    destruct GOOGLE_API_KEY; [right; now rewrite Hfail | now left]. }
  match goal with
  | |- context [call_llm_json_decision _ _ _ _ ?system ?payload 600] =>
      destruct (Hdecision system payload) as [-> | ->]
  end; reflexivity.
Qed.

(** X30. With no API key an apply records the fixed offline analysis:
    the content is committed, the section gets the score 75, one missing
    requirement and one question that asks for more examples, its list of
    answers is reset to one empty answer, and the confirmation is
    appended. *)
Theorem offline_apply_records_the_fixed_analysis (st : ResumeBuilderState)
    (stored : gmap string pyval) (section : string) (content : pyval) :
  GOOGLE_API_KEY = None ->
  resume_sections st = Some stored ->
  exists st' message,
    apply_section_changes_internal GOOGLE_API_KEY acompletion json_loads py_str render
      check_mark section content st = Returns tt st'
    /\ resume_sections st' = Some (<[section := content]> stored)
    /\ section_objects st' = recorded section (offline_analysis section) (section_objects st)
    /\ Dict.get "alignment_score" (Dict.get_default section [] (section_objects st'))
       = Some (PInt 75)
    /\ Dict.get "recommended_questions" (Dict.get_default section [] (section_objects st'))
       = Some (PList [PStr ("Add more examples to " +:+ section +:+ "?")])
    /\ recommended_answers st' = <[section := [EmptyString]]> (recommended_answers st)
    /\ context st' = context st ++ [make_message "assistant" message].
Proof.
  intros Hkey Hst.
  rewrite (apply_committed GOOGLE_API_KEY acompletion json_loads py_str render
             check_mark st stored section content Hst).
  unfold try_catch. unfold bind at 1. unfold analyze, OFFLINE_MODE. rewrite Hkey.
  unfold lift_result, ret at 1.
  pose proof (record_analysis_outcome py_str check_mark section (offline_analysis section)
                (committed section content stored st)) as Hrec.
  cbv zeta in Hrec.
  change (reset_ledger _) with (Some [EmptyString]) in Hrec.
  destruct Hrec as (message & ->).
  eexists _, message. split; [reflexivity |]. simpl.
  split; [reflexivity |]. split; [reflexivity |].
  unfold recorded. rewrite !dict_get_default_set_eq.
  split; [now rewrite !dict_get_set_ne by discriminate; rewrite dict_get_set_eq |].
  split; [now rewrite dict_get_set_eq |].
  split; reflexivity.
Qed.

End WithoutReply.

Lemma updater_stages_nothing_without_a_reply_witness :
  SectionUpdater None failing_completion (loads_from []) sample_dumps sample_str
    sample_render in_skills
  = Returns tt
      (set_next_action (Some "section_chat")
         (set_context
            (context in_skills ++
             [make_message "assistant"
                (PStr ("Having trouble updating " +:+ "skills" +:+ ". Let's continue."))])
            in_skills)).
Proof.
  apply (updater_stages_nothing_without_a_reply None failing_completion (loads_from [])
           sample_dumps sample_str sample_render in_skills "skills"
           {[ "skills" := PStr "java, python, aws" ]}).
  - reflexivity.
  - discriminate.
  - reflexivity.
  - reflexivity.
  - left. reflexivity.
Defined.

Lemma offline_apply_records_the_fixed_analysis_witness :
  exists st' message,
    apply_section_changes_internal None failing_completion (loads_from []) sample_str
      sample_render "[saved]" "skills" (PStr "java, python, aws, gcp") answered_skills
    = Returns tt st'
    /\ resume_sections st'
       = Some (<["skills" := PStr "java, python, aws, gcp"]>
                 {[ "skills" := PStr "java, python, aws" ]})
    /\ recommended_answers st'
       = <["skills" := [EmptyString]]> (recommended_answers answered_skills)
    /\ context st' = context answered_skills ++ [make_message "assistant" message].
Proof.
  destruct (offline_apply_records_the_fixed_analysis None failing_completion
              (loads_from []) sample_str sample_render "[saved]" answered_skills
              {[ "skills" := PStr "java, python, aws" ]} "skills"
              (PStr "java, python, aws, gcp") eq_refl eq_refl)
    as (st' & message & E & Hst & _ & _ & _ & Hans & Hc).
  exists st', message. repeat split; assumption.
Defined.

(** * Decisions as the graph delivers them

    The handlers of the graph get their decisions from
    [call_llm_json_decision], and so through the extractor. *)

Lemma not_a_listed_action (action : pyval) (actions : list string) :
  (forall a, In a actions -> action <> PStr a) ->
  existsb (Py.eq_str action) actions = false.
Proof.
  intros H. induction actions as [|x rest IH]; simpl; [reflexivity |].
  rewrite IH by (intros a Ha; apply H; now right).
  destruct action as [| | | |a| |]; simpl; try reflexivity.
  destruct (String.eqb_spec a x) as [->|Hne]; [|reflexivity].
  exfalso. apply (H x); [now left | reflexivity].
Qed.

Lemma a_listed_action (action : pyval) (actions : list string) :
  existsb (Py.eq_str action) actions = true -> exists a, In a actions /\ action = PStr a.
Proof.
  induction actions as [|x rest IH]; simpl; [discriminate |].
  intros H. apply orb_true_iff in H as [H|H].
  - destruct action as [| | | |a| |]; simpl in H; try discriminate.
    apply String.eqb_eq in H. subst a. exists x. split; [now left | reflexivity].
  - destruct (IH H) as (a & Ha & ->). exists a. split; [now right | reflexivity].
Qed.

(** The last branch of the dispatch of section chat, which is taken by
    every decision whose action is none of the four that route. *)
Lemma section_chat_route_stay (py_str : pyval -> string) (section : string)
    (available : list string) (parsed : pydict pyval) (s : ResumeBuilderState) :
  (exists a, Dict.get_default "action" (PStr "stay") parsed = PStr a
             /\ In a [ "stay"; "answer"; "route" ]) ->
  section_chat_route py_str section available parsed s
  = Returns tt
      (if Py.truthy (Dict.get_default "answer" (PStr EmptyString) parsed)
       then set_context
              (context s ++
               [make_message "assistant"
                  (Dict.get_default "answer" (PStr EmptyString) parsed)])
              (set_next_action None s)
       else set_next_action None s).
Proof.
  intros (a & Ha & Hin). unfold section_chat_route. cbv zeta. rewrite Ha.
  simpl in Hin. destruct Hin as [<- | [<- | [<- | []]]];
    cbn [Py.eq_str String.eqb Ascii.eqb Bool.eqb andb];
    unfold bind, modify, append_message, ret;
    destruct (Py.truthy (Dict.get_default "answer" (PStr EmptyString) parsed));
    reflexivity.
Qed.

Section Delivered.

Variable GOOGLE_API_KEY : option string.
Variable acompletion : string -> string -> nat -> completion.
Variable json_loads : string -> option pyval.
Variable json_dumps : pyval -> string.
Variable py_str : pyval -> string.
Variable render : prompt -> string.

Local Abbreviation section_chat :=
  (SectionChat GOOGLE_API_KEY acompletion json_loads json_dumps py_str render).
Local Abbreviation delivered :=
  (call_llm_json_decision GOOGLE_API_KEY acompletion json_loads json_dumps).

(** What the extractor makes of a reply that holds an object with a
    hashable action. *)
Lemma extract_object (raw json_text : string) (parsed : pydict pyval) (action : pyval) :
  blank raw = false -> Re.search raw = Some json_text ->
  json_loads json_text = Some (PDict parsed) ->
  Dict.get "action" parsed = Some action -> Py.hashable action = true ->
  extract_and_validate_json json_loads raw
  = Ok (if existsb (Py.eq_str action) valid_actions then parsed
        else Dict.set "action" (PStr "answer") parsed).
Proof.
  intros Hb Hs Hl Ha Hh. unfold extract_and_validate_json.
  rewrite (guard_of_nonblank raw Hb), Hs, Hl, Ha, Hh. cbn [negb].
  now destruct (existsb (Py.eq_str action) valid_actions).
Qed.

(** The decision that a handler gets for such a reply: the object of the
    reply, its action apart, which is [answer] or [route]. *)
Lemma delivered_object (key raw json_text : string) (parsed : pydict pyval)
    (action : pyval) (system : string) (payload : pyval) :
  GOOGLE_API_KEY = Some key ->
  (forall system user, acompletion system user 500 = Replied (Some raw)) ->
  blank raw = false -> Re.search raw = Some json_text ->
  json_loads json_text = Some (PDict parsed) ->
  Dict.get "action" parsed = Some action -> Py.hashable action = true ->
  (exists a, Dict.get_default "action" (PStr "stay") (delivered system payload 500) = PStr a
             /\ In a [ "stay"; "answer"; "route" ])
  /\ forall k, k <> "action" ->
       Dict.get k (delivered system payload 500) = Dict.get k parsed.
Proof.
  intros Hkey Hreply Hb Hs Hl Ha Hh.
  unfold call_llm_json_decision, OFFLINE_MODE. rewrite Hkey, Hreply. cbv zeta.
  unfold text_or_empty. rewrite (extract_object raw json_text parsed action Hb Hs Hl Ha Hh).
  destruct (existsb (Py.eq_str action) valid_actions) eqn:Hv.
  - split; [|reflexivity].
    destruct (a_listed_action _ _ Hv) as (a & Hin & ->).
    exists a. split; [unfold Dict.get_default; now rewrite Ha |].
    simpl in Hin. simpl. tauto.
  - split.
    + exists "answer". split; [apply dict_get_default_set_eq | simpl; tauto].
    + intros k Hk. now apply dict_get_set_ne.
Qed.

(** Two decisions that differ in the action only, neither action being one
    that routes, take a turn of section chat to the same end. *)
Lemma section_chat_reads_the_rest (d1 d2 : pydict pyval) (section : string)
    (available : list string) (l : list string) (s : ResumeBuilderState) :
  (exists a, Dict.get_default "action" (PStr "stay") d1 = PStr a
             /\ In a [ "stay"; "answer"; "route" ]) ->
  (exists a, Dict.get_default "action" (PStr "stay") d2 = PStr a
             /\ In a [ "stay"; "answer"; "route" ]) ->
  (forall k, k <> "action" -> Dict.get k d1 = Dict.get k d2) ->
  try_catch (section_chat_updates section l d1 ;;
             section_chat_route py_str section available d1)
    (section_chat_fault section) s
  = try_catch (section_chat_updates section l d2 ;;
               section_chat_route py_str section available d2)
      (section_chat_fault section) s.
Proof.
  intros H1 H2 Hrest.
  assert (Hupdates : section_chat_updates section l d1 = section_chat_updates section l d2)
    by (unfold section_chat_updates; now rewrite (Hrest "updated_answers") by discriminate).
  assert (Hanswer : Dict.get_default "answer" (PStr EmptyString) d1
                    = Dict.get_default "answer" (PStr EmptyString) d2)
    by (unfold Dict.get_default; now rewrite (Hrest "answer") by discriminate).
  unfold try_catch, bind. rewrite Hupdates.
  destruct (section_chat_updates section l d2 s) as [[] s1|e s1]; [|reflexivity].
  rewrite (section_chat_route_stay py_str section available d1 s1 H1).
  rewrite (section_chat_route_stay py_str section available d2 s1 H2).
  now rewrite Hanswer.
Qed.

(** C1 (as the code has it). The extractor takes no handler and knows the
    two actions of general chat only: for a reply that holds an object whose
    action is hashable and is neither [answer] nor [route], it returns that
    object with the action set to [answer], whoever asked. In section chat a
    reply whose action is hashable and is none of the five that its prompt
    offers is handled as the same reply with the action [stay] would be: the
    turn comes to the same end, it returns, and the section stays active. *)
Theorem unknown_action_is_treated_as_stay
    (st : ResumeBuilderState) (section : string) (n : nat) (key raw json_text : string)
    (parsed : pydict pyval) (action : pyval) :
  blank raw = false -> Re.search raw = Some json_text ->
  json_loads json_text = Some (PDict parsed) ->
  Dict.get "action" parsed = Some action -> Py.hashable action = true ->
  ((forall a, In a valid_actions -> action <> PStr a) ->
   extract_and_validate_json json_loads raw
   = Ok (Dict.set "action" (PStr "answer") parsed))
  /\ (GOOGLE_API_KEY = Some key ->
      (forall system user, acompletion system user 500 = Replied (Some raw)) ->
      (forall a, In a section_chat_actions -> action <> PStr a) ->
      current_section st = Some section -> section <> EmptyString ->
      Py.len (questions_of section st) = Some n ->
      section_chat st
      = section_chat_node py_str render
          (decided (Dict.set "action" (PStr "stay") parsed)) st
      /\ exists st',
           section_chat st = Returns tt st'
           /\ current_section st' = Some section
           /\ next_action st' <> Some "exit_to_general").
Proof.
  intros Hb Hsearch Hl Ha Hh. split.
  - intros Hnot.
    rewrite (extract_object raw json_text parsed action Hb Hsearch Hl Ha Hh).
    now rewrite (not_a_listed_action action valid_actions Hnot).
  - intros Hkey Hreply Hnot Hs Hne Hn.
    assert (Hsame : section_chat st
                    = section_chat_node py_str render
                        (decided (Dict.set "action" (PStr "stay") parsed)) st).
    { unfold SectionChat.
      rewrite (section_chat_in_section py_str render _ st section n Hs Hne Hn).
      rewrite (section_chat_in_section py_str render
                 (decided (Dict.set "action" (PStr "stay") parsed)) st section n Hs Hne Hn).
      unfold section_chat_decision at 3 4. unfold decided.
      set (d := section_chat_decision render _ section n st).
      destruct (delivered_object key raw json_text parsed action
                  (render (SectionChatPrompt section (questions_of section st)
                             (rebuilt n section st)
                             (Nat.ltb 0 n && Nat.eqb (length (rebuilt n section st)) n
                              && all_nonblank (rebuilt n section st))
                             (Dict.keys (section_objects st))
                             (Dict.get_default section [] (section_objects st))))
                  (section_chat_payload section (Dict.keys (section_objects st))
                     (questions_of section st) (rebuilt n section st)
                     (Nat.ltb 0 n && Nat.eqb (length (rebuilt n section st)) n
                      && all_nonblank (rebuilt n section st))
                     (context st))
                  Hkey Hreply Hb Hsearch Hl Ha Hh) as (Hact & Hrest).
      apply section_chat_reads_the_rest.
      - exact Hact.
      - exists "stay". split; [apply dict_get_default_set_eq | simpl; tauto].
      - intros k Hk. transitivity (Dict.get k parsed); [exact (Hrest k Hk) |].
        symmetry. now apply dict_get_set_ne. }
    split; [exact Hsame |].
    destruct (wired_section_chat_turn GOOGLE_API_KEY acompletion json_loads json_dumps
                py_str render st section n Hs Hne Hn) as (st' & E & Hc & _ & Hnext).
    exists st'. split; [exact E |]. split; [exact Hc |].
    destruct Hnext as [-> | ->]; discriminate.
Qed.

(** C7 (as the code has it). A turn of section chat, in a section whose
    question list has a length, for which the model replies with an object
    whose action is [switch_section] and whose target resolves to the
    active section: the turn returns; the stored contents, the section
    metadata, the active section, the staged content and the ledgers of the
    other sections are as before, and the history has at most one assistant
    message more. The ledger of the active section is rebuilt to the length
    of the question list and then takes the updated answers of the reply,
    which are applied before the routing: slot by slot when every one of
    them is a text or counts as false. With no list of updated answers in
    the reply the ledger is the rebuilt one, and with a ledger already of
    that length it is as before too. *)
Theorem same_section_switch_frame (ratio : string -> string -> Q)
    (st : ResumeBuilderState) (section : string) (n : nat) (key raw json_text : string)
    (parsed : pydict pyval) (target : pyval) :
  GOOGLE_API_KEY = Some key ->
  (forall system user, acompletion system user 500 = Replied (Some raw)) ->
  current_section st = Some section -> section <> EmptyString ->
  Py.len (questions_of section st) = Some n ->
  blank raw = false -> Re.search raw = Some json_text ->
  json_loads json_text = Some (PDict parsed) ->
  Dict.get "action" parsed = Some (PStr "switch_section") ->
  Dict.get "target_section" parsed = Some target -> Py.truthy target = true ->
  normalize_section_value ratio target (Dict.keys (section_objects st))
  = Ok (Some section) ->
  exists st' l,
    section_chat st = Returns tt st'
    /\ resume_sections st' = resume_sections st
    /\ section_objects st' = section_objects st
    /\ current_section st' = Some section
    /\ proposed_section_content st' = proposed_section_content st
    /\ said_at_most_once (context st) (context st')
    /\ recommended_answers st' = <[section := l]> (recommended_answers st)
    /\ length l = n
    /\ (forall updates,
          Dict.get "updated_answers" parsed = Some (PList updates) ->
          Forall (fun u => appliable u = true) updates ->
          forall i old, rebuilt n section st !! i = Some old ->
            l !! i = Some (updated_slot old (updates !! i)))
    /\ ((forall updates, Dict.get "updated_answers" parsed <> Some (PList updates)) ->
        l = rebuilt n section st
        /\ forall l0, recommended_answers st !! section = Some l0 -> length l0 = n ->
             recommended_answers st' = recommended_answers st).
Proof.
  intros Hkey Hreply Hs Hne Hn Hb Hsearch Hl Ha Ht Htruthy Hnorm.
  unfold SectionChat.
  rewrite (section_chat_in_section py_str render _ st section n Hs Hne Hn).
  set (d := section_chat_decision render _ section n st).
  assert (Hd : (exists a, Dict.get_default "action" (PStr "stay") d = PStr a
                          /\ In a [ "stay"; "answer"; "route" ])
               /\ forall k, k <> "action" -> Dict.get k d = Dict.get k parsed).
  { apply (delivered_object key raw json_text parsed (PStr "switch_section")
             (render (SectionChatPrompt section (questions_of section st)
                        (rebuilt n section st)
                        (Nat.ltb 0 n && Nat.eqb (length (rebuilt n section st)) n
                         && all_nonblank (rebuilt n section st))
                        (Dict.keys (section_objects st))
                        (Dict.get_default section [] (section_objects st))))
             (section_chat_payload section (Dict.keys (section_objects st))
                (questions_of section st) (rebuilt n section st)
                (Nat.ltb 0 n && Nat.eqb (length (rebuilt n section st)) n
                 && all_nonblank (rebuilt n section st))
                (context st))
             Hkey Hreply Hb Hsearch Hl Ha eq_refl). }
  destruct Hd as (Hact & Hrest).
  assert (Hupd : Dict.get "updated_answers" d = Dict.get "updated_answers" parsed)
    by (apply Hrest; discriminate).
  set (s1 := reconciled n section st).
  set (l1 := rebuilt n section st).
  assert (Hl1 : recommended_answers s1 !! section = Some l1)
    by (unfold s1, reconciled; simpl; apply lookup_insert_eq).
  destruct (section_chat_updates_outcome section d s1 l1 Hl1) as (l & Hlen & _ & Hout).
  assert (Hlength : length l = n) by (rewrite Hlen; apply length_resize).
  set (s2 := set_recommended_answers (<[section := l]> (recommended_answers s1)) s1) in Hout.
  assert (Hledger : recommended_answers s2 = <[section := l]> (recommended_answers st))
    by (unfold s2, s1, reconciled; simpl; apply insert_insert_eq).
  assert (Hslots : forall updates,
            Dict.get "updated_answers" parsed = Some (PList updates) ->
            Forall (fun u => appliable u = true) updates ->
            forall i old, l1 !! i = Some old ->
              l !! i = Some (updated_slot old (updates !! i))).
  { intros updates Hup Hok i old Hi.
    destruct (apply_updates_from section updates 0 s1 l1 Hl1 Hok) as (l' & E & _ & Hpt).
    assert (Hsame : l = l').
    { unfold section_chat_updates in Hout. rewrite Hupd, Hup, E in Hout.
      destruct Hout as [Hout | [e Hout]]; [|discriminate].
      apply (f_equal (fun o => recommended_answers (final_state o) !! section)) in Hout.
      unfold s2 in Hout. simpl in Hout.
      rewrite !lookup_insert_eq in Hout. now injection Hout. }
    rewrite Hsame, (Hpt i old Hi). simpl. now rewrite Nat.sub_0_r. }
  assert (Hplain : (forall updates,
                      Dict.get "updated_answers" parsed <> Some (PList updates)) ->
                   l = l1).
  { intros Hno. unfold section_chat_updates in Hout. rewrite Hupd in Hout.
    assert (Hret : match Dict.get "updated_answers" parsed with
                   | Some (PList updated_answers) =>
                       apply_updates section (length l1) 0 updated_answers
                   | _ => ret tt
                   end s1 = Returns tt s1).
    { destruct (Dict.get "updated_answers" parsed) as [[| | | | |updates|]|];
        try reflexivity.
      exfalso. now apply (Hno updates). }
    rewrite Hret in Hout. destruct Hout as [Hout | [e Hout]]; [|discriminate].
    apply (f_equal (fun o => recommended_answers (final_state o) !! section)) in Hout.
    unfold s2 in Hout. simpl in Hout. rewrite !lookup_insert_eq in Hout.
    now injection Hout. }
  assert (Hkept : (forall updates,
                     Dict.get "updated_answers" parsed <> Some (PList updates)) ->
                  l = l1
                  /\ forall l0, recommended_answers st !! section = Some l0 ->
                       length l0 = n ->
                       <[section := l]> (recommended_answers st) = recommended_answers st).
  { intros Hno. split; [now apply Hplain |].
    intros l0 E0 Hn0. rewrite (Hplain Hno). unfold l1, rebuilt. rewrite E0. simpl.
    rewrite <- Hn0, resize_all. now apply insert_id. }
  unfold try_catch, bind. destruct Hout as [-> | [e ->]].
  - rewrite (section_chat_route_stay py_str section (Dict.keys (section_objects st)) d s2 Hact).
    destruct (Py.truthy (Dict.get_default "answer" (PStr EmptyString) d)).
    + eexists _, l. split; [reflexivity |]. simpl. rewrite !insert_insert_eq.
      split; [reflexivity |]. split; [reflexivity |]. split; [exact Hs |].
      split; [reflexivity |]. split; [right; eexists; reflexivity |]. split; [reflexivity |].
      split; [exact Hlength |]. split; [exact Hslots | exact Hkept].
    + eexists _, l. split; [reflexivity |]. simpl. rewrite !insert_insert_eq.
      split; [reflexivity |]. split; [reflexivity |]. split; [exact Hs |].
      split; [reflexivity |]. split; [now left |]. split; [reflexivity |].
      split; [exact Hlength |]. split; [exact Hslots | exact Hkept].
  - rewrite section_chat_fault_returns.
    eexists _, l. split; [reflexivity |]. simpl. rewrite !insert_insert_eq.
    split; [reflexivity |]. split; [reflexivity |]. split; [exact Hs |].
    split; [reflexivity |]. split; [right; eexists; reflexivity |]. split; [reflexivity |].
    split; [exact Hlength |]. split; [exact Hslots | exact Hkept].
Qed.

End Delivered.

Lemma unknown_action_is_treated_as_stay_witness :
  extract_and_validate_json (loads_from section_replies) unknown_action_reply
  = Ok (Dict.set "action" (PStr "answer") [ ("action", PStr "dance"); ("answer", PStr "hi") ])
  /\ SectionChat (Some "key") (replying unknown_action_reply) (loads_from section_replies)
       sample_dumps sample_str sample_render in_skills
     = section_chat_node sample_str sample_render
         (decided (Dict.set "action" (PStr "stay")
                     [ ("action", PStr "dance"); ("answer", PStr "hi") ]))
         in_skills
  /\ exists st',
       SectionChat (Some "key") (replying unknown_action_reply)
         (loads_from section_replies) sample_dumps sample_str sample_render in_skills
       = Returns tt st'
       /\ current_section st' = Some "skills"
       /\ next_action st' <> Some "exit_to_general".
Proof.
  destruct (unknown_action_is_treated_as_stay (Some "key") (replying unknown_action_reply)
              (loads_from section_replies) sample_dumps sample_str sample_render
              in_skills "skills" 3 "key" unknown_action_reply unknown_action_reply
              [ ("action", PStr "dance"); ("answer", PStr "hi") ] (PStr "dance"))
    as (Hextract & Hchat).
  - reflexivity.
  - vm_compute. reflexivity.
  - reflexivity.
  - reflexivity.
  - reflexivity.
  - split.
    + apply Hextract. intros a Hin. simpl in Hin.
      destruct Hin as [<- | [<- | []]]; discriminate.
    + apply Hchat.
      * reflexivity.
      * reflexivity.
      * intros a Hin. unfold section_chat_actions in Hin. simpl in Hin.
        decompose [or] Hin; subst; try discriminate; contradiction.
      * reflexivity.
      * discriminate.
      * reflexivity.
Defined.

(** C1 (as stated) fails: for section chat the extractor does not coerce an
    unknown action to [stay]; the decision that section chat gets for the
    reply carries the action [answer]. *)
Lemma unknown_action_counterexample :
  let decision :=
    section_chat_decision sample_render
      (call_llm_json_decision (Some "key") (replying unknown_action_reply)
         (loads_from section_replies) sample_dumps)
      "skills" 3 in_skills in
  Dict.get "action" [ ("action", PStr "dance"); ("answer", PStr "hi") ]
  = Some (PStr "dance")
  /\ extract_and_validate_json (loads_from section_replies) unknown_action_reply
     = Ok decision
  /\ Dict.get "action" decision = Some (PStr "answer")
  /\ Dict.get "action" decision <> Some (PStr "stay").
Proof.
  vm_compute. repeat split. discriminate.
Qed.

Lemma same_section_switch_frame_witness :
  exists st' l,
    SectionChat (Some "key") (replying switch_reply) (loads_from switch_replies)
      sample_dumps sample_str sample_render in_skills = Returns tt st'
    /\ resume_sections st' = resume_sections in_skills
    /\ section_objects st' = section_objects in_skills
    /\ current_section st' = Some "skills"
    /\ recommended_answers st' = <["skills" := l]> (recommended_answers in_skills)
    /\ l !! 0 = Some EmptyString
    /\ l !! 2 = Some "Yes, for three production deployments".
Proof.
  destruct (same_section_switch_frame (Some "key") (replying switch_reply)
              (loads_from switch_replies) sample_dumps sample_str sample_render
              Difflib.ratio in_skills "skills" 3 "key" switch_reply switch_reply
              switch_to_skills_with_answer (PStr "skills"))
    as (st' & l & E & Hr & Ho & Hc & _ & _ & Hledger & _ & Hslots & _).
  - reflexivity.
  - reflexivity.
  - reflexivity.
  - discriminate.
  - reflexivity.
  - reflexivity.
  - vm_compute. reflexivity.
  - reflexivity.
  - reflexivity.
  - reflexivity.
  - reflexivity.
  - reflexivity.
  - exists st', l. repeat split; try assumption.
    + rewrite (Hslots [PNone; PNone; PStr "Yes, for three production deployments"]
                 eq_refl ltac:(repeat constructor) 0 EmptyString eq_refl).
      reflexivity.
    + rewrite (Hslots [PNone; PNone; PStr "Yes, for three production deployments"]
                 eq_refl ltac:(repeat constructor) 2 EmptyString eq_refl).
      reflexivity.
Defined.

(** C7 (as stated) fails: for a reply that switches to the active section
    and carries an answer of the user, that answer is written into the
    ledger of the section before the reply is routed. *)
Lemma same_section_switch_counterexample :
  let st' :=
    final_state
      (SectionChat (Some "key") (replying switch_reply) (loads_from switch_replies)
         sample_dumps sample_str sample_render in_skills) in
  loads_from switch_replies switch_reply = Some (PDict switch_to_skills_with_answer)
  /\ normalize_section_value Difflib.ratio (PStr "skills")
       (Dict.keys (section_objects in_skills)) = Ok (Some "skills")
  /\ current_section st' = current_section in_skills
  /\ recommended_answers in_skills !! "skills"
     = Some [EmptyString; EmptyString; EmptyString]
  /\ recommended_answers st' !! "skills"
     = Some [EmptyString; EmptyString; "Yes, for three production deployments"]
  /\ recommended_answers st' <> recommended_answers in_skills.
Proof.
  vm_compute. repeat split. discriminate.
Qed.
